(** * GO-http-server: router, request context and handlers

    A shallow embedding of the Go packages [httpcontext], [router] and
    [handlers], together with the parts of the Go standard library they
    call ([net/http], [net/http/httptest], [encoding/json], [unicode/utf8],
    [sync], [log]).

    Conventions of the embedding.
    - A Go [int] is a [Z]; a Go [string] or [[]byte] is a [string] (a list
      of 8-bit [ascii] bytes).
    - A Go map is a [gmap]; reading an absent key gives [None].
    - A pointer receiver or a pointer argument that the callee mutates is
      passed in and returned (state passing).
    - A call either returns or panics: [outcome].
    - Calls on [r.mu], calls of [log.Printf] and handler invocations are
      recorded, in program order, in a trace of [event]s. *)

From Stdlib Require Import ZArith Ascii String List Lia.
From Stdlib Require Import DecimalString DecimalPos DecimalFacts.
From stdpp Require Import base option list strings gmap sorting.

Open Scope string_scope.
Open Scope Z_scope.

(** ** Outcome of a Go call *)

Inductive outcome (A : Type) : Type :=
| Done (a : A)
| Panicked (msg : string).
Arguments Done {A} a.
Arguments Panicked {A} msg.

#[global] Instance outcome_ret : MRet outcome := fun _ a => Done a.
#[global] Instance outcome_bind : MBind outcome := fun _ _ f m =>
  match m with
  | Done a => f a
  | Panicked msg => Panicked msg
  end.

#[global] Instance outcome_fmap : FMap outcome := fun _ _ f m =>
  match m with
  | Done a => Done (f a)
  | Panicked msg => Panicked msg
  end.

(** The line feed byte, Go's ["\n"]. *)
Definition LF : string := String "010" "".

(** [strconv.Itoa]: decimal text of an integer. *)
Definition Itoa (n : Z) : string := NilZero.string_of_int (Z.to_int n).

(** ** net/http and net/http/httptest *)

(** [http.DetectContentType] (content sniffing) is a parameter of the
    model: the recorder consults it only when a body is written before
    any status line and without a [Content-Type] header. *)
Class ContentSniffer := DetectContentType : string → string.

(** The sniffer that takes every body for binary data; the examples run
    with it. *)
Definition binarySniffer : ContentSniffer := fun _ => "application/octet-stream".

Module http.

Definition StatusOK : Z := 200.
Definition StatusCreated : Z := 201.
Definition StatusNotFound : Z := 404.
Definition StatusInternalServerError : Z := 500.

(** [http.Header] is [map[string][]string]; keys are given in canonical
    MIME form, as at every call site of this program. *)
Abbreviation Header := (gmap string (list string)).

Definition Header_Set (key value : string) (h : Header) : Header :=
  <[key := [value]]> h.

Definition Header_Del (key : string) (h : Header) : Header :=
  delete key h.

Definition Header_Get (key : string) (h : Header) : string :=
  match h !! key with
  | Some (v :: _) => v
  | _ => ""
  end.

(** [httptest.ResponseRecorder], the response sink of the repository's
    tests. [snapHeader] is [None] while it is [nil]. *)
Record ResponseRecorder : Type := {
  Code : Z;
  HeaderMap : Header;
  Body : string;
  snapHeader : option Header;
  wroteHeader : bool
}.

Definition NewRecorder : ResponseRecorder :=
  {| Code := 200; HeaderMap := ∅; Body := ""; snapHeader := None;
     wroteHeader := false |}.

(** [w.Header().Set(key, value)] and [w.Header().Del(key)]: the header
    map handed out by [Header()] is the live [HeaderMap]. *)
Definition SetHeader (key value : string) (rw : ResponseRecorder)
  : ResponseRecorder :=
  {| Code := Code rw; HeaderMap := Header_Set key value (HeaderMap rw);
     Body := Body rw; snapHeader := snapHeader rw;
     wroteHeader := wroteHeader rw |}.

Definition DelHeader (key : string) (rw : ResponseRecorder)
  : ResponseRecorder :=
  {| Code := Code rw; HeaderMap := Header_Del key (HeaderMap rw);
     Body := Body rw; snapHeader := snapHeader rw;
     wroteHeader := wroteHeader rw |}.

(** [http.ErrBodyNotAllowed] *)
Definition ErrBodyNotAllowed : string :=
  "http: request method or response status code does not allow body".

(** [bodyAllowedForStatus]: no body goes with an informational status,
    with 204 or with 304. *)
Definition bodyAllowedForStatus (status : Z) : bool :=
  if (100 <=? status) && (status <=? 199) then false
  else if status =? 204 then false
  else if status =? 304 then false
  else true.

(** [checkWriteHeaderCode] panics outside 100..999. *)
Definition checkWriteHeaderCode (code : Z) : outcome unit :=
  if (code <? 100) || (code >? 999)
  then Panicked ("invalid WriteHeader code " +:+ Itoa code)
  else Done tt.

(** [ResponseRecorder.WriteHeader]: only the first call counts; it
    fixes the code and snapshots the headers. *)
Definition WriteHeader (code : Z) (rw : ResponseRecorder)
  : outcome ResponseRecorder :=
  if wroteHeader rw then Done rw
  else
    _ ← checkWriteHeaderCode code;
    Done {| Code := code; HeaderMap := HeaderMap rw; Body := Body rw;
            snapHeader := Some (HeaderMap rw); wroteHeader := true |}.

Section Sniffing.
Context `{!ContentSniffer}.

(** [ResponseRecorder.writeHeader], the implicit 200 of a first
    body write. *)
Definition writeHeader (b : string) (rw : ResponseRecorder)
  : outcome ResponseRecorder :=
  if wroteHeader rw then Done rw
  else
    let hasType := bool_decide (is_Some (HeaderMap rw !! "Content-Type")) in
    let hasTE :=
      negb (String.eqb (Header_Get "Transfer-Encoding" (HeaderMap rw)) "") in
    let rw1 :=
      if negb hasType && negb hasTE
      then SetHeader "Content-Type" (DetectContentType b) rw
      else rw in
    WriteHeader 200 rw1.

(** [ResponseRecorder.Write]: the bytes are recorded in every case; the
    error returned is [ErrBodyNotAllowed] when the status of the
    recorder does not allow a body, and [nil], here [None], otherwise. *)
Definition Write (buf : string) (rw : ResponseRecorder)
  : outcome (ResponseRecorder * option string) :=
  rw1 ← writeHeader buf rw;
  Done ({| Code := Code rw1; HeaderMap := HeaderMap rw1;
           Body := Body rw1 +:+ buf; snapHeader := snapHeader rw1;
           wroteHeader := wroteHeader rw1 |},
        if bodyAllowedForStatus (Code rw1) then None
        else Some ErrBodyNotAllowed).

(** [http.Error], as of Go 1.23; earlier releases do not clear
    [Content-Length], a header this program never sets. The result of
    the [fmt.Fprintln] that writes the message is dropped. *)
Definition Error (w : ResponseRecorder) (error : string) (code : Z)
  : outcome ResponseRecorder :=
  let w := DelHeader "Content-Length" w in
  let w := SetHeader "Content-Type" "text/plain; charset=utf-8" w in
  let w := SetHeader "X-Content-Type-Options" "nosniff" w in
  w ← WriteHeader code w;
  '(w, _) ← Write (error +:+ LF) w;
  Done w.

(** [http.NotFound]; the request argument is unused there. *)
Definition NotFound (w : ResponseRecorder) : outcome ResponseRecorder :=
  Error w "404 page not found" StatusNotFound.

End Sniffing.

(** [url.URL] and [http.Request], reduced to the fields the router
    reads: the method and the path as the transport parsed them. *)
Record URL : Type := { Path : string }.
Record Request : Type := { Method : string; RequestURL : URL }.

(** What a client receives: [ResponseRecorder.Result], reduced to
    status, headers and body. *)
Record Response : Type := {
  StatusCode : Z;
  RespHeader : Header;
  RespBody : string
}.

Definition Result (rw : ResponseRecorder) : Response :=
  {| StatusCode := if Code rw =? 0 then 200 else Code rw;
     RespHeader := default (HeaderMap rw) (snapHeader rw);
     RespBody := Body rw |}.

End http.

(** ** Bytes and unicode/utf8 *)

Definition byte_val (c : ascii) : Z := Z.of_N (N_of_ascii c).
Definition byte_chr (b : Z) : ascii := ascii_of_N (Z.to_N b).

(** [s[n:]] *)
Fixpoint string_drop (n : nat) (s : string) : string :=
  match n, s with
  | O, _ => s
  | S n', String _ t => string_drop n' t
  | S _, EmptyString => EmptyString
  end.

(** [s[:n]] *)
Fixpoint string_take (n : nat) (s : string) : string :=
  match n, s with
  | S n', String c t => String c (string_take n' t)
  | _, _ => EmptyString
  end.

Module utf8.

Definition RuneError : Z := 0xFFFD.
Definition RuneSelf : Z := 0x80.
Definition MaxRune : Z := 0x10FFFF.

(** The table [first] with [acceptRanges]: for a leading byte, the
    length of the sequence and the bounds of its second byte; [None]
    for a byte that cannot start a sequence ([xx]). *)
Definition first (s0 : Z) : option (nat * Z * Z) :=
  if (0xC2 <=? s0) && (s0 <=? 0xDF) then Some (2%nat, 0x80, 0xBF)
  else if s0 =? 0xE0 then Some (3%nat, 0xA0, 0xBF)
  else if (0xE1 <=? s0) && (s0 <=? 0xEC) then Some (3%nat, 0x80, 0xBF)
  else if s0 =? 0xED then Some (3%nat, 0x80, 0x9F)
  else if (0xEE <=? s0) && (s0 <=? 0xEF) then Some (3%nat, 0x80, 0xBF)
  else if s0 =? 0xF0 then Some (4%nat, 0x90, 0xBF)
  else if (0xF1 <=? s0) && (s0 <=? 0xF3) then Some (4%nat, 0x80, 0xBF)
  else if s0 =? 0xF4 then Some (4%nat, 0x80, 0x8F)
  else None.

Definition outside (lo hi b : Z) : bool := (b <? lo) || (hi <? b).

(** [utf8.DecodeRuneInString]: the first rune of [s] and its width in
    bytes; [(RuneError, 1)] for an invalid or truncated sequence. *)
Definition DecodeRuneInString (s : string) : Z * nat :=
  match s with
  | EmptyString => (RuneError, 0%nat)
  | String c0 t0 =>
    let s0 := byte_val c0 in
    if s0 <? RuneSelf then (s0, 1%nat)
    else
      match first s0 with
      | None => (RuneError, 1%nat)
      | Some (sz, lo, hi) =>
        if (String.length s <? sz)%nat then (RuneError, 1%nat)
        else
          match t0 with
          | EmptyString => (RuneError, 1%nat)
          | String c1 t1 =>
            let s1 := byte_val c1 in
            if outside lo hi s1 then (RuneError, 1%nat)
            else if (sz <=? 2)%nat then
              (Z.lor (Z.shiftl (Z.land s0 0x1F) 6) (Z.land s1 0x3F), 2%nat)
            else
              match t1 with
              | EmptyString => (RuneError, 1%nat)
              | String c2 t2 =>
                let s2 := byte_val c2 in
                if outside 0x80 0xBF s2 then (RuneError, 1%nat)
                else if (sz <=? 3)%nat then
                  (Z.lor (Z.lor (Z.shiftl (Z.land s0 0x0F) 12)
                                 (Z.shiftl (Z.land s1 0x3F) 6))
                         (Z.land s2 0x3F), 3%nat)
                else
                  match t2 with
                  | EmptyString => (RuneError, 1%nat)
                  | String c3 _ =>
                    let s3 := byte_val c3 in
                    if outside 0x80 0xBF s3 then (RuneError, 1%nat)
                    else
                      (Z.lor (Z.lor (Z.lor (Z.shiftl (Z.land s0 0x07) 18)
                                            (Z.shiftl (Z.land s1 0x3F) 12))
                                     (Z.shiftl (Z.land s2 0x3F) 6))
                             (Z.land s3 0x3F), 4%nat)
                  end
              end
          end
      end
  end.

(** [utf8.ValidString]: every byte of [s] belongs to a well-formed
    sequence. *)
Fixpoint ValidString_loop (fuel : nat) (s : string) : bool :=
  match fuel, s with
  | _, EmptyString => true
  | O, _ => false
  | S fuel', String c t =>
    if byte_val c <? RuneSelf then ValidString_loop fuel' t
    else
      let '(_, size) := DecodeRuneInString s in
      if (size =? 1)%nat then false
      else ValidString_loop fuel' (string_drop size s)
  end.

Definition ValidString (s : string) : bool :=
  ValidString_loop (String.length s) s.

(** [utf8.AppendRune] on an empty buffer: the UTF-8 bytes of [r];
    surrogates and values outside Unicode become U+FFFD. *)
Definition EncodeRune (r : Z) : string :=
  let tx (x : Z) := byte_chr (Z.lor 0x80 (Z.land x 0x3F)) in
  let three (r : Z) :=
    String (byte_chr (Z.lor 0xE0 (Z.shiftr r 12)))
      (String (tx (Z.shiftr r 6)) (String (tx r) "")) in
  if (0 <=? r) && (r <=? 0x7F) then String (byte_chr r) ""
  else if (0 <=? r) && (r <=? 0x7FF) then
    String (byte_chr (Z.lor 0xC0 (Z.shiftr r 6))) (String (tx r) "")
  else if (r <? 0) || (MaxRune <? r) || ((0xD800 <=? r) && (r <=? 0xDFFF))
  then three RuneError
  else if r <=? 0xFFFF then three r
  else
    String (byte_chr (Z.lor 0xF0 (Z.shiftr r 18)))
      (String (tx (Z.shiftr r 12))
         (String (tx (Z.shiftr r 6)) (String (tx r) ""))).

End utf8.

(** ** encoding/json *)

Module json.

Definition DQUOTE : ascii := "034"%char.
Definition BSLASH : ascii := "092"%char.

(** A string literal's delimiters around already escaped text. *)
Definition quoted (s : string) : string :=
  String DQUOTE (s +:+ String DQUOTE EmptyString).

Definition error : Type := string.

(** *** Encoding *)

Definition hex (n : Z) : ascii :=
  default "0"%char (String.get (Z.to_nat n) "0123456789abcdef").

(** [htmlSafeSet], for a byte below [utf8.RuneSelf]: printable ASCII and
    DEL, without the double quote, the backslash and the characters
    [<], [>] and [&]. *)
Definition htmlSafeSet (b : Z) : bool :=
  (0x20 <=? b) && negb (b =? 34) && negb (b =? 92)
    && negb (b =? 60) && negb (b =? 62) && negb (b =? 38).

(** The [switch b] of [appendString], for an ASCII byte outside
    [htmlSafeSet]. *)
Definition escape_byte (b : Z) : string :=
  if (b =? 92) || (b =? 34) then String BSLASH (String (byte_chr b) EmptyString)
  else if b =? 8 then String BSLASH "b"
  else if b =? 12 then String BSLASH "f"
  else if b =? 10 then String BSLASH "n"
  else if b =? 13 then String BSLASH "r"
  else if b =? 9 then String BSLASH "t"
  else String BSLASH
         ("u00" +:+ String (hex (Z.shiftr b 4))
                      (String (hex (Z.land b 0xF)) EmptyString)).

(** The loop of [appendString] with [escapeHTML] set, as [json.Marshal]
    and a new [Encoder] have it: one iteration per unit of [fuel], which
    [appendString] takes as the length of the source. *)
Fixpoint appendString_loop (fuel : nat) (src : string) : string :=
  match fuel, src with
  | O, _ => EmptyString
  | _, EmptyString => EmptyString
  | S fuel', String c t =>
    let b := byte_val c in
    if b <? utf8.RuneSelf then
      if htmlSafeSet b then String c (appendString_loop fuel' t)
      else escape_byte b +:+ appendString_loop fuel' t
    else
      let '(r, size) := utf8.DecodeRuneInString (string_take 4 src) in
      if (r =? utf8.RuneError) && (size =? 1)%nat then
        String BSLASH "ufffd" +:+ appendString_loop fuel' t
      else if (r =? 0x2028) || (r =? 0x2029) then
        String BSLASH "u202"
          +:+ String (hex (Z.land r 0xF))
                (appendString_loop fuel' (string_drop size src))
      else
        string_take size src
          +:+ appendString_loop fuel' (string_drop size src)
  end.

Definition appendString (src : string) : string :=
  quoted (appendString_loop (String.length src) src).

(** [strings.Join] *)
Fixpoint Join (elems : list string) (sep : string) : string :=
  match elems with
  | [] => EmptyString
  | [e] => e
  | e :: rest => e +:+ sep +:+ Join rest sep
  end.

(** *** Decoding: the scanner and the untyped value it delimits *)

#[local] Set Warnings "-register-all".
Inductive jvalue : Type :=
| JNull
| JBool (b : bool)
| JNumber (lit : string)
| JString (s : string)
| JArray (vs : list jvalue)
| JObject (ms : list (string * jvalue)).

Definition isSpace (c : ascii) : bool :=
  let b := byte_val c in (b =? 32) || (b =? 9) || (b =? 13) || (b =? 10).

Fixpoint skipSpace (s : string) : string :=
  match s with
  | String c t => if isSpace c then skipSpace t else s
  | EmptyString => EmptyString
  end.

Definition hexval (c : ascii) : option Z :=
  let b := byte_val c in
  if (48 <=? b) && (b <=? 57) then Some (b - 48)
  else if (97 <=? b) && (b <=? 102) then Some (b - 97 + 10)
  else if (65 <=? b) && (b <=? 70) then Some (b - 65 + 10)
  else None.

(** [getu4]: the rune of a [\uXXXX] escape at the head of [s], and the
    text after it. *)
Definition getu4 (s : string) : option (Z * string) :=
  match s with
  | String c0 (String c1 (String h1 (String h2 (String h3 (String h4 rest))))) =>
    if (byte_val c0 =? 92) && (byte_val c1 =? 117) then
      a ← hexval h1; b ← hexval h2; c ← hexval h3; d ← hexval h4;
      Some (a * 4096 + b * 256 + c * 16 + d, rest)
    else None
  | _ => None
  end.

(** [utf16.DecodeRune] *)
Definition utf16_DecodeRune (r1 r2 : Z) : Z :=
  if (0xD800 <=? r1) && (r1 <? 0xDC00) && (0xDC00 <=? r2) && (r2 <? 0xE000)
  then Z.lor (Z.shiftl (r1 - 0xD800) 10) (r2 - 0xDC00) + 0x10000
  else utf8.RuneError.

(** A string literal after its opening quote: the scanner's
    [stateInString] and [unquote] in one pass. The result is the decoded
    text and what follows the closing quote. *)
Fixpoint unquote_loop (fuel : nat) (s : string) : option (string * string) :=
  match fuel, s with
  | O, _ => None
  | _, EmptyString => None
  | S fuel', String c t =>
    let b := byte_val c in
    if b =? 34 then Some (EmptyString, t)
    else if b =? 92 then
      match t with
      | EmptyString => None
      | String e t' =>
        let eb := byte_val e in
        let simple (out : Z) :=
          '(r, rest) ← unquote_loop fuel' t';
          Some (String (byte_chr out) r, rest) in
        if (eb =? 34) || (eb =? 92) || (eb =? 47) then simple eb
        else if eb =? 98 then simple 8
        else if eb =? 102 then simple 12
        else if eb =? 110 then simple 10
        else if eb =? 114 then simple 13
        else if eb =? 116 then simple 9
        else if eb =? 117 then
          '(rr, after) ← getu4 s;
          let '(rr', after') :=
            if (0xD800 <=? rr) && (rr <? 0xE000) then
              match getu4 after with
              | Some (rr1, after1) =>
                let dec := utf16_DecodeRune rr rr1 in
                if dec =? utf8.RuneError then (utf8.RuneError, after)
                else (dec, after1)
              | None => (utf8.RuneError, after)
              end
            else (rr, after) in
          '(r, rest) ← unquote_loop fuel' after';
          Some (utf8.EncodeRune rr' +:+ r, rest)
        else None
      end
    else if b <? 32 then None
    else if b <? utf8.RuneSelf then
      '(r, rest) ← unquote_loop fuel' t;
      Some (String c r, rest)
    else
      let '(rr, size) := utf8.DecodeRuneInString s in
      '(r, rest) ← unquote_loop fuel' (string_drop size s);
      Some (utf8.EncodeRune rr +:+ r, rest)
  end.

Definition unquote (s : string) : option (string * string) :=
  unquote_loop (String.length s) s.

Definition isDigit (c : ascii) : bool :=
  (48 <=? byte_val c) && (byte_val c <=? 57).

Fixpoint digits (s : string) : string * string :=
  match s with
  | String c t =>
    if isDigit c then let '(d, rest) := digits t in (String c d, rest)
    else (EmptyString, s)
  | EmptyString => (EmptyString, EmptyString)
  end.

(** A number literal at the head of [s]: sign, integer part without a
    leading zero, optional fraction, optional exponent. *)
Definition scanNumber (s : string) : option (string * string) :=
  let '(sign, s1) :=
    match s with
    | String c t => if byte_val c =? 45 then ("-", t) else (EmptyString, s)
    | EmptyString => (EmptyString, s)
    end in
  '(int, s2) ←
    match s1 with
    | String c t =>
      if byte_val c =? 48 then Some ("0", t)
      else if isDigit c then Some (digits s1)
      else None
    | EmptyString => None
    end;
  '(frac, s3) ←
    match s2 with
    | String c t =>
      if byte_val c =? 46 then
        let '(d, rest) := digits t in
        if String.eqb d EmptyString then None else Some ("." +:+ d, rest)
      else Some (EmptyString, s2)
    | EmptyString => Some (EmptyString, s2)
    end;
  '(exp, s4) ←
    match s3 with
    | String c t =>
      if (byte_val c =? 101) || (byte_val c =? 69) then
        let '(esign, t1) :=
          match t with
          | String c' t' =>
            if (byte_val c' =? 43) || (byte_val c' =? 45)
            then (String c' EmptyString, t') else (EmptyString, t)
          | EmptyString => (EmptyString, t)
          end in
        let '(d, rest) := digits t1 in
        if String.eqb d EmptyString then None
        else Some (String c esign +:+ d, rest)
      else Some (EmptyString, s3)
    | EmptyString => Some (EmptyString, s3)
    end;
  Some (sign +:+ int +:+ frac +:+ exp, s4).

(** The head of what follows a number literal: not a digit, a point or
    an exponent mark. *)
Definition endsNumber (X : string) : Prop :=
  match X with
  | EmptyString => True
  | String c _ =>
    isDigit c = false ∧ byte_val c ≠ 46 ∧ byte_val c ≠ 101 ∧ byte_val c ≠ 69
  end.

Definition hasPrefix (p s : string) : option string :=
  if String.prefix p s then Some (string_drop (String.length p) s) else None.

(** One JSON value at the head of [s] (after white space) and the text
    that follows it; [fuel] bounds the number of values, array elements
    and object members visited. *)
Fixpoint scanValue (fuel : nat) (s : string) : option (jvalue * string) :=
  match fuel with
  | O => None
  | S fuel' =>
    match skipSpace s with
    | EmptyString => None
    | String c t as s' =>
      let b := byte_val c in
      if b =? 123 then
        match skipSpace t with
        | String c' t' =>
          if byte_val c' =? 125 then Some (JObject [], t')
          else '(ms, rest) ← scanMembers fuel' (String c' t');
               Some (JObject ms, rest)
        | EmptyString => None
        end
      else if b =? 91 then
        match skipSpace t with
        | String c' t' =>
          if byte_val c' =? 93 then Some (JArray [], t')
          else '(vs, rest) ← scanElements fuel' (String c' t');
               Some (JArray vs, rest)
        | EmptyString => None
        end
      else if b =? 34 then
        '(str, rest) ← unquote t; Some (JString str, rest)
      else if b =? 110 then rest ← hasPrefix "null" s'; Some (JNull, rest)
      else if b =? 116 then rest ← hasPrefix "true" s'; Some (JBool true, rest)
      else if b =? 102 then rest ← hasPrefix "false" s'; Some (JBool false, rest)
      else '(lit, rest) ← scanNumber s'; Some (JNumber lit, rest)
    end
  end
with scanElements (fuel : nat) (s : string) : option (list jvalue * string) :=
  match fuel with
  | O => None
  | S fuel' =>
    '(v, rest) ← scanValue fuel' s;
    match skipSpace rest with
    | String c t =>
      if byte_val c =? 44 then
        '(vs, rest') ← scanElements fuel' t; Some (v :: vs, rest')
      else if byte_val c =? 93 then Some ([v], t)
      else None
    | EmptyString => None
    end
  end
with scanMembers (fuel : nat) (s : string)
  : option (list (string * jvalue) * string) :=
  match fuel with
  | O => None
  | S fuel' =>
    match skipSpace s with
    | String q t =>
      if byte_val q =? 34 then
        '(key, rest) ← unquote t;
        match skipSpace rest with
        | String c t1 =>
          if byte_val c =? 58 then
            '(v, rest1) ← scanValue fuel' t1;
            match skipSpace rest1 with
            | String c' t2 =>
              if byte_val c' =? 44 then
                '(ms, rest2) ← scanMembers fuel' t2;
                Some ((key, v) :: ms, rest2)
              else if byte_val c' =? 125 then Some ([(key, v)], t2)
              else None
            | EmptyString => None
            end
          else None
        | EmptyString => None
        end
      else None
    | EmptyString => None
    end
  end.

(** [checkValid] and the scan of the one top-level value: [None] for a
    syntax error or for text after the value. *)
Definition scan (data : string) : option jvalue :=
  '(v, rest) ← scanValue (S (String.length data)) data;
  if String.eqb (skipSpace rest) EmptyString then Some v else None.

(** [strconv.ParseInt(lit, 10, 64)] on a number literal: an integer
    literal within [int64], else an error. *)
Fixpoint parseDigits (acc : Z) (s : string) : option Z :=
  match s with
  | EmptyString => Some acc
  | String c t =>
    if isDigit c then parseDigits (acc * 10 + (byte_val c - 48)) t else None
  end.

Definition ParseInt (lit : string) : option Z :=
  n ← match lit with
      | String c t =>
        if byte_val c =? 45 then
          if String.eqb t EmptyString then None else Z.opp <$> parseDigits 0 t
        else parseDigits 0 lit
      | EmptyString => None
      end;
  if (- 2 ^ 63 <=? n) && (n <? 2 ^ 63) then Some n else None.

(** Text that is one line and can stand inside HTML: no control
    character, and none of the characters [<], [>] and [&]. *)
Definition htmlSafeText (s : string) : Prop :=
  Forall (λ c, 0x20 ≤ byte_val c ∧ byte_val c ≠ 60 ∧ byte_val c ≠ 62
               ∧ byte_val c ≠ 38)
    (list_ascii_of_string s).

(** *** The codec of a Go type

    [json.Marshal] and [json.Unmarshal] work by reflection on the
    dynamic type of their [interface{}] argument; the model has one
    instance per Go type that reaches them. [Marshal] gives the bytes
    or the error; [Unmarshal data] is [json.Unmarshal(data, &v)] on a
    fresh zero-valued [v]: [Some v] when it returns [nil]. *)
Class Codec (A : Type) : Type := {
  Marshal : A → string + error;
  Unmarshal : string → option A
}.

(** A value that its codec reads back from the line that [Encode] writes
    for it. *)
Definition readsBack {A : Type} `{!Codec A} (v : A) : Prop :=
  ∃ b, Marshal v = inl b ∧ Unmarshal (b +:+ LF) = Some v.

(** [map[string]string], for a map that is not [nil]: members in the
    byte order of their keys. *)
Definition key_le (p q : string * string) : Prop := String.leb p.1 q.1 = true.

#[global] Instance key_le_dec p q : Decision (key_le p q).
Proof. unfold key_le. apply _. Defined.

(** The text of one member of the object. *)
Definition member (kv : string * string) : string :=
  appendString kv.1 +:+ ":" +:+ appendString kv.2.

Definition marshalStringMap (m : gmap string string) : string :=
  "{" +:+ Join (member <$> merge_sort key_le (map_to_list m)) "," +:+ "}".

(** A key and a value of valid UTF-8. *)
Definition validPair (kv : string * string) : Prop :=
  utf8.ValidString kv.1 = true ∧ utf8.ValidString kv.2 = true.

(** Decoding an object into a [map[string]string]: a string member is
    stored, a [null] member stores the zero value, a later duplicate key
    wins, any other member is a type error. A top-level [null] leaves
    the map [nil], which this model does not represent. *)
Fixpoint storeMembers (ms : list (string * jvalue)) (m : gmap string string)
  : option (gmap string string) :=
  match ms with
  | [] => Some m
  | (k, JString s) :: rest => storeMembers rest (<[k := s]> m)
  | (k, JNull) :: rest => storeMembers rest (<[k := EmptyString]> m)
  | _ => None
  end.

Definition unmarshalStringMap (data : string) : option (gmap string string) :=
  v ← scan data;
  match v with
  | JObject ms => storeMembers ms ∅
  | _ => None
  end.

#[global] Instance stringmap_codec : Codec (gmap string string) := {
  Marshal m := inl (marshalStringMap m);
  Unmarshal := unmarshalStringMap
}.

(** A channel of type [chan int], a type encoding/json does not
    support: [NilChan] is the zero value, [MadeChan id] a channel made
    by [make]. *)
Inductive chan_int : Type :=
| NilChan
| MadeChan (id : positive).

#[global] Instance chan_codec : Codec chan_int := {
  Marshal _ := inr "json: unsupported type: chan int";
  Unmarshal data :=
    v ← scan data;
    match v with
    | JNull => Some NilChan
    | _ => None
    end
}.

Section Encoder.
Context `{!ContentSniffer}.

(** [json.NewEncoder(w).Encode(v)]: nothing is written when
    marshalling fails; otherwise the bytes and a line feed go to [w]
    in one [Write], whose error, if any, is the error of [Encode]. *)
Definition Encode {A : Type} `{!Codec A} (w : http.ResponseRecorder) (v : A)
  : outcome (http.ResponseRecorder * option error) :=
  match Marshal v with
  | inr err => Done (w, Some err)
  | inl b => http.Write (b +:+ LF) w
  end.

End Encoder.

End json.

(** ** Package httpcontext *)

Module httpcontext.

(** [Writer] holds the state of the response sink the Go field points
    to: a method that writes to the sink returns the context with the
    new state. *)
Record Context : Type := {
  Writer : http.ResponseRecorder;
  Request : http.Request
}.

Definition withWriter (c : Context) (w : http.ResponseRecorder) : Context :=
  {| Writer := w; Request := Request c |}.

Section Methods.
Context `{!ContentSniffer}.

(** [func (c *Context) JSON(statusCode int, data interface{})] *)
Definition JSON {A : Type} `{!json.Codec A} (statusCode : Z) (data : A)
  (c : Context) : outcome Context :=
  let w := http.SetHeader "Content-Type" "application/json" (Writer c) in
  w ← http.WriteHeader statusCode w;
  '(w, err) ← json.Encode w data;
  match err with
  | Some _ =>
    w ← http.Error w "Error encoding JSON response"
          http.StatusInternalServerError;
    Done (withWriter c w)
  | None => Done (withWriter c w)
  end.

(** [func (c *Context) Status(statusCode int)] *)
Definition Status (statusCode : Z) (c : Context) : outcome Context :=
  w ← http.WriteHeader statusCode (Writer c);
  Done (withWriter c w).

(** [func (c *Context) String(statusCode int, format string,
    values ...interface{})]; [fmt.Sprintf] is a parameter, and the
    result of [Write] is dropped. *)
Definition String {Arg : Type} (Sprintf : string → list Arg → string)
  (statusCode : Z) (format : string) (values : list Arg) (c : Context)
  : outcome Context :=
  let w := http.SetHeader "Content-Type" "text/plain; charset=utf-8"
             (Writer c) in
  w ← http.WriteHeader statusCode w;
  '(w, _) ← http.Write (Sprintf format values) w;
  Done (withWriter c w).

End Methods.

End httpcontext.

(** ** Package sync *)

Module sync.

(** [sync.RWMutex], as the goroutine that makes the calls sees it while
    no other goroutine takes or waits for the lock: whether the write
    lock is held, and the number of read locks held. *)
Record RWMutex : Type := {
  writer : bool;
  readers : Z
}.

(** The zero value: an unlocked mutex. *)
Definition unlocked : RWMutex := {| writer := false; readers := 0 |}.

Inductive op : Type :=
| Lock
| Unlock
| RLock
| RUnlock.

(** What a call on the mutex comes to: it returns with the mutex in a new
    state, it blocks for ever (no other goroutine can release the lock),
    or the run time stops the program. *)
Inductive state : Type :=
| Free (mu : RWMutex)
| Blocked
| Fatal (msg : string).

Definition step (mu : RWMutex) (o : op) : state :=
  match o with
  | Lock =>
    if writer mu || (0 <? readers mu) then Blocked
    else Free {| writer := true; readers := readers mu |}
  | Unlock =>
    if writer mu then Free {| writer := false; readers := readers mu |}
    else Fatal "sync: Unlock of unlocked RWMutex"
  | RLock =>
    if writer mu then Blocked
    else Free {| writer := false; readers := readers mu + 1 |}
  | RUnlock =>
    if 0 <? readers mu
    then Free {| writer := writer mu; readers := readers mu - 1 |}
    else Fatal "sync: RUnlock of unlocked RWMutex"
  end.

(** The calls of [ops] one after the other. *)
Fixpoint run (mu : RWMutex) (ops : list op) : state :=
  match ops with
  | [] => Free mu
  | o :: ops' =>
    match step mu o with
    | Free mu' => run mu' ops'
    | stuck => stuck
    end
  end.

End sync.

(** ** Package router *)

Module router.

(** [HandlerFunc], a function taking a pointer to a
    [httpcontext.Context]: [None] is the [nil] function value. A handler
    acts on the context it is given. *)
Definition HandlerFunc : Type :=
  option (httpcontext.Context → outcome httpcontext.Context).

(** What a router method does besides computing, in program order. *)
Inductive event : Type :=
| Lock                      (* r.mu.Lock() *)
| Unlock                    (* r.mu.Unlock() *)
| RLock                     (* r.mu.RLock() *)
| RUnlock                   (* r.mu.RUnlock() *)
| Printf (line : string)    (* log.Printf *)
| Invoke (handler : HandlerFunc) (ctx : httpcontext.Context).

(** [routes] is [map[HTTP_METHOD]map[URL_PATH]HandlerFunc], allocated by
    [New]; the mutex [mu] shows through the events on it. *)
Record Router : Type := {
  routes : gmap string (gmap string HandlerFunc)
}.

(** A run of a method on a router: the events, the router afterwards,
    and the return value or the panic. *)
Record run (A : Type) : Type := {
  trace : list event;
  after : Router;
  result : outcome A
}.
Arguments trace {A} _.
Arguments after {A} _.
Arguments result {A} _.

Definition M (A : Type) : Type := Router → run A.

#[global] Instance M_ret : MRet M := fun _ a r =>
  {| trace := []; after := r; result := Done a |}.

#[global] Instance M_bind : MBind M := fun _ _ f m r =>
  let x := m r in
  match result x with
  | Done a =>
    let y := f a (after x) in
    {| trace := trace x ++ trace y; after := after y; result := result y |}
  | Panicked msg =>
    {| trace := trace x; after := after x; result := Panicked msg |}
  end.

Definition emit (e : event) : M unit := fun r =>
  {| trace := [e]; after := r; result := Done tt |}.

Definition get : M Router := fun r =>
  {| trace := []; after := r; result := Done r |}.

Definition put (r' : Router) : M unit := fun _ =>
  {| trace := []; after := r'; result := Done tt |}.

Definition lift {A : Type} (o : outcome A) : M A := fun r =>
  {| trace := []; after := r; result := o |}.

(** [defer d] at the head of a function body: [d] runs when the body
    returns or panics. *)
Definition defer {A : Type} (d : event) (body : M A) : M A := fun r =>
  let x := body r in
  {| trace := trace x ++ [d]; after := after x; result := result x |}.

(** [func New() *Router] *)
Definition New : Router := {| routes := ∅ |}.

(** [func (r *Router) addRoute(method, path string, handler HandlerFunc)] *)
Definition addRoute (method path : string) (handler : HandlerFunc) : M unit :=
  _ ← emit Lock;
  defer Unlock (
    r ← get;
    let routes1 :=
      match routes r !! method with
      | None => <[method := ∅]> (routes r)
      | Some _ => routes r
      end in
    let routes2 :=
      <[method := <[path := handler]> (default ∅ (routes1 !! method))]>
        routes1 in
    _ ← put {| routes := routes2 |};
    emit (Printf ("Registered route: " +:+ method +:+ " " +:+ path))).

(** [func (r *Router) GET(path string, handler HandlerFunc)] *)
Definition GET (path : string) (handler : HandlerFunc) : M unit :=
  addRoute "GET" path handler.

(** [func (r *Router) POST(path string, handler HandlerFunc)] *)
Definition POST (path : string) (handler : HandlerFunc) : M unit :=
  addRoute "POST" path handler.

(** The call [handler(ctx)]: calling the [nil] function panics;
    otherwise the sink is as the handler leaves it. *)
Definition invoke (handler : HandlerFunc) (ctx : httpcontext.Context)
  : outcome http.ResponseRecorder :=
  match handler with
  | None =>
    Panicked "runtime error: invalid memory address or nil pointer dereference"
  | Some f => httpcontext.Writer <$> f ctx
  end.

Definition call (handler : HandlerFunc) (ctx : httpcontext.Context)
  : M http.ResponseRecorder :=
  _ ← emit (Invoke handler ctx);
  lift (invoke handler ctx).

(** *** Observations on a router and on a trace *)

(** The entry of the route table for a (method, path) pair. *)
Definition handlerFor (r : Router) (method path : string)
  : option HandlerFunc :=
  pathHandlers ← routes r !! method; pathHandlers !! path.

(** The request for a (method, path) pair. *)
Definition requestFor (method path : string) : http.Request :=
  {| http.Method := method; http.RequestURL := {| http.Path := path |} |}.

(** The handler invocations of a trace, in order. *)
Definition invocations (t : list event)
  : list (HandlerFunc * httpcontext.Context) :=
  omap (λ e, match e with Invoke h c => Some (h, c) | _ => None end) t.

(** For each handler invocation of a trace, the number of read locks on
    [r.mu] that the run holds at that point, [held] being the number
    held at the start. *)
Fixpoint readLocksAtInvoke (held : Z) (t : list event) : list Z :=
  match t with
  | [] => []
  | RLock :: t' => readLocksAtInvoke (held + 1) t'
  | RUnlock :: t' => readLocksAtInvoke (held - 1) t'
  | Invoke _ _ :: t' => held :: readLocksAtInvoke held t'
  | _ :: t' => readLocksAtInvoke held t'
  end.

(** The calls on [r.mu] of a trace, in order. *)
Definition mutexOps (t : list event) : list sync.op :=
  omap (λ e, match e with
             | Lock => Some sync.Lock
             | Unlock => Some sync.Unlock
             | RLock => Some sync.RLock
             | RUnlock => Some sync.RUnlock
             | _ => None
             end) t.

(** The lines a trace hands to [log.Printf], in order. *)
Definition logLines (t : list event) : list string :=
  omap (λ e, match e with Printf line => Some line | _ => None end) t.

(** Registrations made one after the other on the same router, as
    [RegisterRoutes] and the tests make them. *)
Fixpoint addRoutes (regs : list (string * string * HandlerFunc)) : M unit :=
  match regs with
  | [] => mret tt
  | (method, path, handler) :: regs' =>
    _ ← addRoute method path handler; addRoutes regs'
  end.

(** The handler of the last registration of a list that names the pair. *)
Definition lastRegistered (regs : list (string * string * HandlerFunc))
    (method path : string) : option HandlerFunc :=
  snd <$> last (filter (λ reg, reg.1 = (method, path)) regs).

Section Dispatch.
Context `{!ContentSniffer}.

(** [func (r *Router) ServeHTTP(w http.ResponseWriter, req *http.Request)];
    the value returned is the sink [w] as the call leaves it. *)
Definition ServeHTTP (w : http.ResponseRecorder) (req : http.Request)
  : M http.ResponseRecorder :=
  _ ← emit RLock;
  defer RUnlock (
    r ← get;
    match routes r !! http.Method req with
    | None => lift (http.NotFound w)
    | Some pathHandlers =>
      match pathHandlers !! http.Path (http.RequestURL req) with
      | None => lift (http.NotFound w)
      | Some handler =>
        let ctx := {| httpcontext.Writer := w; httpcontext.Request := req |} in
        call handler ctx
      end
    end).

End Dispatch.

End router.

(** ** Package handlers *)

Module handlers.

(** [type User struct], with the JSON names [id] and [name]. *)
Record User : Type := { ID : Z; Name : string }.

Definition marshalUser (u : User) : string :=
  "{" +:+ json.quoted "id" +:+ ":" +:+ Itoa (ID u) +:+ ","
      +:+ json.quoted "name" +:+ ":" +:+ json.appendString (Name u) +:+ "}".

(** ASCII lower case; on the names [id] and [name] equality after it is
    the case folding by which object keys match struct fields. *)
Fixpoint lower (s : string) : string :=
  match s with
  | EmptyString => EmptyString
  | String c t =>
    let b := byte_val c in
    String (if (65 <=? b) && (b <=? 90) then byte_chr (b + 32) else c) (lower t)
  end.

(** Decoding an object into a [User]: the member of a known field is
    stored, a [null] member and an unknown member are skipped, a member
    of the wrong kind is a type error. *)
Fixpoint storeFields (ms : list (string * json.jvalue)) (u : User)
  : option User :=
  match ms with
  | [] => Some u
  | (k, v) :: rest =>
    if String.eqb (lower k) "id" then
      match v with
      | json.JNumber lit =>
        n ← json.ParseInt lit; storeFields rest {| ID := n; Name := Name u |}
      | json.JNull => storeFields rest u
      | _ => None
      end
    else if String.eqb (lower k) "name" then
      match v with
      | json.JString s => storeFields rest {| ID := ID u; Name := s |}
      | json.JNull => storeFields rest u
      | _ => None
      end
    else storeFields rest u
  end.

Definition unmarshalUser (v : json.jvalue) : option User :=
  match v with
  | json.JObject ms => storeFields ms {| ID := 0; Name := EmptyString |}
  | json.JNull => Some {| ID := 0; Name := EmptyString |}
  | _ => None
  end.

(** The value the scanner delimits for a marshalled user. *)
Definition userValue (u : User) : json.jvalue :=
  json.JObject [("id", json.JNumber (Itoa (ID u)));
                ("name", json.JString (Name u))].

(** An [int64] identifier and a name of valid UTF-8. *)
Definition validUser (u : User) : Prop :=
  - 2 ^ 63 ≤ ID u < 2 ^ 63 ∧
  utf8.ValidString (Name u) = true.

(** [[]User], for a slice that is not [nil]. *)
#[global] Instance users_codec : json.Codec (list User) := {
  json.Marshal us := inl ("[" +:+ json.Join (marshalUser <$> us) "," +:+ "]");
  json.Unmarshal data :=
    v ← json.scan data;
    match v with
    | json.JArray vs => mapM unmarshalUser vs
    | _ => None
    end
}.

Section Handlers.
Context `{!ContentSniffer}.

(** [func HealthCheckHandler(c *httpcontext.Context)] *)
Definition HealthCheckHandler (c : httpcontext.Context)
  : outcome httpcontext.Context :=
  httpcontext.JSON http.StatusOK
    ({[ "status" := "ok"; "service" := "HTTPGolang_Server" ]}
       : gmap string string) c.

(** [func GetUsersHandler(c *httpcontext.Context)] *)
Definition GetUsersHandler (c : httpcontext.Context)
  : outcome httpcontext.Context :=
  let users := [ {| ID := 1; Name := "Hanzala" |};
                 {| ID := 2; Name := "Areeb" |} ] in
  httpcontext.JSON http.StatusOK users c.

(** [func CreateUserHandler(c *httpcontext.Context)] *)
Definition CreateUserHandler (c : httpcontext.Context)
  : outcome httpcontext.Context :=
  httpcontext.JSON http.StatusCreated
    ({[ "status" := "user created successfully" ]} : gmap string string) c.

(** [func RegisterRoutes(r *router.Router)] *)
Definition RegisterRoutes : router.M unit :=
  _ ← router.GET "/health" (Some HealthCheckHandler);
  _ ← router.GET "/users" (Some GetUsersHandler);
  router.POST "/users" (Some CreateUserHandler).

End Handlers.

End handlers.

(** * Properties *)

(** ** unicode/utf8: encoding is the inverse of decoding *)

Lemma byte_val_range (c : ascii) : 0 ≤ byte_val c < 256.
Proof.
  unfold byte_val. pose proof (N_ascii_bounded c). lia.
Qed.

Lemma byte_chr_val (c : ascii) : byte_chr (byte_val c) = c.
Proof. unfold byte_chr, byte_val. rewrite N2Z.id. apply ascii_N_embedding. Qed.

Lemma byte_val_chr (b : Z) : 0 ≤ b < 256 → byte_val (byte_chr b) = b.
Proof.
  intros Hb. unfold byte_chr, byte_val.
  rewrite N_ascii_embedding; lia.
Qed.

Lemma lor_shiftl_add (a k b : Z) :
  0 ≤ k → 0 ≤ b < 2 ^ k → Z.lor (a ≪ k) b = a * 2 ^ k + b.
Proof.
  intros Hk Hb. rewrite <- Z.shiftl_mul_pow2 by done.
  symmetry. apply Z.add_nocarry_lor. apply Z.bits_inj'. intros n Hn.
  rewrite Z.land_spec, Z.bits_0, Z.shiftl_spec by done.
  destruct (Z.lt_ge_cases n k) as [Hlt | Hge].
  - rewrite (Z.testbit_neg_r a) by lia. done.
  - destruct (Z.eq_dec b 0) as [-> | Hnz]; [by rewrite Z.bits_0, andb_false_r |].
    rewrite (Z.bits_above_log2 b n); [by rewrite andb_false_r | lia |].
    apply Z.log2_lt_pow2; [lia |].
    eapply Z.lt_le_trans; [apply Hb |]. apply Z.pow_le_mono_r; lia.
Qed.

Lemma land_mask (a k m p : Z) :
  m = Z.ones k → p = 2 ^ k → 0 ≤ k → Z.land a m = a mod p.
Proof. intros -> -> Hk. by apply Z.land_ones. Qed.

Lemma lor_shiftl_const (a k b p : Z) :
  p = 2 ^ k → 0 ≤ k → 0 ≤ b < p → Z.lor (a ≪ k) b = a * p + b.
Proof. intros -> ??. by apply lor_shiftl_add. Qed.

Lemma lor_const (c b : Z) (hi k : Z) :
  c = hi * 2 ^ k → 0 ≤ k → 0 ≤ b < 2 ^ k → Z.lor c b = c + b.
Proof.
  intros -> Hk Hb. rewrite <- Z.shiftl_mul_pow2 by done.
  rewrite lor_shiftl_add by done. by rewrite Z.shiftl_mul_pow2.
Qed.

Lemma shiftr_const (a k p : Z) : p = 2 ^ k → 0 ≤ k → a ≫ k = a / p.
Proof. intros -> ?. by apply Z.shiftr_div_pow2. Qed.

Lemma first_spec (b : Z) (sz : nat) (lo hi : Z) :
  utf8.first b = Some (sz, lo, hi) →
  (sz = 2%nat ∧ 0xC2 ≤ b ≤ 0xDF ∧ lo = 0x80 ∧ hi = 0xBF) ∨
  (sz = 3%nat ∧ 0xE0 ≤ b ≤ 0xEF ∧ 0x80 ≤ lo ∧ hi ≤ 0xBF ∧
     (b = 0xE0 → lo = 0xA0) ∧ (b = 0xED → hi = 0x9F)) ∨
  (sz = 4%nat ∧ 0xF0 ≤ b ≤ 0xF4 ∧ 0x80 ≤ lo ∧ hi ≤ 0xBF ∧
     (b = 0xF0 → lo = 0x90) ∧ (b = 0xF4 → hi = 0x8F)).
Proof.
  unfold utf8.first. intros H.
  repeat match type of H with
  | (if ?c then _ else _) = _ => destruct c eqn:?
  end; simplify_eq; lia.
Qed.

Lemma outside_false (lo hi b : Z) : utf8.outside lo hi b = false ↔ lo ≤ b ≤ hi.
Proof. unfold utf8.outside. lia. Qed.

Lemma lor_mul_add (a p k b : Z) :
  p = 2 ^ k → 0 ≤ k → 0 ≤ b < p → Z.lor (a * p) b = a * p + b.
Proof.
  intros -> Hk Hb. rewrite <- Z.shiftl_mul_pow2 by done.
  rewrite lor_shiftl_add by done. by rewrite Z.shiftl_mul_pow2.
Qed.

Lemma rune2_arith (x y : Z) :
  0 ≤ y < 64 → Z.lor (x ≪ 6) y = x * 64 + y.
Proof. intros. by rewrite (lor_shiftl_const x 6 y 64). Qed.

Lemma rune3_arith (x y z : Z) :
  0 ≤ y < 64 → 0 ≤ z < 64 →
  Z.lor (Z.lor (x ≪ 12) (y ≪ 6)) z = x * 4096 + y * 64 + z.
Proof.
  intros. rewrite !Z.shiftl_mul_pow2 by lia.
  change (2 ^ 12) with 4096. change (2 ^ 6) with 64.
  rewrite (lor_mul_add x 4096 12) by (done || lia).
  replace (x * 4096 + y * 64) with ((x * 64 + y) * 64) by lia.
  rewrite (lor_mul_add _ 64 6) by (done || lia). lia.
Qed.

Lemma rune4_arith (x y z u : Z) :
  0 ≤ y < 64 → 0 ≤ z < 64 → 0 ≤ u < 64 →
  Z.lor (Z.lor (Z.lor (x ≪ 18) (y ≪ 12)) (z ≪ 6)) u
    = x * 262144 + y * 4096 + z * 64 + u.
Proof.
  intros. rewrite !Z.shiftl_mul_pow2 by lia.
  change (2 ^ 18) with 262144. change (2 ^ 12) with 4096. change (2 ^ 6) with 64.
  rewrite (lor_mul_add x 262144 18) by (done || lia).
  replace (x * 262144 + y * 4096) with ((x * 64 + y) * 4096) by lia.
  rewrite (lor_mul_add _ 4096 12) by (done || lia).
  replace ((x * 64 + y) * 4096 + z * 64) with (((x * 64 + y) * 64 + z) * 64) by lia.
  rewrite (lor_mul_add _ 64 6) by (done || lia). lia.
Qed.

Ltac bits_to_arith :=
  repeat first
    [ rewrite (land_mask _ 3 0x07 8) by done
    | rewrite (land_mask _ 4 0x0F 16) by done
    | rewrite (land_mask _ 5 0x1F 32) by done
    | rewrite (land_mask _ 6 0x3F 64) by done
    | rewrite (shiftr_const _ 6 64) by done
    | rewrite (shiftr_const _ 12 4096) by done
    | rewrite (shiftr_const _ 18 262144) by done
    | rewrite rune4_arith by (Z.div_mod_to_equations; lia)
    | rewrite rune3_arith by (Z.div_mod_to_equations; lia)
    | rewrite rune2_arith by (Z.div_mod_to_equations; lia) ].

Ltac decide_ifs :=
  repeat match goal with
  | |- context [if ?c then _ else _] =>
    let E := fresh "E" in
    destruct c eqn:E; [try (exfalso; Z.div_mod_to_equations; lia) | try (exfalso; Z.div_mod_to_equations; lia)]
  end.

Lemma enc_byte (e s : Z) (c : ascii) : byte_val c = s → e = s → byte_chr e = c.
Proof. intros <- ->. apply byte_chr_val. Qed.

Lemma Decode_multi (s : string) (r : Z) (size : nat) :
  utf8.DecodeRuneInString s = (r, size) → (2 ≤ size)%nat →
  utf8.EncodeRune r = string_take size s ∧
  String.length (string_take size s) = size ∧
  ∀ more, utf8.DecodeRuneInString (string_take size s +:+ more) = (r, size).
Proof.
  destruct s as [|c0 t0]; [simpl; intros [= <- <-]; lia |].
  unfold utf8.DecodeRuneInString at 1.
  pose proof (byte_val_range c0) as R0.
  destruct (byte_val c0 <? utf8.RuneSelf) eqn:E0; [intros [= <- <-]; lia |].
  destruct (utf8.first (byte_val c0)) as [[[sz lo] hi]|] eqn:Hf;
    [| intros [= <- <-]; lia].
  destruct (String.length _ <? sz)%nat eqn:Hlen; [intros [= <- <-]; lia |].
  destruct t0 as [|c1 t1]; [intros [= <- <-]; lia |].
  pose proof (byte_val_range c1) as R1.
  destruct (utf8.outside lo hi (byte_val c1)) eqn:Ho1; [intros [= <- <-]; lia |].
  apply outside_false in Ho1 as Hr1.
  pose proof (first_spec _ _ _ _ Hf) as Hspec.
  destruct (sz <=? 2)%nat eqn:Hsz2.
  { intros [= <- <-] _.
    destruct Hspec as [(-> & Hb & -> & ->) | [(-> & _) | (-> & _)]];
      [| done | done].
    split; [| split; [done |]].
    - unfold utf8.EncodeRune, utf8.MaxRune, utf8.RuneError. bits_to_arith.
      decide_ifs.
      simpl. f_equal; [| f_equal].
      + eapply enc_byte; [reflexivity |]. 
        rewrite (lor_const 0xC0 _ 3 6) by (try done; Z.div_mod_to_equations; lia).
        Z.div_mod_to_equations; lia.
      + eapply enc_byte; [reflexivity |]. bits_to_arith.
        rewrite (lor_const 0x80 _ 2 6) by (try done; Z.div_mod_to_equations; lia).
        Z.div_mod_to_equations; lia.
    - intros more. simpl string_take.
      change (String c0 (String c1 EmptyString) +:+ more)
        with (String c0 (String c1 more)).
      unfold utf8.DecodeRuneInString. rewrite E0, Hf.
      simpl String.length. simpl Nat.ltb.
      assert (utf8.outside 0x80 0xBF (byte_val c1) = false) as ->
        by by apply outside_false.
      reflexivity. }
  destruct t1 as [|c2 t2]; [intros [= <- <-]; lia |].
  pose proof (byte_val_range c2) as R2.
  destruct (utf8.outside 128 191 (byte_val c2)) eqn:Ho2; [intros [= <- <-]; lia |].
  apply outside_false in Ho2 as Hr2.
  destruct (sz <=? 3)%nat eqn:Hsz3.
  { intros [= <- <-] _.
    destruct Hspec as [(-> & _) | [(-> & Hb & Hlo & Hhi & HE0 & HED) | (-> & _)]];
      [done | | done].
    split; [| split; [done |]].
    - unfold utf8.EncodeRune, utf8.MaxRune, utf8.RuneError. bits_to_arith.
      decide_ifs.
      simpl. f_equal; [| f_equal; [| f_equal]].
      + eapply enc_byte; [reflexivity |]. bits_to_arith.
        rewrite (lor_const 0xE0 _ 14 4) by (try done; Z.div_mod_to_equations; lia).
        Z.div_mod_to_equations; lia.
      + eapply enc_byte; [reflexivity |]. bits_to_arith.
        rewrite (lor_const 0x80 _ 2 6) by (try done; Z.div_mod_to_equations; lia).
        Z.div_mod_to_equations; lia.
      + eapply enc_byte; [reflexivity |]. bits_to_arith.
        rewrite (lor_const 0x80 _ 2 6) by (try done; Z.div_mod_to_equations; lia).
        Z.div_mod_to_equations; lia.
    - intros more. simpl string_take.
      change (String c0 (String c1 (String c2 EmptyString)) +:+ more)
        with (String c0 (String c1 (String c2 more))).
      unfold utf8.DecodeRuneInString. rewrite E0, Hf.
      simpl String.length. simpl Nat.ltb. rewrite Ho1. simpl Nat.leb.
      rewrite Ho2. reflexivity. }
  destruct t2 as [|c3 t3]; [intros [= <- <-]; lia |].
  pose proof (byte_val_range c3) as R3.
  destruct (utf8.outside 128 191 (byte_val c3)) eqn:Ho3; [intros [= <- <-]; lia |].
  apply outside_false in Ho3 as Hr3.
  intros [= <- <-] _.
  destruct Hspec as [(-> & _) | [(-> & _) | (-> & Hb & Hlo & Hhi & HF0 & HF4)]];
      [done | done |].
  split; [| split; [done |]].
  - unfold utf8.EncodeRune, utf8.MaxRune, utf8.RuneError. bits_to_arith.
    decide_ifs.
    simpl. f_equal; [| f_equal; [| f_equal; [| f_equal]]].
    + eapply enc_byte; [reflexivity |]. bits_to_arith.
      rewrite (lor_const 0xF0 _ 30 3) by (try done; Z.div_mod_to_equations; lia).
      Z.div_mod_to_equations; lia.
    + eapply enc_byte; [reflexivity |]. bits_to_arith.
      rewrite (lor_const 0x80 _ 2 6) by (try done; Z.div_mod_to_equations; lia).
      Z.div_mod_to_equations; lia.
    + eapply enc_byte; [reflexivity |]. bits_to_arith.
      rewrite (lor_const 0x80 _ 2 6) by (try done; Z.div_mod_to_equations; lia).
      Z.div_mod_to_equations; lia.
    + eapply enc_byte; [reflexivity |]. bits_to_arith.
      rewrite (lor_const 0x80 _ 2 6) by (try done; Z.div_mod_to_equations; lia).
      Z.div_mod_to_equations; lia.
  - intros more. simpl string_take.
    change (String c0 (String c1 (String c2 (String c3 EmptyString))) +:+ more)
      with (String c0 (String c1 (String c2 (String c3 more)))).
    unfold utf8.DecodeRuneInString. rewrite E0, Hf.
    simpl String.length. simpl Nat.ltb. rewrite Ho1. simpl Nat.leb.
    rewrite Ho2, Ho3. reflexivity.
Qed.

(** ** encoding/json: string literals *)

Lemma string_app_cons (c : ascii) (s t : string) : String c s +:+ t = String c (s +:+ t).
Proof. reflexivity. Qed.

Lemma string_app_nil_l (t : string) : EmptyString +:+ t = t.
Proof. reflexivity. Qed.

Lemma string_app_nil_r (s : string) : s +:+ EmptyString = s.
Proof. induction s as [|x s IH]; [done |]. rewrite string_app_cons. by rewrite IH. Qed.

Lemma string_app_assoc (a b c : string) : (a +:+ b) +:+ c = a +:+ (b +:+ c).
Proof. induction a as [|x a IH]; [done |]. rewrite !string_app_cons. by rewrite IH. Qed.

Lemma string_length_app (a b : string) :
  String.length (a +:+ b) = (String.length a + String.length b)%nat.
Proof. induction a as [|x a IH]; [done |]. rewrite string_app_cons. simpl. by rewrite IH. Qed.

Lemma string_take_drop (n : nat) (s : string) :
  string_take n s +:+ string_drop n s = s.
Proof.
  revert s. induction n as [|n IH]; intros [|c t]; try done.
  simpl. rewrite string_app_cons. by rewrite IH.
Qed.

Lemma string_drop_app (a b : string) :
  string_drop (String.length a) (a +:+ b) = b.
Proof. induction a as [|x a IH]; [done |]. rewrite string_app_cons. simpl. apply IH. Qed.

Lemma string_drop_app_len (a b : string) (n : nat) :
  String.length a = n → string_drop n (a +:+ b) = b.
Proof. intros <-. apply string_drop_app. Qed.

Lemma length_string_drop (n : nat) (s : string) :
  String.length (string_drop n s) = (String.length s - n)%nat.
Proof. revert s. induction n as [|n IH]; intros [|c t]; simpl; first [done | lia]. Qed.

Lemma string_take_take (n m : nat) (s : string) :
  (n ≤ m)%nat → string_take n (string_take m s) = string_take n s.
Proof.
  revert m s. induction n as [|n IH]; intros [|m] [|c t] H; simpl; try done; [lia |].
  f_equal. apply IH. lia.
Qed.

(** [DecodeRuneInString] reads at most four bytes. *)
Lemma Decode_take4 (s : string) :
  utf8.DecodeRuneInString (string_take 4 s) = utf8.DecodeRuneInString s.
Proof.
  destruct s as [|c0 [|c1 [|c2 [|c3 [|c4 t]]]]]; try reflexivity.
  simpl string_take. unfold utf8.DecodeRuneInString.
  destruct (byte_val c0 <? utf8.RuneSelf); [done |].
  destruct (utf8.first (byte_val c0)) as [[[sz lo] hi]|] eqn:Hf; [| done].
  apply first_spec in Hf as [(-> & _) | [(-> & _) | (-> & _)]]; reflexivity.
Qed.

Lemma Decode_size_pos (c : ascii) (t : string) :
  (1 ≤ (utf8.DecodeRuneInString (String c t)).2)%nat.
Proof.
  unfold utf8.DecodeRuneInString.
  repeat match goal with
  | |- context [if ?c then _ else _] => destruct c
  | |- context [match ?x with _ => _ end] => destruct x
  end; simpl; lia.
Qed.

Lemma unquote_loop_safe (c : ascii) (f : nat) (X : string) :
  byte_val c < 128 → json.htmlSafeSet (byte_val c) = true →
  json.unquote_loop (S f) (String c X)
    = '(r, rest) ← json.unquote_loop f X; Some (String c r, rest).
Proof.
  intros Hlt Hsafe. unfold json.htmlSafeSet in Hsafe. simpl.
  destruct (byte_val c =? 34) eqn:E1; [lia |].
  destruct (byte_val c =? 92) eqn:E2; [lia |].
  destruct (byte_val c <? 32) eqn:E3; [lia |].
  unfold utf8.RuneSelf.
  destruct (byte_val c <? 128) eqn:E4; [| lia].
  reflexivity.
Qed.

Lemma hexval_hex (n : Z) : 0 ≤ n < 16 → json.hexval (json.hex n) = Some n.
Proof.
  intros Hn.
  assert (Hcases : n = 0 ∨ n = 1 ∨ n = 2 ∨ n = 3 ∨ n = 4 ∨ n = 5 ∨ n = 6 ∨ n = 7 ∨
                   n = 8 ∨ n = 9 ∨ n = 10 ∨ n = 11 ∨ n = 12 ∨ n = 13 ∨ n = 14 ∨
                   n = 15) by lia.
  repeat destruct Hcases as [-> | Hcases]; try subst n; reflexivity.
Qed.

(** One step of [unquote_loop] on a backslash. *)
Lemma unquote_loop_bslash (f : nat) (e : ascii) (t' : string) :
  json.unquote_loop (S f) (String json.BSLASH (String e t')) =
    let s := String json.BSLASH (String e t') in
    let eb := byte_val e in
    let simple (out : Z) :=
      '(r, rest) ← json.unquote_loop f t';
      Some (String (byte_chr out) r, rest) in
    if (eb =? 34) || (eb =? 92) || (eb =? 47) then simple eb
    else if eb =? 98 then simple 8
    else if eb =? 102 then simple 12
    else if eb =? 110 then simple 10
    else if eb =? 114 then simple 13
    else if eb =? 116 then simple 9
    else if eb =? 117 then
      '(rr, after) ← json.getu4 s;
      let '(rr', after') :=
        if (0xD800 <=? rr) && (rr <? 0xE000) then
          match json.getu4 after with
          | Some (rr1, after1) =>
            let dec := json.utf16_DecodeRune rr rr1 in
            if dec =? utf8.RuneError then (utf8.RuneError, after)
            else (dec, after1)
          | None => (utf8.RuneError, after)
          end
        else (rr, after) in
      '(r, rest) ← json.unquote_loop f after';
      Some (utf8.EncodeRune rr' +:+ r, rest)
    else None.
Proof. reflexivity. Qed.

Lemma getu4_low (hi lo : Z) (X : string) :
  0 ≤ hi < 16 → 0 ≤ lo < 16 →
  json.getu4 (String json.BSLASH
                (String "u" (String "0" (String "0"
                   (String (json.hex hi) (String (json.hex lo) X))))))
    = Some (hi * 16 + lo, X).
Proof.
  intros Hhi Hlo. unfold json.getu4.
  change (byte_val json.BSLASH) with 92. change (byte_val "u") with 117.
  change (json.hexval "0") with (Some 0).
  rewrite !hexval_hex by done. simpl. reflexivity.
Qed.

Lemma EncodeRune_ascii (b : Z) :
  0 ≤ b < 128 → utf8.EncodeRune b = String (byte_chr b) EmptyString.
Proof.
  intros Hb. unfold utf8.EncodeRune.
  destruct ((0 <=? b) && (b <=? 127)) eqn:E; [done | lia].
Qed.

Lemma unquote_loop_escape (c : ascii) (f : nat) (X : string) :
  byte_val c < 128 → json.htmlSafeSet (byte_val c) = false →
  json.unquote_loop (S f) (json.escape_byte (byte_val c) +:+ X)
    = '(r, rest) ← json.unquote_loop f X; Some (String c r, rest).
Proof.
  intros Hlt Hsafe. pose proof (byte_val_range c) as Hc.
  unfold json.escape_byte.
  destruct ((byte_val c =? 92) || (byte_val c =? 34)) eqn:E1.
  { rewrite !string_app_cons, string_app_nil_l, unquote_loop_bslash. cbn zeta.
    rewrite byte_val_chr by lia.
    destruct ((byte_val c =? 34) || (byte_val c =? 92) || (byte_val c =? 47))
      eqn:E; [| lia].
    by rewrite byte_chr_val. }
  assert (Hstep : ∀ (e : ascii) (out : Z),
    byte_val c = out →
    (let eb := byte_val e in
     (eb =? 34) || (eb =? 92) || (eb =? 47) = false ∧
     ((eb =? 98) = true ∧ out = 8 ∨
      (eb =? 98) = false ∧ (eb =? 102) = true ∧ out = 12 ∨
      (eb =? 98) = false ∧ (eb =? 102) = false ∧ (eb =? 110) = true ∧ out = 10 ∨
      (eb =? 98) = false ∧ (eb =? 102) = false ∧ (eb =? 110) = false ∧
        (eb =? 114) = true ∧ out = 13 ∨
      (eb =? 98) = false ∧ (eb =? 102) = false ∧ (eb =? 110) = false ∧
        (eb =? 114) = false ∧ (eb =? 116) = true ∧ out = 9)) →
    json.unquote_loop (S f) (String json.BSLASH (String e EmptyString) +:+ X)
      = '(r, rest) ← json.unquote_loop f X; Some (String c r, rest)).
  { intros e out Hout [Hq Hcase].
    rewrite !string_app_cons, string_app_nil_l, unquote_loop_bslash. cbn zeta. rewrite Hq.
    rewrite <- (byte_chr_val c), Hout.
    destruct Hcase as [[-> ->] | [(-> & -> & ->) | [(-> & -> & -> & ->) |
      [(-> & -> & -> & -> & ->) | (-> & -> & -> & -> & -> & ->)]]]];
      reflexivity. }
  destruct (byte_val c =? 8) eqn:E2.
  { apply (Hstep "b"%char 8); [lia |]. vm_compute. tauto. }
  destruct (byte_val c =? 12) eqn:E3.
  { apply (Hstep "f"%char 12); [lia |]. vm_compute. tauto. }
  destruct (byte_val c =? 10) eqn:E4.
  { apply (Hstep "n"%char 10); [lia |]. vm_compute. tauto. }
  destruct (byte_val c =? 13) eqn:E5.
  { apply (Hstep "r"%char 13); [lia |]. vm_compute. tauto. }
  destruct (byte_val c =? 9) eqn:E6.
  { apply (Hstep "t"%char 9); [lia |]. vm_compute. tauto. }
  clear Hstep.
  change ("u00" +:+ ?x) with (String "u" (String "0" (String "0" x))).
  rewrite !string_app_cons, string_app_nil_l, unquote_loop_bslash. cbn zeta.
  change (byte_val "u") with 117. cbn [Z.eqb Pos.eqb orb].
  rewrite (shiftr_const _ 4 16), (land_mask _ 4 0x0F 16) by done.
  rewrite getu4_low by (Z.div_mod_to_equations; lia). cbn [mbind option_bind].
  replace (byte_val c `div` 16 * 16 + byte_val c `mod` 16) with (byte_val c)
    by (Z.div_mod_to_equations; lia).
  destruct ((55296 <=? byte_val c) && (byte_val c <? 57344)) eqn:E7; [lia |].
  rewrite EncodeRune_ascii by lia. rewrite byte_chr_val. reflexivity.
Qed.

Lemma unquote_loop_multi (c : ascii) (t : string) (f : nat) :
  128 ≤ byte_val c →
  json.unquote_loop (S f) (String c t)
    = let '(rr, size) := utf8.DecodeRuneInString (String c t) in
      '(r, rest) ← json.unquote_loop f (string_drop size (String c t));
      Some (utf8.EncodeRune rr +:+ r, rest).
Proof.
  intros Hge. pose proof (byte_val_range c).
  cbn [json.unquote_loop].
  destruct (byte_val c =? 34) eqn:E1; [lia |].
  destruct (byte_val c =? 92) eqn:E2; [lia |].
  destruct (byte_val c <? 32) eqn:E3; [lia |].
  unfold utf8.RuneSelf.
  destruct (byte_val c <? 128) eqn:E4; [lia |].
  reflexivity.
Qed.

Lemma unquote_loop_separator (r : Z) (f : nat) (X : string) :
  r = 0x2028 ∨ r = 0x2029 →
  json.unquote_loop (S f)
    (String json.BSLASH "u202" +:+ String (json.hex (Z.land r 0xF)) X)
    = '(r', rest) ← json.unquote_loop f X;
      Some (utf8.EncodeRune r +:+ r', rest).
Proof.
  intros Hr.
  assert (Hu : json.getu4 (String json.BSLASH "u202"
                             +:+ String (json.hex (Z.land r 0xF)) X)
               = Some (r, X))
    by (destruct Hr as [-> | ->]; reflexivity).
  assert (He : ∃ e t', String json.BSLASH "u202"
                         +:+ String (json.hex (Z.land r 0xF)) X
                       = String json.BSLASH (String e t') ∧ byte_val e = 117)
    by (eexists _, _; split; reflexivity).
  destruct He as (e & t' & Heq & He). rewrite Heq in Hu |- *.
  rewrite unquote_loop_bslash. cbn zeta. rewrite He. cbn [Z.eqb Pos.eqb orb].
  rewrite Hu. cbn [mbind option_bind].
  destruct ((55296 <=? r) && (r <? 57344)) eqn:E; [lia |]. reflexivity.
Qed.

Lemma unquote_loop_end (f : nat) (rest : string) :
  json.unquote_loop (S f) (String json.DQUOTE rest) = Some (EmptyString, rest).
Proof. reflexivity. Qed.

Lemma appendString_loop_cons (f : nat) (c : ascii) (t : string) :
  json.appendString_loop (S f) (String c t) =
    let b := byte_val c in
    if b <? utf8.RuneSelf then
      if json.htmlSafeSet b then String c (json.appendString_loop f t)
      else json.escape_byte b +:+ json.appendString_loop f t
    else
      let '(r, size) := utf8.DecodeRuneInString (string_take 4 (String c t)) in
      if (r =? utf8.RuneError) && (size =? 1)%nat then
        String json.BSLASH "ufffd" +:+ json.appendString_loop f t
      else if (r =? 0x2028) || (r =? 0x2029) then
        String json.BSLASH "u202"
          +:+ String (json.hex (Z.land r 0xF))
                (json.appendString_loop f (string_drop size (String c t)))
      else
        string_take size (String c t)
          +:+ json.appendString_loop f (string_drop size (String c t)).
Proof. reflexivity. Qed.

Lemma escape_byte_length (b : Z) : (1 ≤ String.length (json.escape_byte b))%nat.
Proof.
  unfold json.escape_byte.
  repeat match goal with |- context [if ?c then _ else _] => destruct c end;
    simpl; lia.
Qed.

(** A string of valid UTF-8, escaped by [appendString] and closed by a
    quote, is read back by [unquote_loop]. *)
Lemma unquote_appendString_loop (n : nat) :
  ∀ (s : string) (fv f1 f2 : nat) (rest : string),
    (String.length s ≤ n)%nat →
    utf8.ValidString_loop fv s = true →
    (String.length s ≤ f1)%nat →
    (String.length (json.appendString_loop f1 s) < f2)%nat →
    json.unquote_loop f2
      (json.appendString_loop f1 s +:+ String json.DQUOTE rest)
      = Some (s, rest).
Proof.
  induction n as [|n IH]; intros s fv f1 f2 rest Hn Hv Hf1 Hf2.
  { destruct s; [| simpl in Hn; lia].
    destruct f2; [lia |]. by destruct f1. }
  destruct s as [|c t].
  { destruct f2; [lia |]. by destruct f1. }
  destruct f1 as [|f1]; [simpl in Hf1; lia |].
  destruct fv as [|fv]; [done |].
  destruct f2 as [|f2]; [lia |].
  simpl in Hn, Hf1. pose proof (byte_val_range c) as Hc.
  revert Hf2. rewrite appendString_loop_cons. cbn zeta.
  cbn [utf8.ValidString_loop] in Hv. unfold utf8.RuneSelf in *.
  destruct (byte_val c <? 128) eqn:Eascii.
  - (* an ASCII byte *)
    destruct (json.htmlSafeSet (byte_val c)) eqn:Esafe; intros Hf2.
    + rewrite string_app_cons, unquote_loop_safe by (done || lia).
      rewrite (IH t fv f1 f2 rest); [done | lia | done | lia |].
      simpl in Hf2. lia.
    + rewrite string_app_assoc, unquote_loop_escape by (done || lia).
      rewrite (IH t fv f1 f2 rest); [done | lia | done | lia |].
      rewrite string_length_app in Hf2. pose proof (escape_byte_length (byte_val c)). lia.
  - (* a multi-byte sequence *)
    rewrite Decode_take4.
    destruct (utf8.DecodeRuneInString (String c t)) as [r size] eqn:Hdec.
    destruct (size =? 1)%nat eqn:Esize; [done |].
    apply Nat.eqb_neq in Esize.
    pose proof (Decode_size_pos c t) as Hpos. rewrite Hdec in Hpos. simpl in Hpos.
    destruct (Decode_multi _ _ _ Hdec) as (Henc & Hlen & Hagain); [lia |].
    rewrite andb_false_r.
    assert (Hdrop : (String.length (string_drop size (String c t)) ≤ n)%nat).
    { rewrite length_string_drop. simpl. lia. }
    assert (Hdrop1 : (String.length (string_drop size (String c t)) ≤ f1)%nat).
    { rewrite length_string_drop. simpl. lia. }
    destruct ((r =? 8232) || (r =? 8233)) eqn:Esep; intros Hf2.
    + rewrite string_app_assoc, (string_app_cons (json.hex _)), unquote_loop_separator by lia.
      rewrite (IH _ fv f1 f2 rest); [| done | done | done |].
      * simpl. rewrite Henc. by rewrite string_take_drop.
      * rewrite string_length_app in Hf2. simpl in Hf2. lia.
    + assert (Hhead : string_take size (String c t)
                      = String c (string_take (size - 1) t)).
      { destruct size; [lia |]. simpl. by rewrite Nat.sub_0_r. }
      rewrite string_app_assoc. rewrite Hhead at 1. rewrite string_app_cons.
      rewrite unquote_loop_multi by lia.
      rewrite <- string_app_cons, <- Hhead. rewrite Hagain.
      rewrite (string_drop_app_len _ _ size Hlen).
      rewrite (IH _ fv f1 f2 rest); [| done | done | done |].
      * simpl. rewrite Henc. by rewrite string_take_drop.
      * rewrite string_length_app, Hlen in Hf2. lia.
Qed.

(** ** encoding/json: objects of strings *)

(** [unquote] reads back what [appendString] wrote, after the opening
    quote. *)
Lemma unquote_appendString (s rest : string) :
  utf8.ValidString s = true →
  json.unquote
    (json.appendString_loop (String.length s) s +:+ String json.DQUOTE rest)
    = Some (s, rest).
Proof.
  intros Hv. unfold json.unquote.
  apply (unquote_appendString_loop (String.length s) s (String.length s));
    [done | done | done |].
  rewrite string_length_app. simpl. lia.
Qed.

Lemma appendString_eq (s : string) (X : string) :
  json.appendString s +:+ X
    = String json.DQUOTE
        (json.appendString_loop (String.length s) s +:+ String json.DQUOTE X).
Proof.
  unfold json.appendString, json.quoted. rewrite string_app_cons. f_equal.
  by rewrite string_app_assoc.
Qed.

Lemma scanValue_string (f : nat) (t : string) :
  json.scanValue (S f) (String json.DQUOTE t)
    = '(str, rest) ← json.unquote t; Some (json.JString str, rest).
Proof. reflexivity. Qed.

Lemma scanMembers_step (f : nat) (t : string) :
  json.scanMembers (S f) (String json.DQUOTE t) =
    '(key, rest) ← json.unquote t;
    match json.skipSpace rest with
    | String c t1 =>
      if byte_val c =? 58 then
        '(v, rest1) ← json.scanValue f t1;
        match json.skipSpace rest1 with
        | String c' t2 =>
          if byte_val c' =? 44 then
            '(ms, rest2) ← json.scanMembers f t2;
            Some ((key, v) :: ms, rest2)
          else if byte_val c' =? 125 then Some ([(key, v)], t2)
          else None
        | EmptyString => None
        end
      else None
    | EmptyString => None
    end.
Proof. reflexivity. Qed.

Lemma scanMembers_member (f : nat) (kv : string * string) (X : string) :
  json.validPair kv →
  json.scanMembers (S (S f)) (json.member kv +:+ X) =
    match json.skipSpace X with
    | String c' t2 =>
      if byte_val c' =? 44 then
        '(ms, rest2) ← json.scanMembers (S f) t2;
        Some ((kv.1, json.JString kv.2) :: ms, rest2)
      else if byte_val c' =? 125 then Some ([(kv.1, json.JString kv.2)], t2)
      else None
    | EmptyString => None
    end.
Proof.
  intros [Hk Hv]. unfold json.member.
  rewrite !string_app_assoc, appendString_eq, scanMembers_step.
  rewrite unquote_appendString by done. cbn [mbind option_bind].
  change (":" +:+ ?Y) with (String ":"%char Y).
  cbn [json.skipSpace]. change (json.isSpace ":") with false. cbn iota.
  change (byte_val ":" =? 58) with true. cbn iota.
  rewrite appendString_eq, scanValue_string.
  rewrite unquote_appendString by done. cbn [mbind option_bind].
  reflexivity.
Qed.

Lemma scanMembers_Join (kvs : list (string * string)) :
  ∀ (f : nat) (rest : string),
    kvs ≠ [] →
    (length kvs < f)%nat →
    Forall json.validPair kvs →
    json.scanMembers f (json.Join (json.member <$> kvs) "," +:+ "}" +:+ rest)
      = Some ((λ kv, (kv.1, json.JString kv.2)) <$> kvs, rest).
Proof.
  induction kvs as [|kv kvs IH]; intros f rest Hne Hf Hvalid; [done |].
  apply Forall_cons_1 in Hvalid as [Hkv Hvalid].
  destruct f as [|[|f]]; [simpl in Hf; lia | simpl in Hf; lia |].
  destruct kvs as [|kv' kvs].
  - cbn [fmap list_fmap json.Join]. rewrite scanMembers_member by done.
    change ("}" +:+ rest) with (String "}"%char rest).
    cbn [json.skipSpace]. change (json.isSpace "}") with false. cbn iota.
    change (byte_val "}" =? 44) with false.
    change (byte_val "}" =? 125) with true. reflexivity.
  - change (json.Join (json.member <$> kv :: kv' :: kvs) ",")
      with (json.member kv +:+ "," +:+ json.Join (json.member <$> kv' :: kvs) ",").
    rewrite !string_app_assoc. rewrite scanMembers_member by done.
    change ("," +:+ ?Y) with (String ","%char Y).
    cbn [json.skipSpace]. change (json.isSpace ",") with false. cbn iota.
    change (byte_val "," =? 44) with true. cbn iota.
    rewrite IH; [done | done | simpl in Hf |- *; lia | done].
Qed.

Lemma member_length (kv : string * string) : (1 ≤ String.length (json.member kv))%nat.
Proof.
  unfold json.member. rewrite appendString_eq. simpl. lia.
Qed.

Lemma Join_length (kvs : list (string * string)) :
  (length kvs ≤ String.length (json.Join (json.member <$> kvs) ","))%nat.
Proof.
  induction kvs as [|kv [|kv' kvs] IH]; [done | |].
  - cbn [fmap list_fmap json.Join]. pose proof (member_length kv). simpl. lia.
  - change (json.Join (json.member <$> kv :: kv' :: kvs) ",")
      with (json.member kv +:+ "," +:+ json.Join (json.member <$> kv' :: kvs) ",").
    rewrite !string_length_app. pose proof (member_length kv). simpl in IH |- *. lia.
Qed.

Lemma Join_head (kv : string * string) (kvs : list (string * string)) (X : string) :
  ∃ t, json.Join (json.member <$> kv :: kvs) "," +:+ X = String json.DQUOTE t.
Proof.
  destruct kvs as [|kv' kvs].
  - cbn [fmap list_fmap json.Join]. unfold json.member.
    rewrite !string_app_assoc, appendString_eq. by eexists.
  - change (json.Join (json.member <$> kv :: kv' :: kvs) ",")
      with (json.member kv +:+ "," +:+ json.Join (json.member <$> kv' :: kvs) ",").
    unfold json.member. rewrite !string_app_assoc, appendString_eq. by eexists.
Qed.

Lemma storeMembers_strings (l : list (string * string)) (acc : gmap string string) :
  json.storeMembers ((λ kv, (kv.1, json.JString kv.2)) <$> l) acc
    = Some (foldl (λ m kv, <[kv.1 := kv.2]> m) acc l).
Proof.
  revert acc. induction l as [|[k v] l IH]; intros acc; [done |].
  simpl. apply IH.
Qed.

Lemma foldl_insert_list_to_map (l : list (string * string)) :
  foldl (λ (m : gmap string string) kv, <[kv.1 := kv.2]> m) ∅ l
    = list_to_map (reverse l).
Proof.
  rewrite <- (reverse_involutive l) at 1. generalize (reverse l). clear l.
  intros l. induction l as [|[k v] l IH]; [done |].
  rewrite reverse_cons, foldl_app. simpl. by rewrite IH.
Qed.

(** The scan of a marshalled object, whatever follows the closing
    brace. *)
Lemma scanValue_object (kvs : list (string * string)) (f : nat) (rest : string) :
  (S (length kvs) < f)%nat →
  Forall json.validPair kvs →
  json.scanValue f ("{" +:+ json.Join (json.member <$> kvs) "," +:+ "}" +:+ rest)
    = Some (json.JObject ((λ kv, (kv.1, json.JString kv.2)) <$> kvs), rest).
Proof.
  intros Hf Hvalid. destruct f as [|f]; [lia |].
  change ("{" +:+ ?Y) with (String "{"%char Y).
  destruct kvs as [|kv kvs].
  - reflexivity.
  - destruct (Join_head kv kvs ("}" +:+ rest)) as [t Ht].
    cbn [json.scanValue json.skipSpace]. change (json.isSpace "{") with false.
    cbn iota. change (byte_val "{" =? 123) with true. cbn iota.
    rewrite Ht. cbn [json.skipSpace].
    change (json.isSpace json.DQUOTE) with false. cbn iota.
    change (byte_val json.DQUOTE =? 125) with false. cbn iota.
    rewrite <- Ht. rewrite scanMembers_Join; [done | done | simpl in Hf |- *; lia | done].
Qed.

(** The round trip of the [map[string]string] codec: a map of valid
    UTF-8 keys and values is what [Unmarshal] makes of the line that
    [Encode] writes for it. *)
Lemma stringmap_round_trip (m : gmap string string) :
  map_Forall (λ k v, utf8.ValidString k = true ∧ utf8.ValidString v = true) m →
  json.unmarshalStringMap (json.marshalStringMap m +:+ LF) = Some m.
Proof.
  intros Hvalid. unfold json.unmarshalStringMap, json.marshalStringMap, json.scan.
  set (kvs := merge_sort json.key_le (map_to_list m)).
  assert (Hperm : kvs ≡ₚ map_to_list m) by apply merge_sort_Permutation.
  assert (Hkvs : Forall json.validPair kvs).
  { rewrite Hperm. apply Forall_forall. intros [k v] Hin.
    apply elem_of_map_to_list in Hin. apply (Hvalid k v Hin). }
  fold json.member. rewrite !string_app_assoc.
  rewrite scanValue_object; [| | done].
  - cbn [mbind option_bind]. change (json.skipSpace LF) with EmptyString.
    change (EmptyString =? EmptyString)%string with true.
    cbn [mbind option_bind]. rewrite storeMembers_strings, foldl_insert_list_to_map.
    f_equal. symmetry. apply list_to_map_flip.
    by rewrite reverse_Permutation.
  - rewrite !string_length_app. pose proof (Join_length kvs). simpl. lia.
Qed.

(** ** strconv and number literals *)

Lemma digits_uint (d : Decimal.uint) (X : string) :
  json.endsNumber X →
  json.digits (NilEmpty.string_of_uint d +:+ X) = (NilEmpty.string_of_uint d, X).
Proof.
  intros HX. induction d as [|d IH|d IH|d IH|d IH|d IH|d IH|d IH|d IH|d IH|d IH];
    try (cbn [NilEmpty.string_of_uint]; rewrite string_app_cons;
         cbn [json.digits];
         match goal with |- context [json.isDigit ?c] =>
           change (json.isDigit c) with true end;
         cbn iota; by rewrite IH).
  cbn [NilEmpty.string_of_uint]. rewrite string_app_nil_l.
  destruct X as [|c X]; [done |]. destruct HX as [Hd _].
  cbn [json.digits]. by rewrite Hd.
Qed.

Lemma parseDigits_uint_acc (d : Decimal.uint) (acc : positive) :
  json.parseDigits (Z.pos acc) (NilEmpty.string_of_uint d)
    = Some (Z.pos (Pos.of_uint_acc d acc)).
Proof.
  revert acc.
  induction d as [|d IH|d IH|d IH|d IH|d IH|d IH|d IH|d IH|d IH|d IH];
    intros acc; [done | ..];
    cbn [NilEmpty.string_of_uint json.parseDigits Pos.of_uint_acc];
    match goal with |- context [json.isDigit ?c] =>
      change (json.isDigit c) with true end;
    cbn iota;
    match goal with |- context [byte_val ?c] =>
      let v := eval vm_compute in (byte_val c) in change (byte_val c) with v end;
    rewrite <- IH; f_equal; lia.
Qed.

Lemma parseDigits_uint (d : Decimal.uint) :
  json.parseDigits 0 (NilEmpty.string_of_uint d) = Some (Z.of_N (Pos.of_uint d)).
Proof.
  induction d as [|d IH|d IH|d IH|d IH|d IH|d IH|d IH|d IH|d IH|d IH];
    [done | exact IH | ..];
    cbn [NilEmpty.string_of_uint json.parseDigits Pos.of_uint];
    match goal with |- context [json.isDigit ?c] =>
      change (json.isDigit c) with true end;
    cbn iota;
    match goal with |- context [byte_val ?c] =>
      let v := eval vm_compute in (byte_val c) in change (byte_val c) with v end;
    cbn [Z.mul Z.add Z.sub Z.opp Z.pos_sub Pos.pred_double Pos.add Z.double Z.succ_double Z.pred_double];
    apply parseDigits_uint_acc.
Qed.

(** The decimal text of a positive number starts with a digit from 1 to
    9. *)
Lemma to_uint_head (p : positive) :
  ∃ (c : ascii) (t : string),
    NilEmpty.string_of_uint (Pos.to_uint p) = String c t ∧
    json.isDigit c = true ∧ json.isSpace c = false ∧
    49 ≤ byte_val c ≤ 57.
Proof.
  pose proof (DecimalPos.Unsigned.to_of (Pos.to_uint p)) as Hnorm.
  rewrite DecimalPos.Unsigned.of_to in Hnorm. cbn [N.to_uint] in Hnorm.
  pose proof (Unsigned.to_uint_nonzero p) as Hnz.
  pose proof (Unsigned.to_uint_nonnil p) as Hnn.
  assert (Hhead : Decimal.nzhead (Pos.to_uint p) = Pos.to_uint p).
  { rewrite <- unorm_nzhead; [done |]. intros Hnil.
    apply unorm_0 in Hnil. congruence. }
  pose proof (nzhead_nonzero (Pos.to_uint p)) as Hd0. rewrite Hhead in Hd0.
  destruct (Pos.to_uint p) as [|d|d|d|d|d|d|d|d|d|d];
    [done | by destruct (Hd0 d) | ..];
    cbn [NilEmpty.string_of_uint]; eexists _, _; (split; [reflexivity |]);
    vm_compute; repeat split; congruence.
Qed.

Lemma string_of_uint_to_uint (p : positive) :
  NilZero.string_of_uint (Pos.to_uint p)
    = NilEmpty.string_of_uint (Pos.to_uint p).
Proof.
  unfold NilZero.string_of_uint.
  pose proof (Unsigned.to_uint_nonnil p). by destruct (Pos.to_uint p).
Qed.

(** [ParseInt] reads back what [Itoa] wrote for an [int64]. *)
Lemma ParseInt_Itoa (n : Z) :
  - 2 ^ 63 ≤ n < 2 ^ 63 → json.ParseInt (Itoa n) = Some n.
Proof.
  intros Hn. unfold json.ParseInt, Itoa.
  assert (Hrange : ((- 2 ^ 63 <=? n) && (n <? 2 ^ 63)) = true) by lia.
  destruct n as [|p|p]; cbn [Z.to_int NilZero.string_of_int].
  - reflexivity.
  - rewrite string_of_uint_to_uint.
    destruct (to_uint_head p) as (c & t & Heq & Hd & _ & Hc).
    rewrite Heq. destruct (byte_val c =? 45) eqn:E; [lia |].
    rewrite <- Heq, parseDigits_uint, DecimalPos.Unsigned.of_to.
    cbn [mbind option_bind Z.of_N]. by rewrite Hrange.
  - rewrite string_of_uint_to_uint.
    change (byte_val "-" =? 45) with true. cbn iota.
    destruct (to_uint_head p) as (c & t & Heq & _).
    rewrite Heq at 1. cbn [String.eqb].
    rewrite parseDigits_uint, DecimalPos.Unsigned.of_to.
    change (Z.opp <$> Some (Z.of_N (N.pos p))) with (Some (Z.neg p)).
    cbn [mbind option_bind]. by rewrite Hrange.
Qed.

(** One pass of [scanNumber] over an integer literal: a sign, a digit
    string that is 0 or starts with 1 to 9, and the end of the number. *)
Lemma scanNumber_integer (sign ds X : string) :
  (sign = EmptyString ∨ sign = "-") →
  (ds = "0" ∨
   ∃ c t d, ds = String c t ∧ 49 ≤ byte_val c ≤ 57 ∧
            ds = NilEmpty.string_of_uint d) →
  json.endsNumber X →
  json.scanNumber (sign +:+ ds +:+ X) = Some (sign +:+ ds, X).
Proof.
  intros Hsign Hds HX.
  assert (Hfrac :
    match X with
    | String c t =>
      if byte_val c =? 46 then
        let '(d, rest) := json.digits t in
        if String.eqb d EmptyString then None else Some ("." +:+ d, rest)
      else Some (EmptyString, X)
    | EmptyString => Some (EmptyString, X)
    end = Some (EmptyString, X)).
  { destruct X as [|c t]; [done |]. destruct HX as (_ & H1 & _).
    destruct (byte_val c =? 46) eqn:E1; [lia | done]. }
  assert (Hexp :
    match X with
    | String c t =>
      if (byte_val c =? 101) || (byte_val c =? 69) then
        let '(esign, t1) :=
          match t with
          | String c' t' =>
            if (byte_val c' =? 43) || (byte_val c' =? 45)
            then (String c' EmptyString, t') else (EmptyString, t)
          | EmptyString => (EmptyString, t)
          end in
        let '(d, rest) := json.digits t1 in
        if String.eqb d EmptyString then None
        else Some (String c esign +:+ d, rest)
      else Some (EmptyString, X)
    | EmptyString => Some (EmptyString, X)
    end = Some (EmptyString, X)).
  { destruct X as [|c t]; [done |]. destruct HX as (_ & _ & H2 & H3).
    destruct ((byte_val c =? 101) || (byte_val c =? 69)) eqn:E2; [lia | done]. }
  assert (Hint :
    match ds +:+ X with
    | String c t =>
      if byte_val c =? 48 then Some ("0", t)
      else if json.isDigit c then Some (json.digits (ds +:+ X))
      else None
    | EmptyString => None
    end = Some (ds, X)).
  { destruct Hds as [-> | (c & t & d & Heq & Hc & Hd)]; [done |].
    rewrite Heq at 1. rewrite string_app_cons.
    destruct (byte_val c =? 48) eqn:E; [lia |].
    assert (json.isDigit c = true) as -> by (unfold json.isDigit; lia).
    rewrite Hd. by rewrite digits_uint. }
  assert (Hhead : ∃ c t, ds +:+ X = String c t ∧ (byte_val c =? 45) = false).
  { destruct Hds as [-> | (c & t & d & Heq & Hc & Hd)].
    - by eexists _, _.
    - rewrite Heq, string_app_cons. eexists _, _. split; [done | lia]. }
  destruct Hsign as [-> | ->].
  - rewrite !string_app_nil_l. destruct Hhead as (c & t & Heq & Hc).
    rewrite Heq in Hint |- *. unfold json.scanNumber. rewrite Hc, Hint.
    cbn [mbind option_bind]. rewrite Hfrac. cbn [mbind option_bind].
    rewrite Hexp. cbn [mbind option_bind].
    by rewrite !string_app_nil_l, string_app_nil_r.
  - change ("-" +:+ ds +:+ X) with (String "-"%char (ds +:+ X)).
    unfold json.scanNumber.
    change (byte_val "-" =? 45) with true. cbn iota. rewrite Hint.
    cbn [mbind option_bind]. rewrite Hfrac. cbn [mbind option_bind].
    rewrite Hexp. cbn [mbind option_bind].
    change ("-" +:+ ds) with (String "-"%char ds).
    by rewrite !string_app_cons, string_app_nil_l, string_app_nil_r.
Qed.

Lemma Itoa_shape (n : Z) :
  ∃ sign ds,
    Itoa n = sign +:+ ds ∧
    (sign = EmptyString ∨ sign = "-") ∧
    (ds = "0" ∨
     ∃ c t d, ds = String c t ∧ 49 ≤ byte_val c ≤ 57 ∧
              ds = NilEmpty.string_of_uint d).
Proof.
  unfold Itoa. destruct n as [|p|p]; cbn [Z.to_int NilZero.string_of_int].
  - exists EmptyString, "0". split; [done |]. split; [by left | by left].
  - rewrite string_of_uint_to_uint.
    destruct (to_uint_head p) as (c & t & Heq & _ & _ & Hc).
    exists EmptyString, (NilEmpty.string_of_uint (Pos.to_uint p)).
    split; [done |]. split; [by left |]. right. by exists c, t, (Pos.to_uint p).
  - rewrite string_of_uint_to_uint.
    destruct (to_uint_head p) as (c & t & Heq & _ & _ & Hc).
    exists "-", (NilEmpty.string_of_uint (Pos.to_uint p)).
    split; [done |]. split; [by right |]. right. by exists c, t, (Pos.to_uint p).
Qed.

(** [scanNumber] delimits what [Itoa] wrote. *)
Lemma scanNumber_Itoa (n : Z) (X : string) :
  json.endsNumber X → json.scanNumber (Itoa n +:+ X) = Some (Itoa n, X).
Proof.
  intros HX. destruct (Itoa_shape n) as (sign & ds & -> & Hsign & Hds).
  rewrite string_app_assoc. by apply scanNumber_integer.
Qed.

(** ** encoding/json: arrays of users *)

Lemma Itoa_head (n : Z) (X : string) :
  ∃ c t, Itoa n +:+ X = String c t ∧ json.isSpace c = false ∧
         (byte_val c = 45 ∨ 48 ≤ byte_val c ≤ 57).
Proof.
  destruct (Itoa_shape n) as (sign & ds & -> & Hsign & Hds).
  destruct Hsign as [-> | ->].
  - rewrite string_app_nil_l.
    destruct Hds as [-> | (c & t & d & -> & Hc & _)].
    + eexists _, _. split; [reflexivity |]. split; [reflexivity |].
      right. vm_compute. split; congruence.
    + rewrite string_app_cons. eexists _, _. split; [reflexivity |].
      split; [unfold json.isSpace; lia | lia].
  - eexists _, _. split; [reflexivity |]. split; [reflexivity |]. by left.
Qed.

Lemma scanValue_number (f : nat) (n : Z) (X : string) :
  json.endsNumber X →
  json.scanValue (S f) (Itoa n +:+ X) = Some (json.JNumber (Itoa n), X).
Proof.
  intros HX. pose proof (scanNumber_Itoa n X HX) as Hscan.
  destruct (Itoa_head n X) as (c & t & Heq & Hsp & Hc).
  rewrite Heq in Hscan |- *. cbn [json.scanValue json.skipSpace]. rewrite Hsp.
  destruct (byte_val c =? 123) eqn:E1; [lia |].
  destruct (byte_val c =? 91) eqn:E2; [lia |].
  destruct (byte_val c =? 34) eqn:E3; [lia |].
  destruct (byte_val c =? 110) eqn:E4; [lia |].
  destruct (byte_val c =? 116) eqn:E5; [lia |].
  destruct (byte_val c =? 102) eqn:E6; [lia |].
  by rewrite Hscan.
Qed.

Lemma scanValue_user (f : nat) (u : handlers.User) (X : string) :
  utf8.ValidString (handlers.Name u) = true →
  json.scanValue (S (S (S (S f)))) (handlers.marshalUser u +:+ X)
    = Some (handlers.userValue u, X).
Proof.
  intros Hname. unfold handlers.marshalUser. rewrite !string_app_assoc.
  change ("{" +:+ ?Y) with (String "{"%char Y).
  cbn [json.scanValue json.skipSpace]. change (json.isSpace "{") with false.
  cbn iota. change (byte_val "{" =? 123) with true. cbn iota.
  change (json.quoted "id") with (json.appendString "id").
  rewrite appendString_eq. cbn [json.skipSpace].
  change (json.isSpace json.DQUOTE) with false. cbn iota.
  change (byte_val json.DQUOTE =? 125) with false. cbn iota.
  rewrite scanMembers_step, unquote_appendString by done.
  cbn [mbind option_bind].
  change (":" +:+ ?Y) with (String ":"%char Y).
  cbn [json.skipSpace]. change (json.isSpace ":") with false. cbn iota.
  change (byte_val ":" =? 58) with true. cbn iota.
  rewrite scanValue_number by (vm_compute; repeat split; congruence).
  cbn [mbind option_bind].
  change ("," +:+ ?Y) with (String ","%char Y).
  cbn [json.skipSpace]. change (json.isSpace ",") with false. cbn iota.
  change (byte_val "," =? 44) with true. cbn iota.
  change (json.quoted "name") with (json.appendString "name").
  assert (Hm : json.appendString "name" +:+ ":"
                 +:+ json.appendString (handlers.Name u) +:+ "}" +:+ X
               = json.member ("name", handlers.Name u) +:+ "}" +:+ X)
    by (unfold json.member; by rewrite !string_app_assoc).
  rewrite Hm, scanMembers_member by (split; [reflexivity | done]).
  change ("}" +:+ X) with (String "}"%char X).
  cbn [json.skipSpace]. change (json.isSpace "}") with false. cbn iota.
  change (byte_val "}" =? 44) with false.
  change (byte_val "}" =? 125) with true. reflexivity.
Qed.

Lemma unmarshalUser_userValue (u : handlers.User) :
  - 2 ^ 63 ≤ handlers.ID u < 2 ^ 63 →
  handlers.unmarshalUser (handlers.userValue u) = Some u.
Proof.
  intros Hid. unfold handlers.unmarshalUser, handlers.userValue.
  cbn [handlers.storeFields].
  change (String.eqb (handlers.lower "id") "id") with true. cbn iota.
  rewrite ParseInt_Itoa by done. cbn [mbind option_bind].
  change (String.eqb (handlers.lower "name") "id") with false.
  change (String.eqb (handlers.lower "name") "name") with true. cbn iota.
  by destruct u.
Qed.

Lemma scanElements_step (f : nat) (s : string) :
  json.scanElements (S f) s =
    '(v, rest) ← json.scanValue f s;
    match json.skipSpace rest with
    | String c t =>
      if byte_val c =? 44 then
        '(vs, rest') ← json.scanElements f t; Some (v :: vs, rest')
      else if byte_val c =? 93 then Some ([v], t)
      else None
    | EmptyString => None
    end.
Proof. reflexivity. Qed.

Lemma scanElements_users (us : list handlers.User) :
  ∀ (f : nat) (X : string),
    us ≠ [] →
    (length us + 4 ≤ f)%nat →
    Forall handlers.validUser us →
    json.scanElements f
      (json.Join (handlers.marshalUser <$> us) "," +:+ "]" +:+ X)
      = Some (handlers.userValue <$> us, X).
Proof.
  induction us as [|u us IH]; intros f X Hne Hf Hvalid; [done |].
  apply Forall_cons_1 in Hvalid as [[_ Hname] Hvalid].
  destruct f as [|[|[|[|[|f]]]]]; try (simpl in Hf; lia).
  destruct us as [|u' us].
  - cbn [fmap list_fmap json.Join]. rewrite scanElements_step.
    rewrite scanValue_user by done. cbn [mbind option_bind].
    change ("]" +:+ X) with (String "]"%char X).
    cbn [json.skipSpace]. change (json.isSpace "]") with false. cbn iota.
    change (byte_val "]" =? 44) with false.
    change (byte_val "]" =? 93) with true. reflexivity.
  - change (json.Join (handlers.marshalUser <$> u :: u' :: us) ",")
      with (handlers.marshalUser u +:+ ","
              +:+ json.Join (handlers.marshalUser <$> u' :: us) ",").
    rewrite !string_app_assoc, scanElements_step.
    rewrite scanValue_user by done. cbn [mbind option_bind].
    change ("," +:+ ?Y) with (String ","%char Y).
    cbn [json.skipSpace]. change (json.isSpace ",") with false. cbn iota.
    change (byte_val "," =? 44) with true. cbn iota.
    rewrite IH; [done | done | simpl in Hf |- *; lia | done].
Qed.

Lemma marshalUser_length (u : handlers.User) :
  (6 ≤ String.length (handlers.marshalUser u))%nat.
Proof.
  unfold handlers.marshalUser. rewrite !string_length_app.
  change (String.length "{") with 1%nat.
  change (String.length (json.quoted "id")) with 4%nat.
  change (String.length ":") with 1%nat. lia.
Qed.

Lemma Join_users_length (us : list handlers.User) :
  (6 * length us ≤ String.length (json.Join (handlers.marshalUser <$> us) ","))%nat.
Proof.
  induction us as [|u [|u' us] IH]; [done | |].
  - cbn [fmap list_fmap json.Join]. pose proof (marshalUser_length u).
    simpl. lia.
  - change (json.Join (handlers.marshalUser <$> u :: u' :: us) ",")
      with (handlers.marshalUser u +:+ ","
              +:+ json.Join (handlers.marshalUser <$> u' :: us) ",").
    rewrite !string_length_app. pose proof (marshalUser_length u).
    cbn [length] in IH |- *. lia.
Qed.

Lemma mapM_unmarshalUser (us : list handlers.User) :
  Forall handlers.validUser us →
  mapM handlers.unmarshalUser (handlers.userValue <$> us) = Some us.
Proof.
  induction 1 as [|u us [Hid _] _ IH]; [done |].
  cbn [fmap list_fmap mapM]. rewrite unmarshalUser_userValue by done.
  cbn [mbind option_bind]. rewrite IH. done.
Qed.

(** The round trip of the [[]User] codec. *)
Lemma users_round_trip (us : list handlers.User) :
  Forall handlers.validUser us →
  ∃ b, json.Marshal us = inl b ∧ json.Unmarshal (b +:+ LF) = Some us.
Proof.
  intros Hvalid. eexists. split; [reflexivity |].
  cbn [json.Unmarshal handlers.users_codec]. unfold json.scan.
  rewrite !string_app_assoc.
  change ("[" +:+ ?Y) with (String "["%char Y).
  cbn [json.scanValue json.skipSpace]. change (json.isSpace "[") with false.
  cbn iota. change (byte_val "[" =? 123) with false.
  change (byte_val "[" =? 91) with true. cbn iota.
  destruct us as [|u us].
  - reflexivity.
  - assert (Hhead : ∃ t,
      json.Join (handlers.marshalUser <$> u :: us) "," +:+ "]" +:+ LF
        = String "{"%char t).
    { destruct us; cbn [fmap list_fmap json.Join]; unfold handlers.marshalUser;
        rewrite !string_app_assoc; by eexists. }
    destruct Hhead as [t Ht]. rewrite Ht. cbn [json.skipSpace].
    change (json.isSpace "{") with false. cbn iota.
    change (byte_val "{" =? 93) with false. cbn iota. rewrite <- Ht.
    rewrite scanElements_users; [| done | | done].
    + cbn [mbind option_bind]. change (json.skipSpace LF) with EmptyString.
      change (EmptyString =? EmptyString)%string with true.
      cbn [mbind option_bind]. by apply mapM_unmarshalUser.
    + cbn [String.length]. rewrite !string_length_app.
      pose proof (Join_users_length (u :: us)) as Hlen.
      cbn [length] in Hlen |- *. lia.
Qed.

(** ** The sink, the router and the context *)

Section SinkProperties.
Context `{!ContentSniffer}.

Lemma WriteHeader_first (code : Z) (w : http.ResponseRecorder) :
  100 ≤ code ≤ 999 →
  http.wroteHeader w = false →
  http.WriteHeader code w =
    Done {| http.Code := code; http.HeaderMap := http.HeaderMap w;
            http.Body := http.Body w;
            http.snapHeader := Some (http.HeaderMap w);
            http.wroteHeader := true |}.
Proof.
  intros Hcode Hw. unfold http.WriteHeader, http.checkWriteHeaderCode.
  rewrite Hw.
  destruct (code <? 100) eqn:Hlo; [apply Z.ltb_lt in Hlo; lia |].
  destruct (code >? 999) eqn:Hhi; [apply Z.gtb_lt in Hhi; lia |].
  reflexivity.
Qed.

Lemma WriteHeader_again (code : Z) (w : http.ResponseRecorder) :
  http.wroteHeader w = true → http.WriteHeader code w = Done w.
Proof. intros Hw. unfold http.WriteHeader. by rewrite Hw. Qed.

Lemma WriteHeader_invalid (code : Z) (w : http.ResponseRecorder) :
  code < 100 ∨ 999 < code →
  http.wroteHeader w = false →
  http.WriteHeader code w =
    Panicked ("invalid WriteHeader code " +:+ Itoa code).
Proof.
  intros Hcode Hw. unfold http.WriteHeader, http.checkWriteHeaderCode.
  rewrite Hw.
  destruct (code <? 100) eqn:Hlo; [reflexivity |].
  destruct (code >? 999) eqn:Hhi; [reflexivity |].
  apply Z.ltb_ge in Hlo. rewrite Z.gtb_ltb in Hhi. apply Z.ltb_ge in Hhi. lia.
Qed.

Lemma Write_after_header (buf : string) (w : http.ResponseRecorder) :
  http.wroteHeader w = true →
  http.Write buf w =
    Done ({| http.Code := http.Code w; http.HeaderMap := http.HeaderMap w;
             http.Body := http.Body w +:+ buf;
             http.snapHeader := http.snapHeader w;
             http.wroteHeader := true |},
          if http.bodyAllowedForStatus (http.Code w) then None
          else Some http.ErrBodyNotAllowed).
Proof.
  intros Hw. unfold http.Write, http.writeHeader. rewrite Hw. simpl.
  by rewrite Hw.
Qed.

(** [http.Error] never panics on a status in range; on a sink whose
    status line is still open it fixes the status, the two headers and
    appends the message and a line feed. *)
Lemma Error_first (w : http.ResponseRecorder) (msg : string) (code : Z) :
  100 ≤ code ≤ 999 →
  http.wroteHeader w = false →
  ∃ w', http.Error w msg code = Done w' ∧
        http.Code w' = code ∧
        http.wroteHeader w' = true ∧
        http.Body w' = http.Body w +:+ (msg +:+ LF) ∧
        http.Header_Get "Content-Type" (default ∅ (http.snapHeader w'))
          = "text/plain; charset=utf-8".
Proof.
  intros Hcode Hw. unfold http.Error.
  rewrite WriteHeader_first; [| done | done]. cbn [mbind outcome_bind].
  rewrite Write_after_header; [| done]. cbn [mbind outcome_bind].
  eexists. split; [reflexivity |]. simpl. repeat split.
  unfold http.Header_Get, http.Header_Set.
  rewrite lookup_insert_ne; [| done]. by rewrite lookup_insert_eq.
Qed.

(** After the status line is fixed, [http.Error] only appends the
    message to the body: status and sent headers stay. *)
Lemma Error_after_header (w : http.ResponseRecorder) (msg : string) (code : Z) :
  http.wroteHeader w = true →
  ∃ w', http.Error w msg code = Done w' ∧
        http.Code w' = http.Code w ∧
        http.snapHeader w' = http.snapHeader w ∧
        http.wroteHeader w' = true ∧
        http.Body w' = http.Body w +:+ (msg +:+ LF).
Proof.
  intros Hw. unfold http.Error.
  rewrite WriteHeader_again; [| done]. cbn [mbind outcome_bind].
  rewrite Write_after_header; [| done]. cbn [mbind outcome_bind].
  eexists. split; [reflexivity |]. done.
Qed.

End SinkProperties.

Section RouterProperties.
Context `{!ContentSniffer}.

Implicit Types (r : router.Router) (w : http.ResponseRecorder)
  (req : http.Request) (handler : router.HandlerFunc)
  (h : httpcontext.Context → outcome httpcontext.Context).

Lemma handlerFor_None r method path :
  router.handlerFor r method path = None ↔
  router.routes r !! method = None ∨
  ∃ pathHandlers, router.routes r !! method = Some pathHandlers ∧
                  pathHandlers !! path = None.
Proof.
  unfold router.handlerFor.
  destruct (router.routes r !! method) as [ph|]; simpl.
  - split; [intros Hp; right; by exists ph |].
    intros [Hn | (ph' & Hs & Hp)]; [done |]. by injection Hs as <-.
  - split; [by left | done].
Qed.

(** A run of [ServeHTTP] on a request with no entry in the route
    table. *)
Lemma ServeHTTP_miss r w req :
  router.handlerFor r (http.Method req) (http.Path (http.RequestURL req))
    = None →
  router.ServeHTTP w req r =
    {| router.trace := [router.RLock; router.RUnlock];
       router.after := r;
       router.result := http.NotFound w |}.
Proof.
  unfold router.handlerFor, router.ServeHTTP. intros Hmiss.
  destruct (router.routes r !! http.Method req) as [ph|] eqn:Hm; simpl in Hmiss.
  - cbv [mbind router.M_bind router.defer router.emit router.get router.lift].
    simpl. rewrite Hm, Hmiss. reflexivity.
  - cbv [mbind router.M_bind router.defer router.emit router.get router.lift].
    simpl. rewrite Hm. reflexivity.
Qed.

(** A run of [ServeHTTP] on a request whose pair has an entry. *)
Lemma ServeHTTP_hit r w req handler :
  router.handlerFor r (http.Method req) (http.Path (http.RequestURL req))
    = Some handler →
  let ctx := {| httpcontext.Writer := w; httpcontext.Request := req |} in
  router.ServeHTTP w req r =
    {| router.trace := [router.RLock; router.Invoke handler ctx; router.RUnlock];
       router.after := r;
       router.result := router.invoke handler ctx |}.
Proof.
  intros Hhit ctx. unfold router.handlerFor in Hhit. unfold router.ServeHTTP.
  destruct (router.routes r !! http.Method req) as [ph|] eqn:Hm;
    simpl in Hhit; [| done].
  cbv [mbind router.M_bind router.defer router.emit router.get router.lift
       router.call].
  simpl. rewrite Hm, Hhit. fold ctx.
  destruct (router.invoke handler ctx); reflexivity.
Qed.

(** A run of [addRoute]. *)
Lemma addRoute_run r method path handler :
  router.addRoute method path handler r =
    {| router.trace :=
         [router.Lock;
          router.Printf ("Registered route: " +:+ method +:+ " " +:+ path);
          router.Unlock];
       router.after :=
         {| router.routes :=
              <[method := <[path := handler]>
                            (default ∅ (router.routes r !! method))]>
                (router.routes r) |};
       router.result := Done tt |}.
Proof.
  unfold router.addRoute.
  cbv [mbind router.M_bind router.defer router.emit router.get router.put].
  simpl. f_equal. f_equal.
  destruct (router.routes r !! method) as [ph|] eqn:Hm; simpl.
  - by rewrite Hm.
  - rewrite lookup_insert_eq. simpl. by rewrite insert_insert_eq.
Qed.

Lemma handlerFor_addRoute r method path handler method' path' :
  router.handlerFor (router.after (router.addRoute method path handler r))
    method' path' =
  if decide (method' = method ∧ path' = path) then Some handler
  else router.handlerFor r method' path'.
Proof.
  rewrite addRoute_run. unfold router.handlerFor. simpl.
  destruct (decide (method' = method)) as [-> | Hm].
  - rewrite lookup_insert_eq. simpl.
    destruct (decide (path' = path)) as [-> | Hp].
    + rewrite lookup_insert_eq. by rewrite decide_True.
    + rewrite lookup_insert_ne; [| done].
      rewrite decide_False; [| by intros [_ ?]].
      by destruct (router.routes r !! method).
  - rewrite lookup_insert_ne; [| done].
    rewrite decide_False; [done | by intros [? _]].
Qed.

End RouterProperties.

Section DispatchClaims.
Context `{!ContentSniffer}.

Implicit Types (r : router.Router) (w : http.ResponseRecorder)
  (req : http.Request) (handler : router.HandlerFunc)
  (h : httpcontext.Context → outcome httpcontext.Context).

(** C1. In a router whose route table holds the handler [h] for a
    (method, path) pair, dispatching a request with exactly that method
    and path invokes [h] once, on the fresh context of the sink and the
    request, and invokes nothing else; the call is synchronous: the
    outcome of [ServeHTTP] is the outcome of [h], and the deferred
    unlock comes after the invocation. *)
Theorem dispatch_invokes_registered_handler r w req h :
  router.handlerFor r (http.Method req) (http.Path (http.RequestURL req))
    = Some (Some h) →
  let ctx := {| httpcontext.Writer := w; httpcontext.Request := req |} in
  let x := router.ServeHTTP w req r in
  router.invocations (router.trace x) = [(Some h, ctx)] ∧
  router.trace x = [router.RLock; router.Invoke (Some h) ctx; router.RUnlock] ∧
  router.result x = httpcontext.Writer <$> h ctx.
Proof.
  intros Hreg ctx x. subst x. rewrite (ServeHTTP_hit _ _ _ _ Hreg).
  simpl. done.
Qed.

(** C2. A request whose (method, path) pair has no entry in the route
    table, be it that the method has no registrations, that the method
    has some but not for this path, or that the path is registered
    under another method only, gets the answer of [http.NotFound] and
    nothing else: no handler runs, nothing panics, and on a sink whose
    status line is open the status is 404 with the transport's
    plain-text body. The outcome depends on the sink alone, so the three
    cases are not told apart. *)
Theorem dispatch_miss_is_404 r w req :
  router.handlerFor r (http.Method req) (http.Path (http.RequestURL req))
    = None →
  http.wroteHeader w = false →
  let x := router.ServeHTTP w req r in
  router.invocations (router.trace x) = [] ∧
  router.result x = http.NotFound w ∧
  ∃ w', router.result x = Done w' ∧
        http.StatusCode (http.Result w') = 404 ∧
        http.Code w' = 404 ∧
        http.RespBody (http.Result w')
          = http.Body w +:+ ("404 page not found" +:+ LF).
Proof.
  intros Hmiss Hw x. subst x. rewrite (ServeHTTP_miss _ _ _ Hmiss). simpl.
  split; [done |]. split; [done |].
  destruct (Error_first w "404 page not found" 404) as (w' & He & Hc & _ & Hb & _);
    [lia | done |].
  exists w'. unfold http.NotFound, http.StatusNotFound. rewrite He.
  split; [done |]. unfold http.Result. simpl. rewrite Hc. done.
Qed.

(** C3. Registering [h1] and then [h2] for the same (method, path) pair
    reports no error either time, and a dispatch of the matching
    request then invokes [h2] and only [h2]. *)
Theorem register_twice_last_wins r w method path h1 h2 :
  let x1 := router.addRoute method path (Some h1) r in
  let x2 := router.addRoute method path (Some h2) (router.after x1) in
  let req := router.requestFor method path in
  let ctx := {| httpcontext.Writer := w; httpcontext.Request := req |} in
  let y := router.ServeHTTP w req (router.after x2) in
  router.result x1 = Done tt ∧
  router.result x2 = Done tt ∧
  router.invocations (router.trace y) = [(Some h2, ctx)] ∧
  router.result y = httpcontext.Writer <$> h2 ctx.
Proof.
  intros x1 x2 req ctx y.
  assert (Hreg : router.handlerFor (router.after x2) (http.Method req)
                   (http.Path (http.RequestURL req)) = Some (Some h2)).
  { subst x2. rewrite handlerFor_addRoute. simpl. by rewrite decide_True. }
  split; [subst x1; by rewrite addRoute_run |].
  split; [subst x2; by rewrite addRoute_run |].
  subst y. rewrite (ServeHTTP_hit _ _ _ _ Hreg). simpl. done.
Qed.

(** C7. [addRoute] checks nothing about its arguments: for every
    non-empty method, every non-empty path, whatever their syntax, and
    every handler value, it returns normally, the route table then
    holds that handler for the pair, and every other pair keeps its
    entry. *)
Theorem register_accepts_any_strings r method path handler :
  method ≠ EmptyString →
  path ≠ EmptyString →
  let x := router.addRoute method path handler r in
  router.result x = Done tt ∧
  router.handlerFor (router.after x) method path = Some handler ∧
  ∀ method' path',
    (method', path') ≠ (method, path) →
    router.handlerFor (router.after x) method' path'
      = router.handlerFor r method' path'.
Proof.
  intros _ _ x. subst x. split; [by rewrite addRoute_run |].
  split.
  - rewrite handlerFor_addRoute. by rewrite decide_True.
  - intros method' path' Hne. rewrite handlerFor_addRoute.
    rewrite decide_False; [done |]. intros [-> ->]. done.
Qed.

(** C8, as the code has it. [ServeHTTP] takes the read lock first and
    releases it last, through [defer]: its events are [RLock], the
    invocation of the matched handler if there is one, and [RUnlock].
    At the invocation the run holds its read lock. *)
Theorem dispatch_holds_read_lock_across_handler r w req :
  let ctx := {| httpcontext.Writer := w; httpcontext.Request := req |} in
  let x := router.ServeHTTP w req r in
  router.trace x =
    router.RLock ::
      match router.handlerFor r (http.Method req)
              (http.Path (http.RequestURL req)) with
      | Some handler => [router.Invoke handler ctx]
      | None => []
      end ++ [router.RUnlock] ∧
  Forall (λ held, held = 1) (router.readLocksAtInvoke 0 (router.trace x)).
Proof.
  intros ctx x. subst x.
  destruct (router.handlerFor r (http.Method req)
              (http.Path (http.RequestURL req))) as [handler|] eqn:Hf.
  - rewrite (ServeHTTP_hit _ _ _ _ Hf). simpl. split; [done |].
    by repeat constructor.
  - rewrite (ServeHTTP_miss _ _ _ Hf). simpl. split; [done |]. constructor.
Qed.

(** C9. [ServeHTTP] leaves the router as it found it, whether the
    request matches or not and whether the handler returns or panics;
    [addRoute] is what changes the route table, by setting the entry of
    its pair. *)
Theorem dispatch_leaves_router_unchanged r w req :
  router.after (router.ServeHTTP w req r) = r ∧
  ∀ method path handler,
    router.routes (router.after (router.addRoute method path handler r))
      = <[method := <[path := handler]>
                      (default ∅ (router.routes r !! method))]>
          (router.routes r).
Proof.
  split.
  - destruct (router.handlerFor r (http.Method req)
                (http.Path (http.RequestURL req))) as [handler|] eqn:Hf.
    + by rewrite (ServeHTTP_hit _ _ _ _ Hf).
    + by rewrite (ServeHTTP_miss _ _ _ Hf).
  - intros method path handler. by rewrite addRoute_run.
Qed.

(** C10. An empty method or an empty path is registered like any other
    string: [addRoute] returns normally, the route table holds the
    handler for the pair, and the request with exactly that method and
    path is dispatched to it. *)
Theorem register_accepts_empty_strings r w method path h :
  method = EmptyString ∨ path = EmptyString →
  let x := router.addRoute method path (Some h) r in
  let req := router.requestFor method path in
  let ctx := {| httpcontext.Writer := w; httpcontext.Request := req |} in
  let y := router.ServeHTTP w req (router.after x) in
  router.result x = Done tt ∧
  router.handlerFor (router.after x) method path = Some (Some h) ∧
  router.invocations (router.trace y) = [(Some h, ctx)] ∧
  router.result y = httpcontext.Writer <$> h ctx.
Proof.
  intros _ x req ctx y.
  assert (Hreg : router.handlerFor (router.after x) method path
                 = Some (Some h)).
  { subst x. rewrite handlerFor_addRoute. by rewrite decide_True. }
  split; [subst x; by rewrite addRoute_run |]. split; [done |].
  subst y. rewrite (ServeHTTP_hit (router.after x) w req (Some h) Hreg).
  simpl. done.
Qed.

End DispatchClaims.

Section ContextProperties.
Context `{!ContentSniffer}.

Implicit Types (c : httpcontext.Context) (w : http.ResponseRecorder).

Lemma status_in_range (code : Z) :
  100 ≤ code ≤ 999 → (if code =? 0 then 200 else code) = code.
Proof.
  intros Hc. destruct (code =? 0) eqn:Hz; [apply Z.eqb_eq in Hz; lia | done].
Qed.

(** [JSON] on a payload that marshals, with a status the sink accepts
    and the status line still open. With a status that allows no body,
    [Write] reports [ErrBodyNotAllowed] after recording the encoding,
    [Encode] hands the error on, and [JSON] goes on to [http.Error]. *)
Lemma JSON_run_ok {A : Type} `{!json.Codec A} (statusCode : Z) (data : A) c
    (b : string) :
  100 ≤ statusCode ≤ 999 →
  http.wroteHeader (httpcontext.Writer c) = false →
  json.Marshal data = inl b →
  let hm := http.Header_Set "Content-Type" "application/json"
              (http.HeaderMap (httpcontext.Writer c)) in
  httpcontext.JSON statusCode data c =
    Done (httpcontext.withWriter c
            (if http.bodyAllowedForStatus statusCode then
               {| http.Code := statusCode; http.HeaderMap := hm;
                  http.Body := http.Body (httpcontext.Writer c) +:+ (b +:+ LF);
                  http.snapHeader := Some hm; http.wroteHeader := true |}
             else
               {| http.Code := statusCode;
                  http.HeaderMap :=
                    http.Header_Set "X-Content-Type-Options" "nosniff"
                      (http.Header_Set "Content-Type"
                         "text/plain; charset=utf-8"
                         (http.Header_Del "Content-Length" hm));
                  http.Body :=
                    (http.Body (httpcontext.Writer c) +:+ (b +:+ LF))
                      +:+ ("Error encoding JSON response" +:+ LF);
                  http.snapHeader := Some hm; http.wroteHeader := true |})).
Proof.
  intros Hcode Hw Hb hm. unfold httpcontext.JSON.
  rewrite WriteHeader_first; [| done | done]. cbn [mbind outcome_bind].
  unfold json.Encode. rewrite Hb.
  rewrite Write_after_header; [| done].
  cbn [mbind outcome_bind http.Code http.SetHeader].
  destruct (http.bodyAllowedForStatus statusCode); [reflexivity |].
  unfold http.Error. rewrite WriteHeader_again; [| done].
  cbn [mbind outcome_bind]. rewrite Write_after_header; [| done].
  reflexivity.
Qed.

(** [JSON] on a payload that does not marshal: the status line is
    already fixed when [http.Error] asks for 500. *)
Lemma JSON_run_err {A : Type} `{!json.Codec A} (statusCode : Z) (data : A) c
    (err : json.error) :
  100 ≤ statusCode ≤ 999 →
  http.wroteHeader (httpcontext.Writer c) = false →
  json.Marshal data = inr err →
  let hm := http.Header_Set "Content-Type" "application/json"
              (http.HeaderMap (httpcontext.Writer c)) in
  httpcontext.JSON statusCode data c =
    Done (httpcontext.withWriter c
            {| http.Code := statusCode;
               http.HeaderMap :=
                 http.Header_Set "X-Content-Type-Options" "nosniff"
                   (http.Header_Set "Content-Type" "text/plain; charset=utf-8"
                      (http.Header_Del "Content-Length" hm));
               http.Body := http.Body (httpcontext.Writer c)
                              +:+ ("Error encoding JSON response" +:+ LF);
               http.snapHeader := Some hm; http.wroteHeader := true |}).
Proof.
  intros Hcode Hw Hb hm. unfold httpcontext.JSON.
  rewrite WriteHeader_first; [| done | done]. simpl.
  unfold json.Encode. rewrite Hb. simpl. reflexivity.
Qed.

(** [JSON] with a status the sink rejects. *)
Lemma JSON_run_invalid {A : Type} `{!json.Codec A} (statusCode : Z) (data : A) c :
  statusCode < 100 ∨ 999 < statusCode →
  http.wroteHeader (httpcontext.Writer c) = false →
  httpcontext.JSON statusCode data c =
    Panicked ("invalid WriteHeader code " +:+ Itoa statusCode).
Proof.
  intros Hcode Hw. unfold httpcontext.JSON.
  rewrite WriteHeader_invalid; [| done | done]. reflexivity.
Qed.

Lemma Header_Get_Set (key value : string) (hm : http.Header) :
  http.Header_Get key (http.Header_Set key value hm) = value.
Proof. unfold http.Header_Get, http.Header_Set. by rewrite lookup_insert_eq. Qed.


(** C5, on the code. For a payload that does not marshal, [JSON] calls
    [http.Error] with 500 after [WriteHeader statusCode]: the response
    keeps the status [statusCode] and the Content-Type
    [application/json], and its body is the error message. *)
Theorem JSON_encoding_failure_keeps_status {A : Type} `{!json.Codec A}
    (statusCode : Z) (data : A) c (err : json.error) :
  100 ≤ statusCode ≤ 999 →
  http.wroteHeader (httpcontext.Writer c) = false →
  json.Marshal data = inr err →
  ∃ c', httpcontext.JSON statusCode data c = Done c' ∧
    let resp := http.Result (httpcontext.Writer c') in
    http.StatusCode resp = statusCode ∧
    http.Header_Get "Content-Type" (http.RespHeader resp) = "application/json" ∧
    http.RespBody resp
      = http.Body (httpcontext.Writer c)
          +:+ ("Error encoding JSON response" +:+ LF).
Proof.
  intros Hcode Hw Hb.
  eexists. split; [by apply (JSON_run_err statusCode data c err) |]. simpl.
  split; [| split].
  - unfold http.Result. simpl.
    destruct (statusCode =? 0) eqn:Hz; [apply Z.eqb_eq in Hz; lia | done].
  - apply Header_Get_Set.
  - done.
Qed.

(** The route table of the application. *)
Lemma RegisterRoutes_health :
  router.result (handlers.RegisterRoutes router.New) = Done tt ∧
  router.handlerFor (router.after (handlers.RegisterRoutes router.New))
    "GET" "/health" = Some (Some handlers.HealthCheckHandler).
Proof.
  unfold handlers.RegisterRoutes, router.GET, router.POST.
  cbv [mbind router.M_bind]. rewrite !addRoute_run. simpl.
  split; [done |].
  unfold router.handlerFor. simpl.
  rewrite lookup_insert_ne; [| done]. rewrite lookup_insert_eq. simpl.
  rewrite lookup_insert_eq. simpl.
  rewrite lookup_insert_ne; [| done]. by rewrite lookup_insert_eq.
Qed.

(** C6. After [RegisterRoutes] on a new router, a GET request for
    [/health] on a new recorder returns normally with status 200 and a
    body that unmarshals to the map of [status] to [ok] and [service]
    to [HTTPGolang_Server]. *)
Theorem health_endpoint_responds_ok :
  let r := router.after (handlers.RegisterRoutes router.New) in
  let x := router.ServeHTTP http.NewRecorder
             (router.requestFor "GET" "/health") r in
  ∃ w', router.result x = Done w' ∧
    http.StatusCode (http.Result w') = 200 ∧
    json.Unmarshal (http.RespBody (http.Result w'))
      = Some ({[ "status" := "ok"; "service" := "HTTPGolang_Server" ]}
                : gmap string string).
Proof.
  intros r x. subst x r.
  destruct RegisterRoutes_health as [_ Hreg].
  rewrite (ServeHTTP_hit _ _ (router.requestFor "GET" "/health") _ Hreg).
  cbn [router.result router.invoke]. unfold handlers.HealthCheckHandler.
  erewrite JSON_run_ok; [| unfold http.StatusOK; lia | done | reflexivity].
  eexists. split; [reflexivity |]. split; [done |].
  vm_compute. reflexivity.
Qed.

End ContextProperties.

(** * Further properties

    What the helpers of [httpcontext], the registration and dispatch of
    [router] and the handlers of [handlers] do beyond the cases above:
    on a sink whose status line is already written, with a status the
    sink rejects, over sequences of registrations, on the mutex and in
    the log. *)

(** ** The helpers of the request context *)

Section HelperProperties.
Context `{!ContentSniffer}.

Implicit Types (c : httpcontext.Context) (w : http.ResponseRecorder).

Lemma withWriter_id c : httpcontext.withWriter c (httpcontext.Writer c) = c.
Proof. by destruct c. Qed.

(** [WriteHeader] in its three cases. *)
Lemma WriteHeader_cases (code : Z) w :
  http.WriteHeader code w =
    if http.wroteHeader w then Done w
    else if bool_decide (100 ≤ code ≤ 999) then
      Done {| http.Code := code; http.HeaderMap := http.HeaderMap w;
              http.Body := http.Body w;
              http.snapHeader := Some (http.HeaderMap w);
              http.wroteHeader := true |}
    else Panicked ("invalid WriteHeader code " +:+ Itoa code).
Proof.
  destruct (http.wroteHeader w) eqn:Hw; [by apply WriteHeader_again |].
  case_bool_decide as Hc.
  - by apply WriteHeader_first.
  - apply WriteHeader_invalid; [lia | done].
Qed.

(** [JSON] on a sink whose status line is written. It appends, after a
    payload that marshals and with a written status that allows a body,
    the encoding and a line feed; after a payload that marshals and with
    a status that allows none, the encoding, a line feed and the message
    of [http.Error]; after a payload that does not marshal, the message
    alone. *)
Lemma JSON_run_written {A : Type} `{!json.Codec A} (statusCode : Z) (data : A) c :
  http.wroteHeader (httpcontext.Writer c) = true →
  let w := httpcontext.Writer c in
  let hm := http.Header_Set "Content-Type" "application/json" (http.HeaderMap w) in
  let failed (body : string) :=
    {| http.Code := http.Code w;
       http.HeaderMap :=
         http.Header_Set "X-Content-Type-Options" "nosniff"
           (http.Header_Set "Content-Type" "text/plain; charset=utf-8"
              (http.Header_Del "Content-Length" hm));
       http.Body := body +:+ ("Error encoding JSON response" +:+ LF);
       http.snapHeader := http.snapHeader w;
       http.wroteHeader := true |} in
  httpcontext.JSON statusCode data c =
    Done (httpcontext.withWriter c
            match json.Marshal data with
            | inl b =>
              if http.bodyAllowedForStatus (http.Code w) then
                {| http.Code := http.Code w; http.HeaderMap := hm;
                   http.Body := http.Body w +:+ (b +:+ LF);
                   http.snapHeader := http.snapHeader w;
                   http.wroteHeader := true |}
              else failed (http.Body w +:+ (b +:+ LF))
            | inr _ => failed (http.Body w)
            end).
Proof.
  intros Hw w hm failed. subst failed. unfold httpcontext.JSON.
  rewrite WriteHeader_again; [| done]. cbn [mbind outcome_bind].
  unfold json.Encode. destruct (json.Marshal data) as [b | err].
  - rewrite Write_after_header; [| done].
    cbn [mbind outcome_bind http.Code http.SetHeader]. fold w.
    destruct (http.bodyAllowedForStatus (http.Code w)); [reflexivity |].
    unfold http.Error. rewrite WriteHeader_again; [| done].
    cbn [mbind outcome_bind]. rewrite Write_after_header; [| done].
    reflexivity.
  - cbn [mbind outcome_bind]. unfold http.Error.
    rewrite WriteHeader_again; [| done].
    cbn [mbind outcome_bind]. rewrite Write_after_header; [| done].
    reflexivity.
Qed.

(** [JSON] in all its cases. *)
Lemma JSON_run {A : Type} `{!json.Codec A} (statusCode : Z) (data : A) c :
  let w := httpcontext.Writer c in
  let hm := http.Header_Set "Content-Type" "application/json" (http.HeaderMap w) in
  let reply (code : Z) (sent : option http.Header) :=
    let failed (body : string) :=
      {| http.Code := code;
         http.HeaderMap :=
           http.Header_Set "X-Content-Type-Options" "nosniff"
             (http.Header_Set "Content-Type" "text/plain; charset=utf-8"
                (http.Header_Del "Content-Length" hm));
         http.Body := body +:+ ("Error encoding JSON response" +:+ LF);
         http.snapHeader := sent; http.wroteHeader := true |} in
    match json.Marshal data with
    | inl b =>
      if http.bodyAllowedForStatus code then
        {| http.Code := code; http.HeaderMap := hm;
           http.Body := http.Body w +:+ (b +:+ LF);
           http.snapHeader := sent; http.wroteHeader := true |}
      else failed (http.Body w +:+ (b +:+ LF))
    | inr _ => failed (http.Body w)
    end in
  httpcontext.JSON statusCode data c =
    if http.wroteHeader w then
      Done (httpcontext.withWriter c (reply (http.Code w) (http.snapHeader w)))
    else if bool_decide (100 ≤ statusCode ≤ 999) then
      Done (httpcontext.withWriter c (reply statusCode (Some hm)))
    else Panicked ("invalid WriteHeader code " +:+ Itoa statusCode).
Proof.
  intros w hm reply. subst reply. cbv beta zeta.
  destruct (http.wroteHeader w) eqn:Hw.
  - by rewrite JSON_run_written.
  - case_bool_decide as Hc.
    + destruct (json.Marshal data) as [b | err] eqn:Hm.
      * by erewrite JSON_run_ok.
      * by erewrite JSON_run_err.
    + apply JSON_run_invalid; [lia | done].
Qed.

(** [String] in all its cases. *)
Lemma String_run {Arg : Type} (Sprintf : string → list Arg → string)
    (statusCode : Z) (format : string) (values : list Arg) c :
  let w := httpcontext.Writer c in
  let hm := http.Header_Set "Content-Type" "text/plain; charset=utf-8"
              (http.HeaderMap w) in
  httpcontext.String Sprintf statusCode format values c =
    if http.wroteHeader w then
      Done (httpcontext.withWriter c
              {| http.Code := http.Code w; http.HeaderMap := hm;
                 http.Body := http.Body w +:+ Sprintf format values;
                 http.snapHeader := http.snapHeader w;
                 http.wroteHeader := true |})
    else if bool_decide (100 ≤ statusCode ≤ 999) then
      Done (httpcontext.withWriter c
              {| http.Code := statusCode; http.HeaderMap := hm;
                 http.Body := http.Body w +:+ Sprintf format values;
                 http.snapHeader := Some hm;
                 http.wroteHeader := true |})
    else Panicked ("invalid WriteHeader code " +:+ Itoa statusCode).
Proof.
  intros w hm. unfold httpcontext.String. rewrite WriteHeader_cases.
  cbn [http.wroteHeader http.SetHeader]. fold w.
  destruct (http.wroteHeader w) eqn:Hw.
  - cbn [mbind outcome_bind]. rewrite Write_after_header; [| done].
    reflexivity.
  - case_bool_decide; [| done]. cbn [mbind outcome_bind].
    rewrite Write_after_header; [| done]. reflexivity.
Qed.

(** [http.Error] in all its cases. *)
Lemma Error_run w (msg : string) (code : Z) :
  let hm :=
    http.Header_Set "X-Content-Type-Options" "nosniff"
      (http.Header_Set "Content-Type" "text/plain; charset=utf-8"
         (http.Header_Del "Content-Length" (http.HeaderMap w))) in
  http.Error w msg code =
    if http.wroteHeader w then
      Done {| http.Code := http.Code w; http.HeaderMap := hm;
              http.Body := http.Body w +:+ (msg +:+ LF);
              http.snapHeader := http.snapHeader w;
              http.wroteHeader := true |}
    else if bool_decide (100 ≤ code ≤ 999) then
      Done {| http.Code := code; http.HeaderMap := hm;
              http.Body := http.Body w +:+ (msg +:+ LF);
              http.snapHeader := Some hm; http.wroteHeader := true |}
    else Panicked ("invalid WriteHeader code " +:+ Itoa code).
Proof.
  intros hm. unfold http.Error. rewrite WriteHeader_cases.
  cbn [http.wroteHeader http.SetHeader http.DelHeader].
  destruct (http.wroteHeader w) eqn:Hw.
  - cbn [mbind outcome_bind]. rewrite Write_after_header; [| done]. reflexivity.
  - case_bool_decide; [| done]. cbn [mbind outcome_bind].
    rewrite Write_after_header; [| done]. reflexivity.
Qed.

(** X1. On a sink whose status line is open, [Status] with a code from
    100 to 999 returns normally and fixes that status and nothing else:
    the response carries the headers set so far, none added, and the
    body as it was; the request of the context is kept. *)
Theorem Status_response (statusCode : Z) c :
  100 ≤ statusCode ≤ 999 →
  http.wroteHeader (httpcontext.Writer c) = false →
  ∃ c', httpcontext.Status statusCode c = Done c' ∧
    httpcontext.Request c' = httpcontext.Request c ∧
    let resp := http.Result (httpcontext.Writer c') in
    http.StatusCode resp = statusCode ∧
    http.RespHeader resp = http.HeaderMap (httpcontext.Writer c) ∧
    http.RespBody resp = http.Body (httpcontext.Writer c).
Proof.
  intros Hc Hw. unfold httpcontext.Status. rewrite WriteHeader_cases, Hw.
  rewrite bool_decide_true; [| done]. simpl.
  eexists. split; [reflexivity |]. simpl. split; [done |].
  split; [| done]. by apply status_in_range.
Qed.

(** X2. On a sink whose status line is open, [String] with a code from
    100 to 999 returns normally; the response has that status, the
    Content-Type [text/plain; charset=utf-8] in place of any set before,
    every other header as set so far, and the formatted text appended to
    the body. *)
Theorem String_response {Arg : Type} (Sprintf : string → list Arg → string)
    (statusCode : Z) (format : string) (values : list Arg) c :
  100 ≤ statusCode ≤ 999 →
  http.wroteHeader (httpcontext.Writer c) = false →
  ∃ c', httpcontext.String Sprintf statusCode format values c = Done c' ∧
    httpcontext.Request c' = httpcontext.Request c ∧
    let resp := http.Result (httpcontext.Writer c') in
    http.StatusCode resp = statusCode ∧
    http.RespHeader resp !! "Content-Type"
      = Some ["text/plain; charset=utf-8"] ∧
    (∀ key, key ≠ "Content-Type" →
       http.RespHeader resp !! key
         = http.HeaderMap (httpcontext.Writer c) !! key) ∧
    http.RespBody resp
      = http.Body (httpcontext.Writer c) +:+ Sprintf format values.
Proof.
  intros Hc Hw. rewrite String_run, Hw. rewrite bool_decide_true; [| done].
  eexists. split; [reflexivity |]. simpl. split; [done |].
  split; [by apply status_in_range |]. unfold http.Header_Set.
  split; [apply lookup_insert_eq |]. split; [| done].
  intros key Hk. by rewrite lookup_insert_ne.
Qed.

(** X3. The first status line stands. On a sink whose status line is
    written, [Status], [String] and [JSON] return normally whatever the
    status code they are given, in range or not: the response keeps its
    status and the headers already sent, so a Content-Type set by the
    helper does not reach the client; [String] and [JSON] still append
    their text to the body. [JSON] appends the encoding and a line feed
    when the status already written allows a body; when it allows none
    the write fails after it is recorded and the message of
    [http.Error] follows the encoding; for a payload that does not
    marshal the message is all that is appended. *)
Theorem status_line_is_final {A : Type} `{!json.Codec A} {Arg : Type}
    (Sprintf : string → list Arg → string) (statusCode : Z) (data : A)
    (format : string) (values : list Arg) c (sent : http.Header) :
  http.wroteHeader (httpcontext.Writer c) = true →
  http.snapHeader (httpcontext.Writer c) = Some sent →
  let appends (o : outcome httpcontext.Context) (suffix : string) :=
    ∃ c', o = Done c' ∧
      httpcontext.Request c' = httpcontext.Request c ∧
      let resp := http.Result (httpcontext.Writer c) in
      let resp' := http.Result (httpcontext.Writer c') in
      http.StatusCode resp' = http.StatusCode resp ∧
      http.RespHeader resp' = sent ∧
      http.RespBody resp' = http.RespBody resp +:+ suffix in
  appends (httpcontext.Status statusCode c) EmptyString ∧
  appends (httpcontext.String Sprintf statusCode format values c)
    (Sprintf format values) ∧
  appends (httpcontext.JSON statusCode data c)
    match json.Marshal data with
    | inl b =>
      if http.bodyAllowedForStatus (http.Code (httpcontext.Writer c))
      then b +:+ LF
      else (b +:+ LF) +:+ ("Error encoding JSON response" +:+ LF)
    | inr _ => "Error encoding JSON response" +:+ LF
    end.
Proof.
  intros Hw Hs appends. subst appends. cbv beta. split; [| split].
  - unfold httpcontext.Status. rewrite WriteHeader_again; [| done]. simpl.
    eexists. split; [reflexivity |]. simpl. rewrite Hs. simpl.
    by rewrite string_app_nil_r.
  - rewrite String_run, Hw.
    eexists. split; [reflexivity |]. simpl. by rewrite Hs.
  - rewrite JSON_run_written; [| done].
    eexists. split; [reflexivity |].
    destruct (json.Marshal data) as [b | err];
      [destruct (http.bodyAllowedForStatus (http.Code (httpcontext.Writer c))) |];
      simpl; rewrite Hs; by rewrite ?string_app_assoc.
Qed.

(** X4. The helpers panic for one reason only. [Status], [String] and
    [JSON] panic, with the message of [WriteHeader], exactly when the
    status line is open and the status code is outside 100..999; in
    every other case they return normally, whatever the payload, the
    format and the values. *)
Theorem helpers_panic_on_invalid_status_only {A : Type} `{!json.Codec A}
    {Arg : Type} (Sprintf : string → list Arg → string) (statusCode : Z)
    (data : A) (format : string) (values : list Arg) c :
  let rejected :=
    http.wroteHeader (httpcontext.Writer c) = false ∧
    (statusCode < 100 ∨ 999 < statusCode) in
  let behaves (o : outcome httpcontext.Context) :=
    (rejected → o = Panicked ("invalid WriteHeader code " +:+ Itoa statusCode)) ∧
    (¬ rejected → ∃ c', o = Done c') in
  behaves (httpcontext.Status statusCode c) ∧
  behaves (httpcontext.String Sprintf statusCode format values c) ∧
  behaves (httpcontext.JSON statusCode data c).
Proof.
  intros rejected behaves. subst behaves rejected. cbv beta.
  unfold httpcontext.Status. rewrite String_run, JSON_run, WriteHeader_cases.
  destruct (http.wroteHeader (httpcontext.Writer c)) eqn:Hw.
  - split; [| split]; (split; [intros [? _]; done | intros _; by eexists]).
  - case_bool_decide as Hc.
    + split; [| split]; (split; [intros [_ ?]; lia | intros _; by eexists]).
    + split; [| split];
        (split; [done | intros Hn; exfalso; apply Hn; split; [done | lia]]).
Qed.

(** X5. The headers of a [JSON] response. On a sink whose status line is
    open, for a code from 100 to 999 and any payload, marshalling or
    not, the headers sent are those set so far with Content-Type
    replaced by the single value [application/json]. *)
Theorem JSON_sent_headers {A : Type} `{!json.Codec A} (statusCode : Z)
    (data : A) c :
  100 ≤ statusCode ≤ 999 →
  http.wroteHeader (httpcontext.Writer c) = false →
  ∃ c', httpcontext.JSON statusCode data c = Done c' ∧
    let sent := http.RespHeader (http.Result (httpcontext.Writer c')) in
    sent !! "Content-Type" = Some ["application/json"] ∧
    ∀ key, key ≠ "Content-Type" →
      sent !! key = http.HeaderMap (httpcontext.Writer c) !! key.
Proof.
  intros Hcode Hw. rewrite JSON_run, Hw. rewrite bool_decide_true by done.
  eexists. split; [reflexivity |].
  destruct (json.Marshal data) as [b | err];
    [destruct (http.bodyAllowedForStatus statusCode) |];
    simpl; unfold http.Header_Set;
    (split; [apply lookup_insert_eq |]);
    intros key Hk; by rewrite lookup_insert_ne.
Qed.

(** X6. The state the helpers leave. On a sink whose status line is
    open, or written with a snapshot of the headers and a status from
    100 to 999, whenever [Status], [String], [JSON] or [http.NotFound]
    returns, the status line is written, the headers sent are
    snapshotted, and the status of the response is from 100 to 999: no
    helper leaves a response without a valid status. *)
Theorem status_line_written_after_any_helper {A : Type} `{!json.Codec A}
    {Arg : Type} (Sprintf : string → list Arg → string) (statusCode : Z)
    (data : A) (format : string) (values : list Arg) c c' :
  let written w :=
    http.wroteHeader w = true ∧ is_Some (http.snapHeader w) ∧
    100 ≤ http.StatusCode (http.Result w) ≤ 999 in
  http.wroteHeader (httpcontext.Writer c) = false
  ∨ written (httpcontext.Writer c) →
  httpcontext.Status statusCode c = Done c'
  ∨ httpcontext.String Sprintf statusCode format values c = Done c'
  ∨ httpcontext.JSON statusCode data c = Done c'
  ∨ http.NotFound (httpcontext.Writer c) = Done (httpcontext.Writer c') →
  written (httpcontext.Writer c').
Proof.
  intros written Hinv Hrun. subst written. cbv beta in *.
  unfold httpcontext.Status, http.NotFound in Hrun.
  rewrite String_run, JSON_run, Error_run, WriteHeader_cases in Hrun.
  destruct (http.wroteHeader (httpcontext.Writer c)) eqn:Hw.
  - destruct Hinv as [? | (_ & Hsnap & Hcode)]; [done |].
    unfold http.Result in *. simpl in Hcode.
    destruct Hrun as [Hrun | [Hrun | [Hrun | Hrun]]].
    + injection Hrun as <-. simpl. by rewrite Hw.
    + injection Hrun as <-. simpl. done.
    + injection Hrun as <-.
      destruct (json.Marshal data);
        [destruct (http.bodyAllowedForStatus
                     (http.Code (httpcontext.Writer c))) |]; done.
    + injection Hrun as <-. simpl. done.
  - assert (Hin : ∀ code : Z, 100 ≤ code ≤ 999 →
              100 ≤ (if code =? 0 then 200 else code) ≤ 999).
    { intros code Hc. by rewrite status_in_range. }
    unfold http.StatusNotFound in Hrun.
    destruct Hrun as [Hrun | [Hrun | [Hrun | Hrun]]].
    + case_bool_decide; [| done]. injection Hrun as <-. simpl. eauto.
    + case_bool_decide; [| done]. injection Hrun as <-. simpl. eauto.
    + case_bool_decide; [| done]. injection Hrun as <-.
      destruct (json.Marshal data);
        [destruct (http.bodyAllowedForStatus statusCode) |]; simpl; eauto.
    + rewrite bool_decide_true in Hrun by lia. injection Hrun as <-.
      simpl. split; [done |]. split; [eauto | lia].
Qed.

End HelperProperties.

(** ** The bytes of an encoding *)

Lemma htmlSafeText_nil : json.htmlSafeText EmptyString.
Proof. constructor. Qed.

Lemma htmlSafeText_cons (c : ascii) (s : string) :
  0x20 ≤ byte_val c → byte_val c ≠ 60 → byte_val c ≠ 62 → byte_val c ≠ 38 →
  json.htmlSafeText s → json.htmlSafeText (String c s).
Proof. intros ????. unfold json.htmlSafeText. simpl. by constructor. Qed.

Lemma htmlSafeText_app (a b : string) :
  json.htmlSafeText a → json.htmlSafeText b → json.htmlSafeText (a +:+ b).
Proof.
  unfold json.htmlSafeText. intros Ha Hb.
  induction a as [| c a IH]; [done |].
  rewrite string_app_cons. simpl in *. inversion Ha; subst.
  constructor; [done |]. by apply IH.
Qed.

Lemma htmlSafeText_high (s : string) :
  Forall (λ c, 128 ≤ byte_val c) (list_ascii_of_string s) →
  json.htmlSafeText s.
Proof.
  unfold json.htmlSafeText. intros Hs. eapply Forall_impl; [exact Hs |].
  intros c Hc. simpl in Hc. lia.
Qed.

(** A closed text is checked by evaluation. *)
Ltac safe_text :=
  repeat (apply htmlSafeText_cons;
          [vm_compute; congruence | vm_compute; congruence
          | vm_compute; congruence | vm_compute; congruence |]);
  try apply htmlSafeText_nil.

Lemma hex_safe (n : Z) : json.htmlSafeText (String (json.hex n) EmptyString).
Proof.
  unfold json.hex.
  destruct (Z.to_nat n) as [|k]; [safe_text |].
  do 15 (destruct k as [|k]; [safe_text |]).
  safe_text.
Qed.

Lemma escape_byte_safe (b : Z) : json.htmlSafeText (json.escape_byte b).
Proof.
  unfold json.escape_byte.
  destruct ((b =? 92) || (b =? 34)) eqn:Eq.
  - assert (b = 92 ∨ b = 34) as [-> | ->] by lia; safe_text.
  - repeat match goal with
    | |- context [if ?c then _ else _] => destruct c
    end; safe_text.
    apply (htmlSafeText_app (String _ EmptyString) (String _ EmptyString));
      apply hex_safe.
Qed.

(** The bytes of a sequence that [DecodeRuneInString] accepts at a
    leading byte outside ASCII are all outside ASCII. *)
Lemma Decode_take_high (c0 : ascii) (t0 : string) :
  128 ≤ byte_val c0 →
  Forall (λ c, 128 ≤ byte_val c)
    (list_ascii_of_string
       (string_take (utf8.DecodeRuneInString (String c0 t0)).2 (String c0 t0))).
Proof.
  intros H0. unfold utf8.DecodeRuneInString, utf8.RuneSelf.
  destruct (byte_val c0 <? 128) eqn:E0; [lia |].
  destruct (utf8.first (byte_val c0)) as [[[sz lo] hi]|] eqn:Hf;
    [| simpl; by repeat constructor].
  assert (Hlo : 128 ≤ lo).
  { apply first_spec in Hf. lia. }
  destruct (String.length (String c0 t0) <? sz)%nat;
    [simpl; by repeat constructor |].
  destruct t0 as [| c1 t1]; [simpl; by repeat constructor |].
  destruct (utf8.outside lo hi (byte_val c1)) eqn:O1;
    [simpl; by repeat constructor |].
  apply outside_false in O1.
  destruct (sz <=? 2)%nat; [simpl; repeat constructor; lia |].
  destruct t1 as [| c2 t2]; [simpl; by repeat constructor |].
  destruct (utf8.outside 128 191 (byte_val c2)) eqn:O2;
    [simpl; by repeat constructor |].
  apply outside_false in O2.
  destruct (sz <=? 3)%nat; [simpl; repeat constructor; lia |].
  destruct t2 as [| c3 t3]; [simpl; by repeat constructor |].
  destruct (utf8.outside 128 191 (byte_val c3)) eqn:O3;
    [simpl; by repeat constructor |].
  apply outside_false in O3.
  simpl. repeat constructor; lia.
Qed.

Lemma appendString_loop_safe (f : nat) (s : string) :
  json.htmlSafeText (json.appendString_loop f s).
Proof.
  revert s. induction f as [| f IH]; intros s; [apply htmlSafeText_nil |].
  destruct s as [| c t]; [apply htmlSafeText_nil |].
  rewrite appendString_loop_cons. cbv zeta. unfold utf8.RuneSelf.
  pose proof (byte_val_range c) as Hc.
  destruct (byte_val c <? 128) eqn:Eascii.
  - destruct (json.htmlSafeSet (byte_val c)) eqn:Esafe.
    + unfold json.htmlSafeSet in Esafe.
      apply htmlSafeText_cons; [lia | lia | lia | lia | apply IH].
    + apply htmlSafeText_app; [apply escape_byte_safe | apply IH].
  - rewrite Decode_take4.
    pose proof (Decode_take_high c t ltac:(lia)) as Hhigh.
    destruct (utf8.DecodeRuneInString (String c t)) as [r size].
    cbn [snd] in Hhigh.
    destruct ((r =? utf8.RuneError) && (size =? 1)%nat).
    { apply (htmlSafeText_app (String json.BSLASH "ufffd"));
        [safe_text | apply IH]. }
    destruct ((r =? 8232) || (r =? 8233)).
    { apply (htmlSafeText_app (String json.BSLASH "u202")); [safe_text |].
      apply (htmlSafeText_app (String _ EmptyString));
        [apply hex_safe | apply IH]. }
    apply htmlSafeText_app; [by apply htmlSafeText_high | apply IH].
Qed.

Lemma appendString_safe (s : string) : json.htmlSafeText (json.appendString s).
Proof.
  unfold json.appendString, json.quoted.
  apply htmlSafeText_cons; [vm_compute; congruence ..|].
  apply htmlSafeText_app; [apply appendString_loop_safe | safe_text].
Qed.

Lemma Join_safe (elems : list string) (sep : string) :
  Forall json.htmlSafeText elems → json.htmlSafeText sep →
  json.htmlSafeText (json.Join elems sep).
Proof.
  intros He Hs.
  induction He as [| e elems He Hrest IH]; [apply htmlSafeText_nil |].
  destruct elems as [| e' elems']; [done |].
  change (json.Join (e :: e' :: elems') sep)
    with (e +:+ sep +:+ json.Join (e' :: elems') sep).
  apply htmlSafeText_app; [done |]. by apply htmlSafeText_app.
Qed.

Lemma marshalStringMap_safe (m : gmap string string) :
  json.htmlSafeText (json.marshalStringMap m).
Proof.
  unfold json.marshalStringMap.
  apply (htmlSafeText_app "{"); [safe_text |].
  apply htmlSafeText_app; [| safe_text].
  apply Join_safe; [| safe_text].
  apply Forall_fmap, Forall_true. intros kv. unfold json.member.
  apply htmlSafeText_app; [apply appendString_safe |].
  apply (htmlSafeText_app ":"); [safe_text | apply appendString_safe].
Qed.

Lemma string_of_uint_safe (d : Decimal.uint) :
  json.htmlSafeText (NilEmpty.string_of_uint d).
Proof.
  induction d; cbn [NilEmpty.string_of_uint];
    [apply htmlSafeText_nil
    | apply htmlSafeText_cons; [vm_compute; congruence ..| done] ..].
Qed.

Lemma Itoa_safe (n : Z) : json.htmlSafeText (Itoa n).
Proof.
  destruct (Itoa_shape n) as (sign & ds & -> & Hsign & Hds).
  apply htmlSafeText_app.
  - destruct Hsign as [-> | ->]; safe_text.
  - destruct Hds as [-> | (c & t & d & _ & _ & ->)]; [safe_text |].
    apply string_of_uint_safe.
Qed.

Lemma marshalUser_safe (u : handlers.User) :
  json.htmlSafeText (handlers.marshalUser u).
Proof.
  unfold handlers.marshalUser.
  repeat first
    [ apply appendString_safe | apply Itoa_safe
    | apply htmlSafeText_app | safe_text ].
Qed.

Lemma marshalUsers_safe (us : list handlers.User) :
  json.htmlSafeText
    ("[" +:+ json.Join (handlers.marshalUser <$> us) "," +:+ "]").
Proof.
  apply (htmlSafeText_app "["); [safe_text |].
  apply htmlSafeText_app; [| safe_text].
  apply Join_safe; [| safe_text].
  apply Forall_fmap, Forall_true. intros u. apply marshalUser_safe.
Qed.

Lemma string_app_cancel_l (a b c : string) : a +:+ b = a +:+ c → b = c.
Proof.
  induction a as [| x a IH]; [done |].
  rewrite !string_app_cons. intros [= H]. by apply IH.
Qed.

Lemma string_app_cancel_r (a b c : string) : a +:+ c = b +:+ c → a = b.
Proof.
  revert b. induction a as [| x a IH]; intros [| y b] Heq.
  - done.
  - apply (f_equal String.length) in Heq.
    rewrite string_app_nil_l, string_length_app in Heq. simpl in Heq. lia.
  - apply (f_equal String.length) in Heq.
    rewrite string_app_nil_l, string_length_app in Heq. simpl in Heq. lia.
  - rewrite !string_app_cons in Heq. injection Heq as -> Heq.
    f_equal. by apply IH.
Qed.

Section BodyProperties.
Context `{!ContentSniffer}.

(** X7. The body of a [JSON] response is one line that can stand inside
    HTML. For every [map[string]string] and every [[]User], valid UTF-8
    or not, on a sink that is open and empty and with a status from 100
    to 999 that allows a body, so none of 1xx, 204 and 304, the body is
    an encoding followed by one line feed, and the encoding holds no
    control character, so no line feed of its own, and none of the
    characters [<], [>] and [&]: the encoder writes those as escapes. *)
Theorem JSON_body_is_one_safe_line (statusCode : Z) (c : httpcontext.Context) :
  100 ≤ statusCode ≤ 999 →
  http.bodyAllowedForStatus statusCode = true →
  http.wroteHeader (httpcontext.Writer c) = false →
  http.Body (httpcontext.Writer c) = EmptyString →
  (∀ m : gmap string string,
     ∃ c' b, httpcontext.JSON statusCode m c = Done c' ∧
       http.RespBody (http.Result (httpcontext.Writer c')) = b +:+ LF ∧
       json.htmlSafeText b) ∧
  (∀ us : list handlers.User,
     ∃ c' b, httpcontext.JSON statusCode us c = Done c' ∧
       http.RespBody (http.Result (httpcontext.Writer c')) = b +:+ LF ∧
       json.htmlSafeText b).
Proof.
  intros Hcode Hallowed Hw Hbody. split.
  - intros m. eexists. exists (json.marshalStringMap m).
    split; [by apply JSON_run_ok |]. rewrite Hallowed. simpl. rewrite Hbody.
    split; [done | apply marshalStringMap_safe].
  - intros us. eexists. eexists.
    split; [by apply JSON_run_ok |]. rewrite Hallowed. simpl. rewrite Hbody.
    split; [done | apply marshalUsers_safe].
Qed.

(** X8. Bodies tell payloads apart. For payloads that their codec
    reads back from its own encoding, as every [map[string]string] of
    valid UTF-8 and every [[]User] of [int64] identifiers and valid
    UTF-8 names is, [JSON] is injective: called on the same context with
    two different payloads, whatever the status code and the state of
    the sink, it leaves two different bodies. *)
Theorem different_payloads_different_bodies {A : Type} `{!json.Codec A}
    (statusCode : Z) (data1 data2 : A) (c c1 c2 : httpcontext.Context) :
  json.readsBack data1 →
  json.readsBack data2 →
  data1 ≠ data2 →
  httpcontext.JSON statusCode data1 c = Done c1 →
  httpcontext.JSON statusCode data2 c = Done c2 →
  http.RespBody (http.Result (httpcontext.Writer c1))
    ≠ http.RespBody (http.Result (httpcontext.Writer c2)).
Proof.
  intros (b1 & Hm1 & Hback1) (b2 & Hm2 & Hback2) Hne Hrun1 Hrun2 Hbody.
  apply Hne.
  assert (Hb : b1 +:+ LF = b2 +:+ LF).
  { rewrite JSON_run, Hm1 in Hrun1. rewrite JSON_run, Hm2 in Hrun2.
    destruct (http.wroteHeader (httpcontext.Writer c)).
    - injection Hrun1 as <-. injection Hrun2 as <-.
      destruct (http.bodyAllowedForStatus (http.Code (httpcontext.Writer c)));
        simpl in Hbody; [| apply string_app_cancel_r in Hbody];
        by apply string_app_cancel_l in Hbody.
    - case_bool_decide; [| done].
      injection Hrun1 as <-. injection Hrun2 as <-.
      destruct (http.bodyAllowedForStatus statusCode);
        simpl in Hbody; [| apply string_app_cancel_r in Hbody];
        by apply string_app_cancel_l in Hbody. }
  rewrite Hb in Hback1. rewrite Hback1 in Hback2. by injection Hback2.
Qed.

End BodyProperties.

(** ** Registration and dispatch *)

Section RegistrationProperties.
Context `{!ContentSniffer}.

Implicit Types (r : router.Router) (w : http.ResponseRecorder)
  (req : http.Request) (handler : router.HandlerFunc)
  (h : httpcontext.Context → outcome httpcontext.Context).

(** A run of [ServeHTTP], by the entry of the request's pair. *)
Lemma ServeHTTP_run r w req :
  let ctx := {| httpcontext.Writer := w; httpcontext.Request := req |} in
  let entry := router.handlerFor r (http.Method req)
                 (http.Path (http.RequestURL req)) in
  router.ServeHTTP w req r =
    {| router.trace :=
         router.RLock ::
           match entry with
           | Some handler => [router.Invoke handler ctx]
           | None => []
           end ++ [router.RUnlock];
       router.after := r;
       router.result :=
         match entry with
         | Some handler => router.invoke handler ctx
         | None => http.NotFound w
         end |}.
Proof.
  intros ctx entry. subst entry.
  destruct (router.handlerFor r (http.Method req)
              (http.Path (http.RequestURL req))) as [handler|] eqn:Hf.
  - by rewrite (ServeHTTP_hit _ _ _ _ Hf).
  - by rewrite (ServeHTTP_miss _ _ _ Hf).
Qed.

(** The run of a registration followed by [k]. *)
Lemma addRoute_then {B : Type} (k : router.M B) r method path handler :
  let x := router.addRoute method path handler r in
  let y := k (router.after x) in
  (_ ← router.addRoute method path handler; k) r =
    {| router.trace := router.trace x ++ router.trace y;
       router.after := router.after y;
       router.result := router.result y |}.
Proof.
  intros x y. subst x y. cbv [mbind router.M_bind].
  by rewrite addRoute_run.
Qed.

Lemma lastRegistered_cons reg regs method path :
  router.lastRegistered (reg :: regs) method path =
    match router.lastRegistered regs method path with
    | Some handler => Some handler
    | None => if decide (reg.1 = (method, path)) then Some reg.2 else None
    end.
Proof.
  unfold router.lastRegistered. rewrite filter_cons.
  destruct (decide (reg.1 = (method, path))) as [Heq | Hne].
  - rewrite last_cons.
    by destruct (last (filter (λ reg0, reg0.1 = (method, path)) regs)).
  - by destruct (last (filter (λ reg0, reg0.1 = (method, path)) regs)).
Qed.

Lemma addRoutes_cons regs r method path handler :
  router.addRoutes ((method, path, handler) :: regs) r =
    let x := router.addRoute method path handler r in
    let y := router.addRoutes regs (router.after x) in
    {| router.trace := router.trace x ++ router.trace y;
       router.after := router.after y;
       router.result := router.result y |}.
Proof. cbn [router.addRoutes]. by rewrite addRoute_then. Qed.

Lemma handlerFor_addRoutes regs r method path :
  router.handlerFor (router.after (router.addRoutes regs r)) method path =
    match router.lastRegistered regs method path with
    | Some handler => Some handler
    | None => router.handlerFor r method path
    end.
Proof.
  revert r. induction regs as [| [[m p] hd] regs IH]; intros r; [done |].
  rewrite addRoutes_cons. cbn [router.after]. rewrite IH.
  rewrite lastRegistered_cons.
  destruct (router.lastRegistered regs method path) as [h'|]; [done |].
  rewrite handlerFor_addRoute. cbn [fst snd].
  destruct (decide ((m, p) = (method, path))) as [Heq | Hne].
  - injection Heq as -> ->. by rewrite decide_True.
  - rewrite decide_False; [done |]. intros [-> ->]. done.
Qed.

Lemma result_addRoutes regs r :
  router.result (router.addRoutes regs r) = Done tt.
Proof.
  revert r. induction regs as [| [[m p] hd] regs IH]; intros r; [done |].
  rewrite addRoutes_cons. cbn [router.result]. apply IH.
Qed.

Lemma mutexOps_app (t1 t2 : list router.event) :
  router.mutexOps (t1 ++ t2)
    = (router.mutexOps t1 ++ router.mutexOps t2)%list.
Proof. unfold router.mutexOps. apply omap_app. Qed.

Lemma logLines_app (t1 t2 : list router.event) :
  router.logLines (t1 ++ t2)
    = (router.logLines t1 ++ router.logLines t2)%list.
Proof. unfold router.logLines. apply omap_app. Qed.

Lemma sync_run_app mu ops1 ops2 mu' :
  sync.run mu ops1 = sync.Free mu' →
  sync.run mu (ops1 ++ ops2)%list = sync.run mu' ops2.
Proof.
  revert mu. induction ops1 as [| o ops1 IH]; intros mu Hrun; simpl in *.
  - by injection Hrun as ->.
  - destruct (sync.step mu o) as [mu1 | |]; [by apply IH | done | done].
Qed.

Lemma mutexOps_ServeHTTP r w req :
  router.mutexOps (router.trace (router.ServeHTTP w req r))
    = [sync.RLock; sync.RUnlock].
Proof.
  rewrite ServeHTTP_run. cbn [router.trace].
  by destruct (router.handlerFor r (http.Method req)
                 (http.Path (http.RequestURL req))).
Qed.

Lemma mutexOps_addRoute r method path handler :
  router.mutexOps (router.trace (router.addRoute method path handler r))
    = [sync.Lock; sync.Unlock].
Proof. by rewrite addRoute_run. Qed.

Lemma run_addRoutes_unlocked regs r :
  sync.run sync.unlocked
    (router.mutexOps (router.trace (router.addRoutes regs r)))
  = sync.Free sync.unlocked.
Proof.
  revert r. induction regs as [| [[m p] hd] regs IH]; intros r; [done |].
  rewrite addRoutes_cons. cbn [router.trace]. rewrite mutexOps_app.
  rewrite (sync_run_app _ _ _ sync.unlocked); [apply IH |].
  by rewrite mutexOps_addRoute.
Qed.

Lemma logLines_addRoutes regs r :
  router.logLines (router.trace (router.addRoutes regs r)) =
    (λ reg, "Registered route: " +:+ reg.1.1 +:+ " " +:+ reg.1.2) <$> regs.
Proof.
  revert r. induction regs as [| [[m p] hd] regs IH]; intros r; [done |].
  rewrite addRoutes_cons. cbn [router.trace]. rewrite logLines_app, IH.
  by rewrite addRoute_run.
Qed.

(** The route table after two registrations. *)
Lemma routes_insert_comm (rs : gmap string (gmap string router.HandlerFunc))
    method1 path1 handler1 method2 path2 handler2 :
  (method1, path1) ≠ (method2, path2) →
  let set method path handler (t : gmap string (gmap string router.HandlerFunc)) :=
    <[method := <[path := handler]> (default ∅ (t !! method))]> t in
  set method2 path2 handler2 (set method1 path1 handler1 rs)
    = set method1 path1 handler1 (set method2 path2 handler2 rs).
Proof.
  intros Hne set. subst set. cbv beta.
  destruct (decide (method1 = method2)) as [-> | Hm].
  - rewrite !lookup_insert_eq. simpl. rewrite !insert_insert_eq.
    f_equal. apply insert_insert_ne. intros ->. done.
  - rewrite !lookup_insert_ne by done. by apply insert_insert_ne.
Qed.

Lemma routes_insert_twice (rs : gmap string (gmap string router.HandlerFunc))
    method path handler1 handler2 :
  let set handler (t : gmap string (gmap string router.HandlerFunc)) :=
    <[method := <[path := handler]> (default ∅ (t !! method))]> t in
  set handler2 (set handler1 rs) = set handler2 rs.
Proof.
  intros set. subst set. cbv beta.
  rewrite lookup_insert_eq. simpl. by rewrite !insert_insert_eq.
Qed.

(** X9. A registration changes the dispatch of its own pair only: a
    request that differs from the registered pair in its method or in
    its path, be it by the case of a letter or by a trailing slash, is
    dispatched after the registration as it was before, with the same
    events and the same outcome. *)
Theorem registration_is_local r w req method path handler :
  (http.Method req, http.Path (http.RequestURL req)) ≠ (method, path) →
  let r' := router.after (router.addRoute method path handler r) in
  router.trace (router.ServeHTTP w req r')
    = router.trace (router.ServeHTTP w req r) ∧
  router.result (router.ServeHTTP w req r')
    = router.result (router.ServeHTTP w req r).
Proof.
  intros Hne r'. subst r'. rewrite !ServeHTTP_run.
  cbn [router.trace router.result]. rewrite handlerFor_addRoute.
  rewrite decide_False; [done |]. intros [Hm Hp]. apply Hne. by rewrite Hm, Hp.
Qed.

(** X10. [GET] and [POST] register under the methods [GET] and [POST]:
    after both are called for the same path, in either order, the router
    is the same, a GET request for the path runs the handler given to
    [GET], a POST request the one given to [POST], and a request with
    any other method is answered as before the two calls. *)
Theorem GET_and_POST_share_a_path r w path hg hp :
  let rGP := router.after (router.POST path (Some hp)
               (router.after (router.GET path (Some hg) r))) in
  let rPG := router.after (router.GET path (Some hg)
               (router.after (router.POST path (Some hp) r))) in
  let ctx method :=
    {| httpcontext.Writer := w;
       httpcontext.Request := router.requestFor method path |} in
  rGP = rPG ∧
  router.result (router.ServeHTTP w (router.requestFor "GET" path) rGP)
    = httpcontext.Writer <$> hg (ctx "GET") ∧
  router.result (router.ServeHTTP w (router.requestFor "POST" path) rGP)
    = httpcontext.Writer <$> hp (ctx "POST") ∧
  ∀ method, method ≠ "GET" → method ≠ "POST" →
    router.result (router.ServeHTTP w (router.requestFor method path) rGP)
      = router.result (router.ServeHTTP w (router.requestFor method path) r).
Proof.
  intros rGP rPG ctx.
  assert (Heq : rGP = rPG).
  { subst rGP rPG. unfold router.GET, router.POST. rewrite !addRoute_run.
    simpl. f_equal. rewrite !lookup_insert_ne by done.
    by rewrite insert_insert_ne. }
  split; [done |].
  assert (Hfor : ∀ method,
    router.handlerFor rGP method path =
      if decide (method = "POST") then Some (Some hp)
      else if decide (method = "GET") then Some (Some hg)
      else router.handlerFor r method path).
  { intros method. subst rGP. unfold router.GET, router.POST.
    rewrite !handlerFor_addRoute.
    destruct (decide (method = "POST")) as [-> | Hp].
    - by rewrite decide_True.
    - rewrite decide_False by (by intros [? _]).
      destruct (decide (method = "GET")) as [-> | Hg].
      + by rewrite decide_True.
      + by rewrite decide_False by (by intros [? _]). }
  split; [| split].
  - rewrite ServeHTTP_run. cbn [router.result router.requestFor http.Method
      http.Path http.RequestURL]. rewrite Hfor. simpl. done.
  - rewrite ServeHTTP_run. cbn [router.result router.requestFor http.Method
      http.Path http.RequestURL]. rewrite Hfor. simpl. done.
  - intros method Hg Hp. rewrite !ServeHTTP_run.
    cbn [router.result router.requestFor http.Method http.Path
         http.RequestURL]. rewrite Hfor.
    rewrite decide_False by done. by rewrite decide_False by done.
Qed.

(** X11. Registrations of two different pairs commute: made in either
    order they leave the same router. *)
Theorem registrations_commute r method1 path1 handler1 method2 path2 handler2 :
  (method1, path1) ≠ (method2, path2) →
  router.after (router.addRoute method2 path2 handler2
    (router.after (router.addRoute method1 path1 handler1 r)))
  = router.after (router.addRoute method1 path1 handler1
      (router.after (router.addRoute method2 path2 handler2 r))).
Proof.
  intros Hne. rewrite !addRoute_run. cbn [router.after router.routes].
  f_equal. by apply routes_insert_comm.
Qed.

(** X12. A second registration of a pair replaces the first without a
    trace in the route table: the router is the one that the second
    registration alone gives. *)
Theorem registration_overwrites r method path handler1 handler2 :
  router.after (router.addRoute method path handler2
    (router.after (router.addRoute method path handler1 r)))
  = router.after (router.addRoute method path handler2 r).
Proof.
  rewrite !addRoute_run. cbn [router.after router.routes].
  f_equal. apply routes_insert_twice.
Qed.

(** X13. A router built by registrations answers by the last
    registration of each pair. After any list of registrations, every
    one of which returns normally, the entry of a pair is the handler of
    the last registration that names it, and is as before for a pair
    that none names; on a router made by [New], a request is dispatched
    to that handler, and gets the answer of [http.NotFound] when no
    registration names its pair. *)
Theorem registrations_last_wins regs r w req method path :
  let x := router.addRoutes regs r in
  router.result x = Done tt ∧
  router.handlerFor (router.after x) method path =
    match router.lastRegistered regs method path with
    | Some handler => Some handler
    | None => router.handlerFor r method path
    end ∧
  router.result
    (router.ServeHTTP w req (router.after (router.addRoutes regs router.New)))
  = match router.lastRegistered regs (http.Method req)
            (http.Path (http.RequestURL req)) with
    | Some handler =>
      router.invoke handler
        {| httpcontext.Writer := w; httpcontext.Request := req |}
    | None => http.NotFound w
    end.
Proof.
  intros x. subst x. split; [apply result_addRoutes |].
  split; [apply handlerFor_addRoutes |].
  rewrite ServeHTTP_run. cbn [router.result]. rewrite handlerFor_addRoutes.
  by destruct (router.lastRegistered regs (http.Method req)
                 (http.Path (http.RequestURL req))).
Qed.

(** X14. Every call gives the mutex back. Started on the unlocked mutex,
    the calls that a dispatch makes on [r.mu], whether the request
    matches or not and whether the handler returns or panics, the calls
    of a registration, those of a list of registrations, and those of
    registrations followed by a dispatch, all go through without
    blocking and leave the mutex unlocked. *)
Theorem calls_release_the_mutex r w req regs method path handler :
  sync.run sync.unlocked
    (router.mutexOps (router.trace (router.ServeHTTP w req r)))
    = sync.Free sync.unlocked ∧
  sync.run sync.unlocked
    (router.mutexOps (router.trace (router.addRoute method path handler r)))
    = sync.Free sync.unlocked ∧
  sync.run sync.unlocked
    (router.mutexOps (router.trace (router.addRoutes regs r)))
    = sync.Free sync.unlocked ∧
  sync.run sync.unlocked
    (router.mutexOps
       (router.trace (router.addRoutes regs r)
          ++ router.trace (router.ServeHTTP w req
                             (router.after (router.addRoutes regs r))))%list)
    = sync.Free sync.unlocked.
Proof.
  split; [by rewrite mutexOps_ServeHTTP |].
  split; [by rewrite mutexOps_addRoute |].
  split; [apply run_addRoutes_unlocked |].
  rewrite mutexOps_app.
  rewrite (sync_run_app _ _ _ sync.unlocked); [| apply run_addRoutes_unlocked].
  by rewrite mutexOps_ServeHTTP.
Qed.

(** X15. What the lock held across the handler means for a handler.
    When [ServeHTTP], started on the unlocked mutex, invokes the matched
    handler, the mutex is in a state from which the calls of a
    registration block at [Lock], for ever if it is the handler's own
    goroutine that registers, while the calls of another dispatch go
    through and leave the state as it was. *)
Theorem registration_inside_handler_deadlocks r w req handler
    w' req' method path handler' :
  router.handlerFor r (http.Method req) (http.Path (http.RequestURL req))
    = Some handler →
  let ctx := {| httpcontext.Writer := w; httpcontext.Request := req |} in
  ∃ before rest mu,
    router.trace (router.ServeHTTP w req r)
      = (before ++ router.Invoke handler ctx :: rest)%list ∧
    sync.run sync.unlocked (router.mutexOps before) = sync.Free mu ∧
    sync.run mu
      (router.mutexOps (router.trace (router.addRoute method path handler' r)))
      = sync.Blocked ∧
    sync.run mu
      (router.mutexOps (router.trace (router.ServeHTTP w' req' r)))
      = sync.Free mu.
Proof.
  intros Hf ctx.
  exists [router.RLock], [router.RUnlock],
    {| sync.writer := false; sync.readers := 1 |}.
  split; [by rewrite (ServeHTTP_hit _ _ _ _ Hf) |].
  split; [done |].
  split; [by rewrite mutexOps_addRoute | by rewrite mutexOps_ServeHTTP].
Qed.

(** X16. A [nil] handler is registered like any other and fails at
    dispatch: [addRoute] returns normally and the pair has an entry, so
    the matching request is not answered with 404; [ServeHTTP] calls the
    [nil] function, which panics, the deferred unlock still runs, and
    the router is unchanged. *)
Theorem nil_handler_panics_at_dispatch r w method path :
  let x := router.addRoute method path None r in
  let req := router.requestFor method path in
  let ctx := {| httpcontext.Writer := w; httpcontext.Request := req |} in
  let y := router.ServeHTTP w req (router.after x) in
  router.result x = Done tt ∧
  router.handlerFor (router.after x) method path = Some None ∧
  router.result y =
    Panicked "runtime error: invalid memory address or nil pointer dereference" ∧
  router.trace y = [router.RLock; router.Invoke None ctx; router.RUnlock] ∧
  router.after y = router.after x.
Proof.
  intros x req ctx y.
  assert (Hreg : router.handlerFor (router.after x) (http.Method req)
                   (http.Path (http.RequestURL req)) = Some None).
  { subst x. rewrite handlerFor_addRoute. by rewrite decide_True. }
  split; [subst x; by rewrite addRoute_run |]. split; [done |].
  subst y. by rewrite (ServeHTTP_hit _ _ _ _ Hreg).
Qed.

(** X17. The headers of the 404. For a request without an entry, on a
    sink whose status line is open, the response carries the
    Content-Type [text/plain; charset=utf-8] and the header
    [X-Content-Type-Options: nosniff], in place of any value set before;
    every header other than these two and Content-Length is sent as it
    was set. *)
Theorem not_found_response_headers r w req :
  router.handlerFor r (http.Method req) (http.Path (http.RequestURL req))
    = None →
  http.wroteHeader w = false →
  ∃ w', router.result (router.ServeHTTP w req r) = Done w' ∧
    let sent := http.RespHeader (http.Result w') in
    sent !! "Content-Type" = Some ["text/plain; charset=utf-8"] ∧
    sent !! "X-Content-Type-Options" = Some ["nosniff"] ∧
    ∀ key, key ≠ "Content-Type" → key ≠ "X-Content-Type-Options" →
           key ≠ "Content-Length" →
           sent !! key = http.HeaderMap w !! key.
Proof.
  intros Hmiss Hw. rewrite (ServeHTTP_miss _ _ _ Hmiss). cbn [router.result].
  unfold http.NotFound. rewrite Error_run, Hw.
  rewrite bool_decide_true by (unfold http.StatusNotFound; lia).
  eexists. split; [reflexivity |]. simpl.
  unfold http.Header_Set, http.Header_Del.
  split; [| split].
  - rewrite lookup_insert_ne by done. by rewrite lookup_insert_eq.
  - by rewrite lookup_insert_eq.
  - intros key H1 H2 H3. rewrite !lookup_insert_ne by done.
    by rewrite lookup_delete_ne.
Qed.

(** X18. A miss after the status line. For a request without an entry,
    on a sink whose status line is already written, [ServeHTTP] returns
    normally and the response keeps its status and the headers already
    sent: it is not a 404, and only the text of [http.NotFound] is
    appended to the body. *)
Theorem dispatch_miss_after_status_line r w req (sent : http.Header) :
  router.handlerFor r (http.Method req) (http.Path (http.RequestURL req))
    = None →
  http.wroteHeader w = true →
  http.snapHeader w = Some sent →
  ∃ w', router.result (router.ServeHTTP w req r) = Done w' ∧
    http.StatusCode (http.Result w') = http.StatusCode (http.Result w) ∧
    http.RespHeader (http.Result w') = sent ∧
    http.RespBody (http.Result w')
      = http.RespBody (http.Result w) +:+ ("404 page not found" +:+ LF).
Proof.
  intros Hmiss Hw Hs. rewrite (ServeHTTP_miss _ _ _ Hmiss). cbn [router.result].
  unfold http.NotFound. rewrite Error_run, Hw.
  eexists. split; [reflexivity |]. unfold http.Result. simpl.
  by rewrite Hs.
Qed.

(** X19. Only registration writes to the log: each registration of a
    list, a repeated one included, logs the one line
    [Registered route: <method> <path>], in the order of the
    registrations; a dispatch logs nothing, hit or miss. *)
Theorem registrations_log_one_line_each r w req regs :
  router.logLines (router.trace (router.addRoutes regs r)) =
    (λ reg, "Registered route: " +:+ reg.1.1 +:+ " " +:+ reg.1.2) <$> regs ∧
  router.logLines (router.trace (router.ServeHTTP w req r)) = [].
Proof.
  split; [apply logLines_addRoutes |].
  rewrite ServeHTTP_run. cbn [router.trace].
  by destruct (router.handlerFor r (http.Method req)
                 (http.Path (http.RequestURL req))).
Qed.

End RegistrationProperties.

(** ** The application *)

Section ApplicationProperties.
Context `{!ContentSniffer}.

Implicit Types (r : router.Router) (w : http.ResponseRecorder)
  (req : http.Request) (c : httpcontext.Context).

Lemma RegisterRoutes_addRoutes r :
  handlers.RegisterRoutes r =
    router.addRoutes
      [ ("GET", "/health", Some handlers.HealthCheckHandler);
        ("GET", "/users", Some handlers.GetUsersHandler);
        ("POST", "/users", Some handlers.CreateUserHandler) ] r.
Proof.
  unfold handlers.RegisterRoutes, router.GET, router.POST.
  cbn [router.addRoutes]. rewrite !addRoute_then. cbv zeta.
  rewrite !addRoute_run. cbn [router.trace router.after router.result].
  cbv [mret router.M_ret]. cbn [router.trace router.after router.result].
  by rewrite !app_nil_r.
Qed.

Lemma handlerFor_RegisterRoutes r method path :
  router.handlerFor (router.after (handlers.RegisterRoutes r)) method path =
    if decide ((method, path) = ("GET", "/health"))
    then Some (Some handlers.HealthCheckHandler)
    else if decide ((method, path) = ("GET", "/users"))
    then Some (Some handlers.GetUsersHandler)
    else if decide ((method, path) = ("POST", "/users"))
    then Some (Some handlers.CreateUserHandler)
    else router.handlerFor r method path.
Proof.
  unfold handlers.RegisterRoutes, router.GET, router.POST.
  rewrite !addRoute_then. cbn [router.after].
  rewrite !handlerFor_addRoute.
  destruct (decide ((method, path) = ("GET", "/health"))) as [Heq | Hhealth].
  { injection Heq as -> ->.
    rewrite decide_False by (by intros [? _]).
    rewrite decide_False by (by intros [_ ?]).
    by rewrite decide_True. }
  destruct (decide ((method, path) = ("GET", "/users"))) as [Heq | Husers].
  { injection Heq as -> ->.
    rewrite decide_False by (by intros [? _]). by rewrite decide_True. }
  destruct (decide ((method, path) = ("POST", "/users"))) as [Heq | Hpost].
  { injection Heq as -> ->. by rewrite decide_True. }
  rewrite decide_False by (intros [-> ->]; done).
  rewrite decide_False by (intros [-> ->]; done).
  by rewrite decide_False by (intros [-> ->]; done).
Qed.

(** X20. [RegisterRoutes] on any router is the three registrations GET
    [/health], GET [/users] and POST [/users] in that order: it returns
    normally, these three pairs then have the application's handlers,
    whatever they had before, every other pair keeps its entry, and the
    log gets the three lines in that order. *)
Theorem RegisterRoutes_table r method path :
  let x := handlers.RegisterRoutes r in
  x = router.addRoutes
        [ ("GET", "/health", Some handlers.HealthCheckHandler);
          ("GET", "/users", Some handlers.GetUsersHandler);
          ("POST", "/users", Some handlers.CreateUserHandler) ] r ∧
  router.result x = Done tt ∧
  router.handlerFor (router.after x) method path =
    (if decide ((method, path) = ("GET", "/health"))
     then Some (Some handlers.HealthCheckHandler)
     else if decide ((method, path) = ("GET", "/users"))
     then Some (Some handlers.GetUsersHandler)
     else if decide ((method, path) = ("POST", "/users"))
     then Some (Some handlers.CreateUserHandler)
     else router.handlerFor r method path) ∧
  router.logLines (router.trace x) =
    ["Registered route: GET /health"; "Registered route: GET /users";
     "Registered route: POST /users"].
Proof.
  intros x. subst x. split; [apply RegisterRoutes_addRoutes |].
  split; [| split].
  - rewrite RegisterRoutes_addRoutes. apply result_addRoutes.
  - apply handlerFor_RegisterRoutes.
  - rewrite RegisterRoutes_addRoutes. by rewrite logLines_addRoutes.
Qed.

Lemma after_RegisterRoutes r :
  router.after (handlers.RegisterRoutes r) =
    router.after
      (router.addRoute "POST" "/users" (Some handlers.CreateUserHandler)
        (router.after
          (router.addRoute "GET" "/users" (Some handlers.GetUsersHandler)
            (router.after
              (router.addRoute "GET" "/health"
                 (Some handlers.HealthCheckHandler) r))))).
Proof.
  unfold handlers.RegisterRoutes, router.GET, router.POST.
  by rewrite !addRoute_then.
Qed.

(** X21. [RegisterRoutes] is idempotent on the route table: called a
    second time it returns normally and leaves the router that the
    first call made, while the log gets its three lines again. *)
Theorem RegisterRoutes_idempotent r :
  let x := handlers.RegisterRoutes r in
  let y := handlers.RegisterRoutes (router.after x) in
  router.result y = Done tt ∧
  router.after y = router.after x ∧
  router.logLines (router.trace y) = router.logLines (router.trace x).
Proof.
  intros x y. subst x y. split; [| split].
  - rewrite RegisterRoutes_addRoutes. apply result_addRoutes.
  - assert (Hcomm : ∀ r0 method1 path1 handler1 method2 path2 handler2,
      (method1, path1) ≠ (method2, path2) →
      router.after (router.addRoute method2 path2 handler2
        (router.after (router.addRoute method1 path1 handler1 r0)))
      = router.after (router.addRoute method1 path1 handler1
          (router.after (router.addRoute method2 path2 handler2 r0)))).
    { intros. rewrite !addRoute_run. cbn [router.after router.routes].
      f_equal. by apply routes_insert_comm. }
    assert (Htwice : ∀ r0 method1 path1 handler1 handler2,
      router.after (router.addRoute method1 path1 handler2
        (router.after (router.addRoute method1 path1 handler1 r0)))
      = router.after (router.addRoute method1 path1 handler2 r0)).
    { intros. rewrite !addRoute_run. cbn [router.after router.routes].
      f_equal. apply routes_insert_twice. }
    rewrite !after_RegisterRoutes.
    rewrite (Hcomm _ "POST" "/users" _ "GET" "/health" _) by done.
    rewrite (Hcomm _ "GET" "/users" _ "GET" "/health" _) by done.
    rewrite Htwice.
    rewrite (Hcomm _ "POST" "/users" _ "GET" "/users" _) by done.
    by rewrite !Htwice.
  - rewrite !RegisterRoutes_addRoutes. by rewrite !logLines_addRoutes.
Qed.

(** X22. [GetUsersHandler], on any context whose sink is open and empty,
    whatever the request: it returns normally with status 200, the
    Content-Type [application/json], and a body that unmarshals to the
    two users Hanzala, with identifier 1, and Areeb, with identifier
    2. *)
Theorem GetUsersHandler_response c :
  http.wroteHeader (httpcontext.Writer c) = false →
  http.Body (httpcontext.Writer c) = EmptyString →
  ∃ c', handlers.GetUsersHandler c = Done c' ∧
    httpcontext.Request c' = httpcontext.Request c ∧
    let resp := http.Result (httpcontext.Writer c') in
    http.StatusCode resp = 200 ∧
    http.Header_Get "Content-Type" (http.RespHeader resp)
      = "application/json" ∧
    json.Unmarshal (http.RespBody resp)
      = Some [ {| handlers.ID := 1; handlers.Name := "Hanzala" |};
               {| handlers.ID := 2; handlers.Name := "Areeb" |} ].
Proof.
  intros Hw Hbody. unfold handlers.GetUsersHandler. cbv zeta.
  erewrite JSON_run_ok; [| unfold http.StatusOK; lia | done | reflexivity].
  eexists. split; [reflexivity |]. split; [done |].
  cbn [httpcontext.withWriter httpcontext.Writer]. rewrite Hbody.
  split; [done |]. split; [apply Header_Get_Set |].
  vm_compute. reflexivity.
Qed.

(** X23. [CreateUserHandler], on any context whose sink is open and
    empty, whatever the request: it returns normally with status 201,
    the Content-Type [application/json], and a body that unmarshals to
    the map of [status] to [user created successfully]. *)
Theorem CreateUserHandler_response c :
  http.wroteHeader (httpcontext.Writer c) = false →
  http.Body (httpcontext.Writer c) = EmptyString →
  ∃ c', handlers.CreateUserHandler c = Done c' ∧
    httpcontext.Request c' = httpcontext.Request c ∧
    let resp := http.Result (httpcontext.Writer c') in
    http.StatusCode resp = 201 ∧
    http.Header_Get "Content-Type" (http.RespHeader resp)
      = "application/json" ∧
    json.Unmarshal (http.RespBody resp)
      = Some ({[ "status" := "user created successfully" ]}
                : gmap string string).
Proof.
  intros Hw Hbody. unfold handlers.CreateUserHandler.
  erewrite JSON_run_ok; [| unfold http.StatusCreated; lia | done | reflexivity].
  eexists. split; [reflexivity |]. split; [done |].
  cbn [httpcontext.withWriter httpcontext.Writer]. rewrite Hbody.
  split; [done |]. split; [apply Header_Get_Set |].
  vm_compute. reflexivity.
Qed.

(** X24. The application answers three routes and no other. On the
    router that [RegisterRoutes] makes of a new one, every request, on
    any sink, has the outcome of [HealthCheckHandler] for GET [/health],
    of [GetUsersHandler] for GET [/users], of [CreateUserHandler] for
    POST [/users], each on the context of the sink and the request, and
    the answer of [http.NotFound] for every other method and path. *)
Theorem application_answers_three_routes w req :
  let r := router.after (handlers.RegisterRoutes router.New) in
  let ctx := {| httpcontext.Writer := w; httpcontext.Request := req |} in
  let pair := (http.Method req, http.Path (http.RequestURL req)) in
  router.result (router.ServeHTTP w req r) =
    if decide (pair = ("GET", "/health"))
    then httpcontext.Writer <$> handlers.HealthCheckHandler ctx
    else if decide (pair = ("GET", "/users"))
    then httpcontext.Writer <$> handlers.GetUsersHandler ctx
    else if decide (pair = ("POST", "/users"))
    then httpcontext.Writer <$> handlers.CreateUserHandler ctx
    else http.NotFound w.
Proof.
  intros r ctx pair. subst r pair. rewrite ServeHTTP_run.
  cbn [router.result]. rewrite handlerFor_RegisterRoutes.
  repeat case_decide; done.
Qed.

End ApplicationProperties.

(** X25. No response is sniffed. [JSON], [String] and the 404 of
    [ServeHTTP] set their Content-Type and write the status line before
    the first byte of the body, so [http.DetectContentType] is never
    consulted: whatever it would answer, [JSON] and [String] have the
    same outcome on every context, [ServeHTTP] has the same run on every
    router, sink and request, and the application answers every request
    alike. *)
Theorem responses_never_sniffed (s1 s2 : ContentSniffer) :
  (∀ (A : Type) (codec : json.Codec A) statusCode (data : A) c,
     @httpcontext.JSON s1 A codec statusCode data c
       = @httpcontext.JSON s2 A codec statusCode data c) ∧
  (∀ (Arg : Type) (Sprintf : string → list Arg → string) statusCode format
     values c,
     @httpcontext.String s1 Arg Sprintf statusCode format values c
       = @httpcontext.String s2 Arg Sprintf statusCode format values c) ∧
  (∀ r w req, @router.ServeHTTP s1 w req r = @router.ServeHTTP s2 w req r) ∧
  (∀ w req,
     router.result (@router.ServeHTTP s1 w req
                      (router.after (@handlers.RegisterRoutes s1 router.New)))
     = router.result (@router.ServeHTTP s2 w req
                        (router.after (@handlers.RegisterRoutes s2 router.New)))).
Proof.
  assert (HJ : ∀ (A : Type) (codec : json.Codec A) statusCode (data : A) c,
     @httpcontext.JSON s1 A codec statusCode data c
       = @httpcontext.JSON s2 A codec statusCode data c).
  { intros. by rewrite (@JSON_run s1), (@JSON_run s2). }
  assert (HN : ∀ w, @http.NotFound s1 w = @http.NotFound s2 w).
  { intros. unfold http.NotFound. by rewrite (@Error_run s1), (@Error_run s2). }
  split; [done |]. split; [| split].
  - intros. by rewrite (@String_run s1), (@String_run s2).
  - intros. rewrite (@ServeHTTP_run s1), (@ServeHTTP_run s2).
    by rewrite HN.
  - intros. rewrite (@ServeHTTP_run s1), (@ServeHTTP_run s2).
    cbn [router.result].
    rewrite (@handlerFor_RegisterRoutes s1), (@handlerFor_RegisterRoutes s2).
    repeat case_decide; [| | | apply HN];
      cbn [router.invoke fmap outcome_fmap];
      unfold handlers.HealthCheckHandler, handlers.GetUsersHandler,
        handlers.CreateUserHandler;
      by rewrite HJ.
Qed.

(** * Concrete inputs

    The router of [TestRouter_ServeHTTP_Found], whose handler answers
    with a bare 200, the application's router, and new recorders; content
    sniffing is [binarySniffer]. *)

(** The status and the decoded body of a response, for an application
    request on a new recorder. *)
Example get_users_scenario :
  let r := router.after (@handlers.RegisterRoutes binarySniffer router.New) in
  (λ w, (http.StatusCode (http.Result w),
         json.Unmarshal (http.RespBody (http.Result w))))
    <$> router.result (@router.ServeHTTP binarySniffer http.NewRecorder
                         (router.requestFor "GET" "/users") r)
  = Done (200, Some [ {| handlers.ID := 1; handlers.Name := "Hanzala" |};
                      {| handlers.ID := 2; handlers.Name := "Areeb" |} ]).
Proof. vm_compute. reflexivity. Qed.

Example post_users_scenario :
  let r := router.after (@handlers.RegisterRoutes binarySniffer router.New) in
  (λ w, (http.StatusCode (http.Result w),
         json.Unmarshal (http.RespBody (http.Result w))))
    <$> router.result (@router.ServeHTTP binarySniffer http.NewRecorder
                         (router.requestFor "POST" "/users") r)
  = Done (201, Some ({[ "status" := "user created successfully" ]}
                       : gmap string string)).
Proof. vm_compute. reflexivity. Qed.

(** [JSON(204, {"status":"ok"})] on a new recorder: the status allows
    no body, [Write] records the encoding and reports
    [ErrBodyNotAllowed], and the message of [http.Error] follows. *)
Example no_content_scenario :
  let m : gmap string string := {[ "status" := "ok" ]} in
  let c := {| httpcontext.Writer := http.NewRecorder;
              httpcontext.Request := router.requestFor "GET" "/health" |} in
  (λ c', (http.StatusCode (http.Result (httpcontext.Writer c')),
          http.RespBody (http.Result (httpcontext.Writer c'))))
    <$> @httpcontext.JSON binarySniffer _ _ 204 m c
  = Done (204, (json.marshalStringMap m +:+ LF)
                 +:+ ("Error encoding JSON response" +:+ LF)).
Proof. vm_compute. reflexivity. Qed.

Example unknown_route_scenario :
  let r := router.after (@handlers.RegisterRoutes binarySniffer router.New) in
  (λ w, (http.StatusCode (http.Result w), http.RespBody (http.Result w)))
    <$> router.result (@router.ServeHTTP binarySniffer http.NewRecorder
                         (router.requestFor "GET" "/non-existent-route") r)
  = Done (404, "404 page not found" +:+ LF).
Proof. vm_compute. reflexivity. Qed.

Example wrong_method_scenario :
  let r := router.after (@handlers.RegisterRoutes binarySniffer router.New) in
  (λ w, (http.StatusCode (http.Result w), http.RespBody (http.Result w)))
    <$> router.result (@router.ServeHTTP binarySniffer http.NewRecorder
                         (router.requestFor "POST" "/health") r)
  = Done (404, "404 page not found" +:+ LF).
Proof. vm_compute. reflexivity. Qed.

Lemma dispatch_invokes_registered_handler_witness :
  let h := httpcontext.Status http.StatusOK in
  let r := router.after (router.GET "/test" (Some h) router.New) in
  let req := router.requestFor "GET" "/test" in
  let ctx := {| httpcontext.Writer := http.NewRecorder;
                httpcontext.Request := req |} in
  let x := @router.ServeHTTP binarySniffer http.NewRecorder req r in
  router.handlerFor r "GET" "/test" = Some (Some h) ∧
  router.invocations (router.trace x) = [(Some h, ctx)] ∧
  router.trace x = [router.RLock; router.Invoke (Some h) ctx; router.RUnlock] ∧
  router.result x = httpcontext.Writer <$> h ctx.
Proof.
  intros h r req ctx x.
  assert (Hreg : router.handlerFor r (http.Method req)
                   (http.Path (http.RequestURL req)) = Some (Some h))
    by (vm_compute; reflexivity).
  split; [exact Hreg |].
  exact (@dispatch_invokes_registered_handler binarySniffer r
           http.NewRecorder req h Hreg).
Defined.

Lemma dispatch_miss_is_404_witness :
  let r := router.after (router.GET "/test" (Some (λ c, Done c)) router.New) in
  let req := router.requestFor "POST" "/test" in
  let x := @router.ServeHTTP binarySniffer http.NewRecorder req r in
  router.handlerFor r "POST" "/test" = None ∧
  router.invocations (router.trace x) = [] ∧
  router.result x = @http.NotFound binarySniffer http.NewRecorder ∧
  ∃ w', router.result x = Done w' ∧
        http.StatusCode (http.Result w') = 404 ∧
        http.Code w' = 404 ∧
        http.RespBody (http.Result w')
          = http.Body http.NewRecorder +:+ ("404 page not found" +:+ LF).
Proof.
  intros r req x.
  assert (Hmiss : router.handlerFor r (http.Method req)
                    (http.Path (http.RequestURL req)) = None)
    by (vm_compute; reflexivity).
  split; [exact Hmiss |].
  exact (@dispatch_miss_is_404 binarySniffer r http.NewRecorder req Hmiss
           eq_refl).
Defined.

Lemma register_accepts_any_strings_witness :
  let x := router.addRoute "get" "no leading/slash?x=1" None router.New in
  router.result x = Done tt ∧
  router.handlerFor (router.after x) "get" "no leading/slash?x=1" = Some None ∧
  ∀ method' path',
    (method', path') ≠ ("get", "no leading/slash?x=1") →
    router.handlerFor (router.after x) method' path'
      = router.handlerFor router.New method' path'.
Proof.
  apply (register_accepts_any_strings router.New "get" "no leading/slash?x=1"
           None); discriminate.
Defined.

Lemma register_accepts_empty_strings_witness :
  let h := httpcontext.Status http.StatusOK in
  let x := router.addRoute EmptyString EmptyString (Some h) router.New in
  let req := router.requestFor EmptyString EmptyString in
  let ctx := {| httpcontext.Writer := http.NewRecorder;
                httpcontext.Request := req |} in
  let y := @router.ServeHTTP binarySniffer http.NewRecorder req (router.after x) in
  router.result x = Done tt ∧
  router.handlerFor (router.after x) EmptyString EmptyString = Some (Some h) ∧
  router.invocations (router.trace y) = [(Some h, ctx)] ∧
  router.result y = httpcontext.Writer <$> h ctx.
Proof.
  apply (@register_accepts_empty_strings binarySniffer router.New
           http.NewRecorder EmptyString EmptyString
           (httpcontext.Status http.StatusOK)).
  left. reflexivity.
Defined.


(** [JSON(200, make(chan int))] on a new recorder. *)
Lemma JSON_encoding_failure_keeps_status_witness :
  let c := {| httpcontext.Writer := http.NewRecorder;
              httpcontext.Request := router.requestFor "GET" "/health" |} in
  ∃ c', @httpcontext.JSON binarySniffer _ _ 200 (json.MadeChan 1) c = Done c' ∧
    let resp := http.Result (httpcontext.Writer c') in
    http.StatusCode resp = 200 ∧
    http.Header_Get "Content-Type" (http.RespHeader resp) = "application/json" ∧
    http.RespBody resp
      = http.Body http.NewRecorder +:+ ("Error encoding JSON response" +:+ LF).
Proof.
  intros c.
  apply (@JSON_encoding_failure_keeps_status binarySniffer _ _ 200
           (json.MadeChan 1) c "json: unsupported type: chan int");
    [lia | reflexivity | reflexivity].
Defined.


(** C8 as stated fails on the application's router: when the handler of
    GET [/health] is invoked, the run of [ServeHTTP] still holds its read
    lock. *)
Lemma lock_released_before_handler_counterexample :
  let r := router.after (@handlers.RegisterRoutes binarySniffer router.New) in
  let x := @router.ServeHTTP binarySniffer http.NewRecorder
             (router.requestFor "GET" "/health") r in
  router.readLocksAtInvoke 0 (router.trace x) = [1] ∧
  ¬ Forall (λ held, held = 0) (router.readLocksAtInvoke 0 (router.trace x)).
Proof.
  intros r x.
  assert (Hheld : router.readLocksAtInvoke 0 (router.trace x) = [1]).
  { subst x r. destruct (@RegisterRoutes_health binarySniffer) as [_ Hreg].
    rewrite (ServeHTTP_hit _ _ (router.requestFor "GET" "/health") _ Hreg).
    reflexivity. }
  split; [exact Hheld |]. rewrite Hheld. intros Hall.
  apply Forall_cons_1 in Hall as [Hone _]. discriminate Hone.
Qed.

(** ** Further properties at concrete inputs *)

(** [Status(204)] on a sink with one header set. *)
Lemma Status_response_witness :
  let c := {| httpcontext.Writer :=
                http.SetHeader "X-Request-Id" "7" http.NewRecorder;
              httpcontext.Request := router.requestFor "GET" "/test" |} in
  ∃ c', httpcontext.Status 204 c = Done c' ∧
    httpcontext.Request c' = httpcontext.Request c ∧
    let resp := http.Result (httpcontext.Writer c') in
    http.StatusCode resp = 204 ∧
    http.RespHeader resp = http.HeaderMap (httpcontext.Writer c) ∧
    http.RespBody resp = http.Body (httpcontext.Writer c).
Proof.
  intros c. apply (Status_response 204 c); [lia | reflexivity].
Defined.

(** [String(200, "pong")] on a new recorder; without values
    [fmt.Sprintf] gives back a format that has no verb. *)
Lemma String_response_witness :
  let Sprintf (format : string) (values : list string) := format in
  let c := {| httpcontext.Writer := http.NewRecorder;
              httpcontext.Request := router.requestFor "GET" "/ping" |} in
  ∃ c', @httpcontext.String binarySniffer _ Sprintf 200 "pong" [] c = Done c' ∧
    httpcontext.Request c' = httpcontext.Request c ∧
    let resp := http.Result (httpcontext.Writer c') in
    http.StatusCode resp = 200 ∧
    http.RespHeader resp !! "Content-Type"
      = Some ["text/plain; charset=utf-8"] ∧
    (∀ key, key ≠ "Content-Type" →
       http.RespHeader resp !! key
         = http.HeaderMap (httpcontext.Writer c) !! key) ∧
    http.RespBody resp = http.Body (httpcontext.Writer c) +:+ "pong".
Proof.
  intros Sprintf c.
  apply (@String_response binarySniffer _ Sprintf 200 "pong" [] c);
    [lia | reflexivity].
Defined.

(** A sink on which [Status(304)] has been called, then [Status],
    [String] and [JSON] with the code 0, [JSON] with a map as payload:
    304 allows no body, so the message follows the encoding. *)
Lemma status_line_is_final_witness :
  let Sprintf (format : string) (values : list string) := format in
  let m : gmap string string := {[ "status" := "ok" ]} in
  let w := {| http.Code := 304; http.HeaderMap := ∅; http.Body := EmptyString;
              http.snapHeader := Some ∅; http.wroteHeader := true |} in
  let c := {| httpcontext.Writer := w;
              httpcontext.Request := router.requestFor "GET" "/test" |} in
  httpcontext.Status 304
    {| httpcontext.Writer := http.NewRecorder;
       httpcontext.Request := router.requestFor "GET" "/test" |} = Done c ∧
  let appends (o : outcome httpcontext.Context) (suffix : string) :=
    ∃ c', o = Done c' ∧
      httpcontext.Request c' = httpcontext.Request c ∧
      let resp := http.Result (httpcontext.Writer c) in
      let resp' := http.Result (httpcontext.Writer c') in
      http.StatusCode resp' = http.StatusCode resp ∧
      http.RespHeader resp' = ∅ ∧
      http.RespBody resp' = http.RespBody resp +:+ suffix in
  appends (httpcontext.Status 0 c) EmptyString ∧
  appends (@httpcontext.String binarySniffer _ Sprintf 0 "pong" [] c) "pong" ∧
  appends (@httpcontext.JSON binarySniffer _ _ 0 m c)
    ((json.marshalStringMap m +:+ LF)
       +:+ ("Error encoding JSON response" +:+ LF)).
Proof.
  intros Sprintf m w c. split; [reflexivity |].
  exact (@status_line_is_final binarySniffer _ _ _ Sprintf 0 m
           "pong" [] c ∅ eq_refl eq_refl).
Defined.

(** The three helpers with the status 0 on a new recorder. *)
Lemma helpers_panic_on_invalid_status_only_witness :
  let Sprintf (format : string) (values : list string) := format in
  let c := {| httpcontext.Writer := http.NewRecorder;
              httpcontext.Request := router.requestFor "GET" "/test" |} in
  httpcontext.Status 0 c = Panicked "invalid WriteHeader code 0" ∧
  @httpcontext.String binarySniffer _ Sprintf 0 "pong" [] c
    = Panicked "invalid WriteHeader code 0" ∧
  @httpcontext.JSON binarySniffer _ _ 0 (json.MadeChan 1) c
    = Panicked "invalid WriteHeader code 0".
Proof.
  intros Sprintf c.
  assert (Hrejected : http.wroteHeader (httpcontext.Writer c) = false ∧
                      (0 < 100 ∨ 999 < 0)) by (split; [reflexivity | lia]).
  destruct (@helpers_panic_on_invalid_status_only binarySniffer _ _ _ Sprintf
              0 (json.MadeChan 1) "pong" [] c)
    as ((Hstatus & _) & (Hstring & _) & (Hjson & _)).
  split; [exact (Hstatus Hrejected) |].
  split; [exact (Hstring Hrejected) | exact (Hjson Hrejected)].
Defined.

(** [JSON(200, make(chan int))] on a sink on which the handler has set
    a Content-Type and one more header. *)
Lemma JSON_sent_headers_witness :
  let w := http.SetHeader "Content-Type" "text/html"
             (http.SetHeader "X-Request-Id" "7" http.NewRecorder) in
  let c := {| httpcontext.Writer := w;
              httpcontext.Request := router.requestFor "GET" "/test" |} in
  ∃ c', @httpcontext.JSON binarySniffer _ _ 200 (json.MadeChan 1) c = Done c' ∧
    let sent := http.RespHeader (http.Result (httpcontext.Writer c')) in
    sent !! "Content-Type" = Some ["application/json"] ∧
    ∀ key, key ≠ "Content-Type" →
      sent !! key = http.HeaderMap (httpcontext.Writer c) !! key.
Proof.
  intros w c.
  apply (@JSON_sent_headers binarySniffer _ _ 200 (json.MadeChan 1) c);
    [lia | reflexivity].
Defined.

(** [JSON] with the status 200 on a new recorder. *)
Lemma JSON_body_is_one_safe_line_witness :
  let c := {| httpcontext.Writer := http.NewRecorder;
              httpcontext.Request := router.requestFor "GET" "/test" |} in
  (∀ m : gmap string string,
     ∃ c' b, @httpcontext.JSON binarySniffer _ _ 200 m c = Done c' ∧
       http.RespBody (http.Result (httpcontext.Writer c')) = b +:+ LF ∧
       json.htmlSafeText b) ∧
  (∀ us : list handlers.User,
     ∃ c' b, @httpcontext.JSON binarySniffer _ _ 200 us c = Done c' ∧
       http.RespBody (http.Result (httpcontext.Writer c')) = b +:+ LF ∧
       json.htmlSafeText b).
Proof.
  intros c.
  apply (@JSON_body_is_one_safe_line binarySniffer 200 c);
    [lia | reflexivity | reflexivity | reflexivity].
Defined.

(** [JSON(200, make(chan int))] on a new recorder, then [Status(0)]. *)
Lemma status_line_written_after_any_helper_witness :
  let Sprintf (format : string) (values : list string) := format in
  let written w :=
    http.wroteHeader w = true ∧ is_Some (http.snapHeader w) ∧
    100 ≤ http.StatusCode (http.Result w) ≤ 999 in
  let c := {| httpcontext.Writer := http.NewRecorder;
              httpcontext.Request := router.requestFor "GET" "/test" |} in
  ∃ c1 c2,
    @httpcontext.JSON binarySniffer _ _ 200 (json.MadeChan 1) c = Done c1 ∧
    written (httpcontext.Writer c1) ∧
    httpcontext.Status 0 c1 = Done c2 ∧
    written (httpcontext.Writer c2).
Proof.
  intros Sprintf written c.
  eexists. eexists. split; [reflexivity |].
  match goal with |- ?W ∧ _ => assert (H1 : W) end.
  { apply (@status_line_written_after_any_helper binarySniffer _ _ _ Sprintf
             200 (json.MadeChan 1) "pong" [] c);
      [left; reflexivity | right; right; left; reflexivity]. }
  split; [exact H1 |]. split; [reflexivity |].
  eapply (@status_line_written_after_any_helper binarySniffer _ _ _ Sprintf
            0 (json.MadeChan 1) "pong" []);
    [right; exact H1 | left; reflexivity].
Defined.

(** Two health reports on a new recorder. *)
Lemma different_payloads_different_bodies_witness :
  let m1 : gmap string string := {[ "status" := "ok" ]} in
  let m2 : gmap string string := {[ "status" := "down" ]} in
  let c := {| httpcontext.Writer := http.NewRecorder;
              httpcontext.Request := router.requestFor "GET" "/health" |} in
  ∃ c1 c2,
    @httpcontext.JSON binarySniffer _ _ 200 m1 c = Done c1 ∧
    @httpcontext.JSON binarySniffer _ _ 200 m2 c = Done c2 ∧
    http.RespBody (http.Result (httpcontext.Writer c1))
      ≠ http.RespBody (http.Result (httpcontext.Writer c2)).
Proof.
  intros m1 m2 c.
  assert (Hvalid : ∀ v : string, utf8.ValidString v = true →
            json.readsBack ({[ "status" := v ]} : gmap string string)).
  { intros v Hv. exists (json.marshalStringMap {[ "status" := v ]}).
    split; [reflexivity |]. apply stringmap_round_trip.
    apply map_Forall_singleton. split; [reflexivity | exact Hv]. }
  assert (Hne : m1 ≠ m2).
  { intros Heq.
    assert (Hl : m1 !! "status" = m2 !! "status") by (by rewrite Heq).
    vm_compute in Hl. discriminate Hl. }
  eexists. eexists. split; [reflexivity |]. split; [reflexivity |].
  exact (@different_payloads_different_bodies binarySniffer _ _ 200 m1 m2 c
           _ _ (Hvalid "ok" eq_refl) (Hvalid "down" eq_refl) Hne
           eq_refl eq_refl).
Defined.

(** The router of [TestRouter_ServeHTTP_Found]: the route GET [/test],
    with a handler that answers with a bare 200. *)
Lemma registration_is_local_witness :
  let h := httpcontext.Status http.StatusOK in
  let r' := router.after (router.addRoute "GET" "/test" (Some h) router.New) in
  let req := router.requestFor "GET" "/test/" in
  router.trace (@router.ServeHTTP binarySniffer http.NewRecorder req r')
    = router.trace (@router.ServeHTTP binarySniffer http.NewRecorder req
                      router.New) ∧
  router.result (@router.ServeHTTP binarySniffer http.NewRecorder req r')
    = router.result (@router.ServeHTTP binarySniffer http.NewRecorder req
                       router.New).
Proof.
  intros h r' req.
  apply (@registration_is_local binarySniffer router.New http.NewRecorder req
           "GET" "/test" (Some h)).
  discriminate.
Defined.

(** The two registrations of [/users] that [RegisterRoutes] makes. *)
Lemma registrations_commute_witness :
  router.after (router.addRoute "POST" "/users" None
    (router.after (router.addRoute "GET" "/users" None router.New)))
  = router.after (router.addRoute "GET" "/users" None
      (router.after (router.addRoute "POST" "/users" None router.New))).
Proof.
  apply (registrations_commute router.New "GET" "/users" None
           "POST" "/users" None).
  discriminate.
Defined.

Lemma registration_inside_handler_deadlocks_witness :
  let h := httpcontext.Status http.StatusOK in
  let r := router.after (router.addRoute "GET" "/test" (Some h) router.New) in
  let req := router.requestFor "GET" "/test" in
  let ctx := {| httpcontext.Writer := http.NewRecorder;
                httpcontext.Request := req |} in
  ∃ before rest mu,
    router.trace (@router.ServeHTTP binarySniffer http.NewRecorder req r)
      = (before ++ router.Invoke (Some h) ctx :: rest)%list ∧
    sync.run sync.unlocked (router.mutexOps before) = sync.Free mu ∧
    sync.run mu
      (router.mutexOps
         (router.trace (router.addRoute "GET" "/late" (Some h) r)))
      = sync.Blocked ∧
    sync.run mu
      (router.mutexOps
         (router.trace (@router.ServeHTTP binarySniffer http.NewRecorder req r)))
      = sync.Free mu.
Proof.
  intros h r req ctx.
  assert (Hreg : router.handlerFor r (http.Method req)
                   (http.Path (http.RequestURL req)) = Some (Some h))
    by (vm_compute; reflexivity).
  exact (@registration_inside_handler_deadlocks binarySniffer r
           http.NewRecorder req (Some h) http.NewRecorder req
           "GET" "/late" (Some h) Hreg).
Defined.

(** The request of [TestRouter_ServeHTTP_NotFound]. *)
Lemma not_found_response_headers_witness :
  let h (c : httpcontext.Context) := Done c in
  let r := router.after (router.addRoute "GET" "/exists" (Some h) router.New) in
  let w := http.SetHeader "X-Request-Id" "7" http.NewRecorder in
  let req := router.requestFor "GET" "/does-not-exist" in
  ∃ w', router.result (@router.ServeHTTP binarySniffer w req r) = Done w' ∧
    let sent := http.RespHeader (http.Result w') in
    sent !! "Content-Type" = Some ["text/plain; charset=utf-8"] ∧
    sent !! "X-Content-Type-Options" = Some ["nosniff"] ∧
    ∀ key, key ≠ "Content-Type" → key ≠ "X-Content-Type-Options" →
           key ≠ "Content-Length" →
           sent !! key = http.HeaderMap w !! key.
Proof.
  intros h r w req.
  assert (Hmiss : router.handlerFor r (http.Method req)
                    (http.Path (http.RequestURL req)) = None)
    by (vm_compute; reflexivity).
  exact (@not_found_response_headers binarySniffer r w req Hmiss eq_refl).
Defined.

(** The same request on a sink that already carries the status 200. *)
Lemma dispatch_miss_after_status_line_witness :
  let w := {| http.Code := 200; http.HeaderMap := ∅; http.Body := "hello";
              http.snapHeader := Some ∅; http.wroteHeader := true |} in
  let req := router.requestFor "GET" "/does-not-exist" in
  ∃ w', router.result (@router.ServeHTTP binarySniffer w req router.New)
          = Done w' ∧
    http.StatusCode (http.Result w') = http.StatusCode (http.Result w) ∧
    http.RespHeader (http.Result w') = ∅ ∧
    http.RespBody (http.Result w')
      = http.RespBody (http.Result w) +:+ ("404 page not found" +:+ LF).
Proof.
  intros w req.
  exact (@dispatch_miss_after_status_line binarySniffer router.New w req ∅
           eq_refl eq_refl eq_refl).
Defined.

(** The context of [TestGetUsersHandler]. *)
Lemma GetUsersHandler_response_witness :
  let c := {| httpcontext.Writer := http.NewRecorder;
              httpcontext.Request := router.requestFor "GET" "/users" |} in
  ∃ c', @handlers.GetUsersHandler binarySniffer c = Done c' ∧
    httpcontext.Request c' = httpcontext.Request c ∧
    let resp := http.Result (httpcontext.Writer c') in
    http.StatusCode resp = 200 ∧
    http.Header_Get "Content-Type" (http.RespHeader resp)
      = "application/json" ∧
    json.Unmarshal (http.RespBody resp)
      = Some [ {| handlers.ID := 1; handlers.Name := "Hanzala" |};
               {| handlers.ID := 2; handlers.Name := "Areeb" |} ].
Proof.
  intros c.
  exact (@GetUsersHandler_response binarySniffer c eq_refl eq_refl).
Defined.

Lemma CreateUserHandler_response_witness :
  let c := {| httpcontext.Writer := http.NewRecorder;
              httpcontext.Request := router.requestFor "POST" "/users" |} in
  ∃ c', @handlers.CreateUserHandler binarySniffer c = Done c' ∧
    httpcontext.Request c' = httpcontext.Request c ∧
    let resp := http.Result (httpcontext.Writer c') in
    http.StatusCode resp = 201 ∧
    http.Header_Get "Content-Type" (http.RespHeader resp)
      = "application/json" ∧
    json.Unmarshal (http.RespBody resp)
      = Some ({[ "status" := "user created successfully" ]}
                : gmap string string).
Proof.
  intros c.
  exact (@CreateUserHandler_response binarySniffer c eq_refl eq_refl).
Defined.
